(** * SS-54 document intake and combined-PDF pipeline: a shallow embedding

    The development follows the Python sources of the repository:

    - [app/utils/file_sanitization.py]   ([sanitize_filename], [sanitize_pdf])
    - [app/services/storage_service.py]
        ([retry_file_operation], [detect_mount_type], [get_storage_health],
         [StorageHealthChecker])
    - [app/services/file_service.py]
        ([_validate_file_content], [save_file], [delete_file])
    - [app/services/pdf_generation_service.py]
        ([PDFValidator], [PDFMerger], [generate_combined_pdf],
         [ensure_combined_pdf], [ensure_combined_pdfs_batch])
    - [app/services/document_service.py] ([create_document], [delete_document])
    - [app/services/image_processing.py]
        ([ImageValidator], [ImageNormalizer], [ImageConverter],
         [MetadataStripper])
    - [app/web/admin/pdf_routes.py]      ([download_generated_pdf])

    Python values are modelled as follows.  A [str] is the list of its
    Unicode code points ([pystr]); [bytes] is a list of [byte]; an [int] is
    a [Z]; a [dict] is a [gmap]; an exception is a constructor of [exn];
    a function that may raise returns an [outcome]; a function with
    effects on the file system or on the database session threads a
    [World].  The first part of the file holds the definitions, module by
    module in the order of the sources; the second part holds the
    theorems. *)

From Stdlib Require Import ZArith NArith List String Ascii QArith Lia Sorted.
From Stdlib.Strings Require Import Byte.
From Stdlib.Numbers Require Import DecimalString.
From stdpp Require Import base gmap list strings.

Open Scope Z_scope.

Set Warnings "-register-all".

(** ** Python strings and exceptions *)

Module Py.

(** A Python [str]: the sequence of its code points. *)
Abbreviation pystr := (list N).

(** A Python [bytes] object. *)
Abbreviation bytes := (list byte).

(** The [str] denoted by an ASCII literal. *)
Definition u (s : string) : pystr := map N_of_ascii (list_ascii_of_string s).

(** [len(x)] as a Python [int]. *)
Definition len {A} (l : list A) : Z := Z.of_nat (length l).

(** The part of Python's Unicode database that the regular expressions
    [\w] and [\s] consult outside ASCII.  Inside ASCII the classes are
    fixed below; for code points from 128 on they are left to the
    database, which the theorems quantify over. *)
Record Unicode := {
  uni_alnum : N -> bool;
  uni_space : N -> bool
}.

Definition ascii_alnum (c : N) : bool :=
  ((48 <=? c) && (c <=? 57) || (65 <=? c) && (c <=? 90) || (97 <=? c) && (c <=? 122))%N.

(** [str.isspace] on ASCII: TAB, LF, VT, FF, CR, FS, GS, RS, US and space. *)
Definition ascii_space (c : N) : bool :=
  ((9 <=? c) && (c <=? 13) || (28 <=? c) && (c <=? 31) || (c =? 32))%N.

(** The class [\w] of [re] on a [str] pattern. *)
Definition re_word (db : Unicode) (c : N) : bool :=
  if (c <? 128)%N then ascii_alnum c || (c =? 95)%N else uni_alnum db c.

(** The class [\s] of [re] on a [str] pattern. *)
Definition re_space (db : Unicode) (c : N) : bool :=
  if (c <? 128)%N then ascii_space c else uni_space db c.

(** [s.replace(c, new)] for a pattern [c] of one character. *)
Definition replace_char (c : N) (new : pystr) (s : pystr) : pystr :=
  flat_map (fun x => if (x =? c)%N then new else [x]) s.

(** [s.replace] of two dots by the empty string: occurrences are
    removed from left to right, without overlap. *)
Fixpoint remove_dotdot (s : pystr) : pystr :=
  match s with
  | [] => []
  | c :: r =>
      match r with
      | d :: r' =>
          if ((c =? 46) && (d =? 46))%N then remove_dotdot r'
          else c :: remove_dotdot r
      | [] => [c]
      end
  end.

(** [s.rfind(c)]: the index of the last occurrence of [c], or [-1]. *)
Fixpoint rfind_from (c : N) (s : pystr) (i : Z) (found : Z) : Z :=
  match s with
  | [] => found
  | x :: r => rfind_from c r (i + 1) (if (x =? c)%N then i else found)
  end.

Definition rfind (c : N) (s : pystr) : Z := rfind_from c s 0 (-1).

(** The slices [s[i:]] and [s[:i]]; a negative index counts from the end. *)
Definition slice_index {A} (s : list A) (i : Z) : nat :=
  if i <? 0 then Z.to_nat (Z.max 0 (len s + i)) else Z.to_nat i.

Definition slice_from {A} (s : list A) (i : Z) : list A := drop (slice_index s i) s.

Definition slice_to {A} (s : list A) (i : Z) : list A := take (slice_index s i) s.

(** [s.strip(chars)]. *)
Fixpoint lstrip (cls : N -> bool) (s : pystr) : pystr :=
  match s with
  | [] => []
  | c :: r => if cls c then lstrip cls r else s
  end.

Definition rstrip (cls : N -> bool) (s : pystr) : pystr := rev (lstrip cls (rev s)).

Definition strip (cls : N -> bool) (s : pystr) : pystr := rstrip cls (lstrip cls s).

(** [re.sub(r"[...]", "_", s)] for a class of single characters. *)
Definition re_sub_class (cls : N -> bool) (s : pystr) : pystr :=
  map (fun c => if cls c then 95%N else c) s.

(** [re.sub(r"[...]+", "_", s)]: every maximal run of characters of the
    class becomes one underscore.  [in_run] tells that the previous
    character belonged to the class. *)
Fixpoint re_sub_runs (cls : N -> bool) (in_run : bool) (s : pystr) : pystr :=
  match s with
  | [] => []
  | c :: r =>
      if cls c then (if in_run then re_sub_runs cls true r else 95%N :: re_sub_runs cls true r)
      else c :: re_sub_runs cls false r
  end.

(** [posixpath.basename]. *)
Definition basename (p : pystr) : pystr := slice_from p (rfind 47 p + 1).

(** [posixpath.splitext] ([genericpath._splitext] with separator [/] and
    extension separator [.]): the extension starts at the last dot,
    unless that dot is followed by a separator or only dots precede it
    in the last path component. *)
Fixpoint all_dots_between (p : pystr) (lo hi : nat) : bool :=
  match hi with
  | O => true
  | S hi' =>
      if (lo <=? hi')%nat then
        match p !! hi' with
        | Some c => (c =? 46)%N && all_dots_between p lo hi'
        | None => all_dots_between p lo hi'
        end
      else true
  end.

Definition splitext (p : pystr) : pystr * pystr :=
  let sepIndex := rfind 47 p in
  let dotIndex := rfind 46 p in
  if (sepIndex <? dotIndex) && negb (all_dots_between p (Z.to_nat (sepIndex + 1)) (Z.to_nat dotIndex))
  then (slice_to p dotIndex, slice_from p dotIndex)
  else (p, []).

(** Python exceptions, by class.  [StorageRetryableError] carries what
    its message is formatted from and its [__cause__]; [OSError] stands
    for the class and its subclasses ([IOError] is an alias of it). *)
Inductive exn : Type :=
  | OSError (msg : string)
  | ImportError (module : string)
  | ValueError (msg : string)
  | PasswordError
  | PdfError (msg : string)
  | FileValidationError (msg : string)
  | ImageValidationError (msg : string)
  | ImageConversionError (msg : string)
  | IntegrityError (constraint : string)
  | StorageRetryableError (msg : storage_message) (cause : option exn)
  | OtherError (cls : string) (msg : string)
with storage_message : Type :=
  | FailedAfter (attempts : Z) (e : exn)
  | UnexpectedInRetry (last : option exn).

(** The result of a call: a value or a raised exception. *)
Inductive outcome (A : Type) : Type :=
  | Return (a : A)
  | Raise (e : exn).

Arguments Return {A} a.
Arguments Raise {A} e.

End Py.

Import Py.

(** ** [app/utils/file_sanitization.py] *)

Module FileSanitization.

(** *** [sanitize_filename] *)

(** The characters replaced at line 54: less-than, greater-than, colon,
    double quote, vertical bar, question mark and asterisk. *)
Definition windows_dangerous : pystr := [60; 62; 58; 34; 124; 63; 42]%N.

(** The class of [re.sub] at line 58: everything but [\w], [\s], the
    dash and the dot. *)
Definition unsafe_char (db : Unicode) (c : N) : bool :=
  negb (re_word db c || re_space db c || (c =? 45)%N || (c =? 46)%N).

(** The class of [re.sub] at line 61: the underscore and [\s]. *)
Definition run_char (db : Unicode) (c : N) : bool :=
  (c =? 95)%N || re_space db c.

(** The characters of [strip] at line 61: underscore, dot and space. *)
Definition strip_char (c : N) : bool :=
  ((c =? 95) || (c =? 46) || (c =? 32))%N.

Definition sanitize_filename (db : Unicode) (filename : pystr) : pystr :=
  match filename with
  | [] => u "file"
  | _ =>
      let filename := replace_char 0 [] filename in
      let filename := remove_dotdot (basename filename) in
      let filename :=
        fold_left (fun f char => replace_char char (u "_") f) windows_dangerous filename in
      let filename := re_sub_class (unsafe_char db) filename in
      let filename := strip strip_char (re_sub_runs (run_char db) false filename) in
      let filename :=
        if 255 <? len filename then
          let '(name, ext) := splitext filename in
          let max_name_len := 255 - len ext in
          slice_to name max_name_len ++ ext
        else filename in
      match filename with
      | [] => u "file"
      | _ => filename
      end
  end.

(** *** PDF documents as [pikepdf] presents them

    An object of the document is a dictionary from names to objects,
    with an opaque payload for whatever it holds besides (a stream, a
    scalar).  The code only tests, reads and deletes keys.  A document
    is its catalog [Root] and the list [pages]. *)

Inductive Object : Type :=
  | Obj (payload : N) (entries : list (string * Object)).

Definition entries (o : Object) : list (string * Object) :=
  match o with Obj _ es => es end.

Definition payload (o : Object) : N :=
  match o with Obj p _ => p end.

Record Pdf := {
  Root : Object;
  pages : list Object
}.

(** [key in obj] *)
Definition contains (obj : Object) (key : string) : bool :=
  existsb (fun kv => String.eqb key (fst kv)) (entries obj).

(** [obj[key]], for a key that is present *)
Definition getitem (obj : Object) (key : string) : option Object :=
  snd <$> List.find (fun kv => String.eqb key (fst kv)) (entries obj).

(** [del obj[key]] *)
Definition delitem (obj : Object) (key : string) : Object :=
  Obj (payload obj) (List.filter (fun kv => negb (String.eqb key (fst kv))) (entries obj)).

(** The effect on [obj] of mutating the object it holds under [key]:
    [names = pdf.Root["/Names"]] is a handle on the catalog's own entry. *)
Definition setitem (obj : Object) (key : string) (v : Object) : Object :=
  Obj (payload obj)
      (map (fun kv => if String.eqb key (fst kv) then (fst kv, v) else kv) (entries obj)).

(** What the code needs of the [pikepdf] library: whether the module
    can be imported, [pikepdf.open] on the bytes of a file, and
    [Pdf.save] to bytes.  [pdf_open] raises [PasswordError] on an
    encrypted document and [PdfError] on one that it cannot parse. *)
Record Pikepdf := {
  importable : bool;
  pdf_open : bytes -> outcome Pdf;
  pdf_save : Pdf -> outcome bytes
}.

(** [pikepdf.new()]: a document with no page. *)
Definition pdf_new : Pdf := {| Root := Obj 0 []; pages := [] |}.

Definition _remove_key_if_exists (obj : Object) (key : string) : bool * Object :=
  if contains obj key then (true, delitem obj key) else (false, obj).

(** The loop over [pdf.pages] at lines 129-132. *)
Fixpoint remove_page_actions (ps : list Object) : bool * list Object :=
  match ps with
  | [] => (false, [])
  | page :: rest =>
      let '(removed, page') := _remove_key_if_exists page "/AA" in
      let '(modified, rest') := remove_page_actions rest in
      (removed || modified, page' :: rest')
  end.

Definition _remove_dangerous_elements (pdf : Pdf) : bool * Pdf :=
  let root := Root pdf in
  let '(modified, root) :=
    match getitem root "/Names" with
    | Some names =>
        let '(js, names) := _remove_key_if_exists names "/JavaScript" in
        let '(ef, names) := _remove_key_if_exists names "/EmbeddedFiles" in
        (js || ef, setitem root "/Names" names)
    | None => (false, root)
    end in
  let '(oa, root) := _remove_key_if_exists root "/OpenAction" in
  let '(aa, root) := _remove_key_if_exists root "/AA" in
  let '(pa, ps) := remove_page_actions (pages pdf) in
  (modified || oa || aa || pa, {| Root := root; pages := ps |}).

(** The [except] clauses of [sanitize_pdf], lines 175-186: every
    exception of the [try] block becomes a [ValueError]. *)
Definition rejection (e : exn) : exn :=
  match e with
  | PasswordError => ValueError "PDF protegido por senha não é permitido"
  | PdfError _ => ValueError "PDF inválido ou corrompido. Por favor, tente outro arquivo."
  | _ => ValueError "Não foi possível processar este PDF. Por favor, tente outro arquivo."
  end.

Definition sanitize_pdf (lib : Pikepdf) (content : bytes) : outcome bytes :=
  if negb (importable lib) then Return content
  else
    match pdf_open lib content with
    | Raise e => Raise (rejection e)
    | Return pdf =>
        let '(modified, pdf) := _remove_dangerous_elements pdf in
        if modified then
          match pdf_save lib pdf with
          | Return output => Return output
          | Raise e => Raise (rejection e)
          end
        else Return content
    end.

End FileSanitization.

(** ** [app/services/storage_service.py] *)

Module StorageService.

(** [range(n)] *)
Definition range (n : Z) : list Z := map Z.of_nat (seq 0 (Z.to_nat n)).

(** The default of [retryable_exceptions]:
    [(OSError, IOError, StorageRetryableError)]. *)
Definition default_retryable (e : exn) : bool :=
  match e with
  | OSError _ | StorageRetryableError _ _ => true
  | _ => false
  end.

Section Retry.

Context {S A : Type}.

(** [time.sleep], as an effect on the state the operation runs in. *)
Variable sleep : Q -> S -> S.

Variable max_retries : Z.
Variable retry_delay : Q.
Variable exponential_backoff : bool.
Variable retryable_exceptions : exn -> bool.

(** The wrapped callable, applied to its arguments. *)
Variable func : S -> outcome A * S.

(** The [for] loop of [wrapper], lines 252-275, over the attempts that
    remain. *)
Fixpoint retry_loop (attempts : list Z) (delay : Q) (last_exception : option exn)
    (s : S) : outcome A * S :=
  match attempts with
  | [] => (Raise (StorageRetryableError (UnexpectedInRetry last_exception) None), s)
  | attempt :: rest =>
      match func s with
      | (Return v, s) => (Return v, s)
      | (Raise e, s) =>
          if retryable_exceptions e then
            if attempt =? max_retries then
              (Raise (StorageRetryableError (FailedAfter (max_retries + 1) e) (Some e)), s)
            else
              let s := sleep delay s in
              retry_loop rest (if exponential_backoff then (delay * 2)%Q else delay) (Some e) s
          else (Raise e, s)
      end
  end.

Definition retry_file_operation (s : S) : outcome A * S :=
  retry_loop (range (max_retries + 1)) retry_delay None s.

End Retry.



(** [time.sleep] recorded in a log of the delays slept. *)
Definition log_sleep (d : Q) (l : list Q) : list Q := l ++ [d].

End StorageService.

(** ** Configuration, tables and the world the services run in

    [app/config.py], [app/models/document.py], [app/models/process.py],
    and the session and file system the services act on. *)

Module Models.

(** [app/config.py]: the settings the pipeline reads. *)
Record Settings := {
  UPLOAD_DIR : pystr;
  MAX_FILE_SIZE : Z;
  STORAGE_RETRY_MAX_ATTEMPTS : Z;
  STORAGE_RETRY_DELAY : Q
}.

(** The defaults of [app/config.py]. *)
Definition default_settings : Settings := {|
  UPLOAD_DIR := u "./uploads";
  MAX_FILE_SIZE := 10485760;
  STORAGE_RETRY_MAX_ATTEMPTS := 3;
  STORAGE_RETRY_DELAY := (1 # 2)%Q
|}.

Abbreviation UUID := N.

Module DocumentType.
Inductive t : Set :=
  | FORMULARIO | DECLARACAO | RECEITA | RELATORIO | DOCUMENTO_PESSOAL | EXAME
  | PDF_COMBINADO | OUTRO.

Definition value (d : t) : string :=
  match d with
  | FORMULARIO => "formulario"
  | DECLARACAO => "declaracao"
  | RECEITA => "receita"
  | RELATORIO => "relatorio"
  | DOCUMENTO_PESSOAL => "documento_pessoal"
  | EXAME => "exame"
  | PDF_COMBINADO => "pdf_combinado"
  | OUTRO => "outro"
  end.

Definition eqb (a b : t) : bool :=
  match a, b with
  | FORMULARIO, FORMULARIO | DECLARACAO, DECLARACAO | RECEITA, RECEITA
  | RELATORIO, RELATORIO | DOCUMENTO_PESSOAL, DOCUMENTO_PESSOAL | EXAME, EXAME
  | PDF_COMBINADO, PDF_COMBINADO | OUTRO, OUTRO => true
  | _, _ => false
  end.
End DocumentType.

Module ValidationStatus.
Inductive t : Set := PENDING | VALID | INVALID.

Definition eqb (a b : t) : bool :=
  match a, b with
  | PENDING, PENDING | VALID, VALID | INVALID, INVALID => true
  | _, _ => false
  end.
End ValidationStatus.

Module ProcessType.
Inductive t : Set := MEDICAMENTO | NUTRICAO | BOMBA | OUTRO.

Definition value (p : t) : string :=
  match p with
  | MEDICAMENTO => "medicamento"
  | NUTRICAO => "nutricao"
  | BOMBA => "bomba"
  | OUTRO => "outro"
  end.
End ProcessType.

(** A row of [documents]. *)
Record Document := {
  doc_id : UUID;
  process_id : UUID;
  document_type : DocumentType.t;
  original_filename : pystr;
  stored_filename : pystr;
  file_path : pystr;
  file_size : Z;
  mime_type : string;
  validation_status : ValidationStatus.t
}.

(** A row of [processes], with the name of its patient
    ([process.patient.name]). *)
Record Process := {
  proc_id : UUID;
  protocol_number : pystr;
  proc_type : ProcessType.t;
  patient_name : pystr
}.

(** A row of [activity_logs] as [generate_combined_pdf] writes it: the
    action and what its description is formatted from. *)
Record ActivityLog := {
  act_process_id : UUID;
  action : string;
  n_documents : Z;
  combined_document : UUID;
  n_admin : Z
}.

(** The record that closes [ensure_combined_pdfs_batch]:
    the numbers of existing, generated and skipped results. *)
Record BatchSummary := {
  existing_count : Z;
  generated_count : Z;
  skipped_count : Z
}.

(** The state the services act on: the file system under the upload
    directory (regular files with their content, and directories), the
    tables as the session sees them, the unread content of the upload
    streams, the delays slept, the batch summaries logged, and the
    source of fresh primary keys ([uuid.uuid4]). *)
Record World := {
  files : gmap pystr bytes;
  dirs : gset pystr;
  documents : list Document;
  processes : list Process;
  activities : list ActivityLog;
  uploads : gmap N bytes;
  slept : list Q;
  summaries : list BatchSummary;
  next_uuid : UUID
}.

Definition with_files (f : gmap pystr bytes) (w : World) : World :=
  {| files := f; dirs := dirs w; documents := documents w; processes := processes w;
     activities := activities w; uploads := uploads w; slept := slept w;
     summaries := summaries w; next_uuid := next_uuid w |}.

Definition with_dirs (d : gset pystr) (w : World) : World :=
  {| files := files w; dirs := d; documents := documents w; processes := processes w;
     activities := activities w; uploads := uploads w; slept := slept w;
     summaries := summaries w; next_uuid := next_uuid w |}.

Definition with_documents (d : list Document) (w : World) : World :=
  {| files := files w; dirs := dirs w; documents := d; processes := processes w;
     activities := activities w; uploads := uploads w; slept := slept w;
     summaries := summaries w; next_uuid := next_uuid w |}.

Definition with_activities (a : list ActivityLog) (w : World) : World :=
  {| files := files w; dirs := dirs w; documents := documents w; processes := processes w;
     activities := a; uploads := uploads w; slept := slept w;
     summaries := summaries w; next_uuid := next_uuid w |}.

Definition with_uploads (x : gmap N bytes) (w : World) : World :=
  {| files := files w; dirs := dirs w; documents := documents w; processes := processes w;
     activities := activities w; uploads := x; slept := slept w;
     summaries := summaries w; next_uuid := next_uuid w |}.

Definition with_slept (l : list Q) (w : World) : World :=
  {| files := files w; dirs := dirs w; documents := documents w; processes := processes w;
     activities := activities w; uploads := uploads w; slept := l;
     summaries := summaries w; next_uuid := next_uuid w |}.

Definition with_summaries (l : list BatchSummary) (w : World) : World :=
  {| files := files w; dirs := dirs w; documents := documents w; processes := processes w;
     activities := activities w; uploads := uploads w; slept := slept w;
     summaries := l; next_uuid := next_uuid w |}.

Definition with_next_uuid (n : UUID) (w : World) : World :=
  {| files := files w; dirs := dirs w; documents := documents w; processes := processes w;
     activities := activities w; uploads := uploads w; slept := slept w;
     summaries := summaries w; next_uuid := n |}.

(** The kinds of access to the storage that may fail. *)
Inductive FsOp : Type :=
  | OpWrite (path : pystr)
  | OpMkdir (path : pystr)
  | OpUnlink (path : pystr).

(** The image libraries (PIL, img2pdf) behind the four stages of
    [app/services/image_processing.py].  [image_validate] raises
    [ImageValidationError]; [image_normalize] and [image_to_pdf] raise
    [ImageConversionError]; [strip_metadata] returns its input when it
    cannot strip. *)
Record ImageInfo := {
  img_format : string;
  img_mode : string;
  img_size : Z * Z;
  img_dpi : option (Z * Z);
  has_transparency : bool
}.

Record Imaging := {
  image_validate : bytes -> outcome ImageInfo;
  strip_metadata : bytes -> string -> bytes;
  image_normalize : bytes -> ImageInfo -> outcome bytes;
  image_to_pdf : bytes -> option (Z * Z) -> outcome bytes
}.

(** What surrounds the code: the settings, the libraries, and the
    faults of the storage (an access fails with the exception given,
    depending on the state of the world; [None] when it goes through). *)
Record Env := {
  settings : Settings;
  unicode : Unicode;
  pikepdf : FileSanitization.Pikepdf;
  filetype_guess : bytes -> option string;
  imaging : Imaging;
  storage_fault : World -> FsOp -> option exn
}.

(** Computations on the world that may raise. *)
Definition M (A : Type) : Type := World -> outcome A * World.

Definition ret {A} (a : A) : M A := fun w => (Return a, w).

Definition raise {A} (e : exn) : M A := fun w => (Raise e, w).

Definition bind {A B} (m : M A) (k : A -> M B) : M B :=
  fun w =>
    match m w with
    | (Return a, w) => k a w
    | (Raise e, w) => (Raise e, w)
    end.

(** [try: m except Exception as e: handler(e)] *)
Definition try_except {A} (m : M A) (handler : exn -> M A) : M A :=
  fun w =>
    match m w with
    | (Return a, w) => (Return a, w)
    | (Raise e, w) => handler e w
    end.

Definition get {A} (f : World -> A) : M A := fun w => (Return (f w), w).

Definition modify (f : World -> World) : M unit := fun w => (Return tt, f w).

End Models.

Import Models.

Declare Scope py_scope.
Delimit Scope py_scope with py.
Notation "x <- m ;; k" := (bind m (fun x => k))
  (at level 100, m at next level, right associativity) : py_scope.
Notation "m ;;; k" := (bind m (fun _ => k))
  (at level 100, right associativity) : py_scope.

Open Scope py_scope.

(** An equation between closed terms, checked by evaluating both sides. *)
Ltac by_evaluation :=
  lazymatch goal with
  | |- @eq ?T ?x ?y => vm_cast_no_check (@eq_refl T y)
  end.

(** ** The file system, as [pathlib] presents it *)

Module Fs.

(** [Path(a) / b], for a relative [b]. *)
Definition joinpath (a b : pystr) : pystr := a ++ u "/" ++ b.

(** [Path.exists] *)
Definition path_exists (w : World) (p : pystr) : bool :=
  bool_decide (is_Some (files w !! p)) || bool_decide (p ∈ dirs w).

(** One directory of [Path.mkdir(parents=True, exist_ok=True)]. *)
Definition mkdir_one (env : Env) (p : pystr) : M unit :=
  fun w =>
    match storage_fault env w (OpMkdir p) with
    | Some e => (Raise e, w)
    | None =>
        if bool_decide (is_Some (files w !! p)) then (Raise (OSError "FileExistsError"), w)
        else (Return tt, with_dirs ({[p]} ∪ dirs w) w)
    end.

(** [Path.mkdir(parents=True, exist_ok=True)] on [base / c1 / ... / cn]:
    [base] and every directory below it on the way are created. *)
Fixpoint mkdir_parents (env : Env) (base : pystr) (components : list pystr) : M unit :=
  mkdir_one env base ;;;
  match components with
  | [] => ret tt
  | c :: rest => mkdir_parents env (joinpath base c) rest
  end.

(** [Path.write_bytes] *)
Definition write_bytes (env : Env) (p : pystr) (data : bytes) : M unit :=
  fun w =>
    match storage_fault env w (OpWrite p) with
    | Some e => (Raise e, w)
    | None =>
        if bool_decide (p ∈ dirs w) then (Raise (OSError "IsADirectoryError"), w)
        else (Return tt, with_files (<[p := data]> (files w)) w)
    end.

(** [Path.unlink] *)
Definition unlink (env : Env) (p : pystr) : M unit :=
  fun w =>
    match storage_fault env w (OpUnlink p) with
    | Some e => (Raise e, w)
    | None =>
        match files w !! p with
        | Some _ => (Return tt, with_files (delete p (files w)) w)
        | None =>
            if bool_decide (p ∈ dirs w) then (Raise (OSError "IsADirectoryError"), w)
            else (Raise (OSError "FileNotFoundError"), w)
        end
    end.

(** [Path.stat().st_size] *)
Definition stat_size (p : pystr) : M Z :=
  fun w =>
    match files w !! p with
    | Some data => (Return (len data), w)
    | None => (Raise (OSError "stat"), w)
    end.

(** [time.sleep], recorded in the world. *)
Definition sleep (d : Q) (w : World) : World :=
  with_slept (StorageService.log_sleep d (slept w)) w.

(** [app/utils/file_utils.py], [file_exists]: a missing or empty path
    is no file. *)
Definition file_exists (w : World) (file_path : pystr) : bool :=
  match file_path with
  | [] => false
  | _ => path_exists w file_path
  end.

End Fs.

(** ** [app/services/file_service.py] *)

Module FileService.

Import FileSanitization.

Definition ALLOWED_MIME_TYPES : list string :=
  ["application/pdf"; "image/jpeg"; "image/png"].

Definition MIME_TO_EXT : list (string * string) :=
  [("application/pdf", ".pdf"); ("image/jpeg", ".jpg"); ("image/png", ".png")].

Definition str_in (x : string) (l : list string) : bool := existsb (String.eqb x) l.

Record ValidationResult := {
  is_valid : bool;
  vr_mime_type : option string;
  error : option string
}.

(** The decimal digits of a natural number. *)
Definition decimal (n : N) : string := NilZero.string_of_uint (N.to_uint n).

(** [n / d] rounded to the nearest integer, ties to the even one, for
    [0 <= n] and [0 < d]. *)
Definition round_half_even (n d : Z) : Z :=
  let q := n / d in
  let r := n mod d in
  if 2 * r <? d then q
  else if d <? 2 * r then q + 1
  else if Z.even q then q else q + 1.

(** [f"{n / d:.0f}"]: the quotient of two integers printed with no
    decimals.  The quotient by [1024 * 1024] is exact in floating point
    for every size below [2 ^ 53]. *)
Definition format_0f (n d : Z) : string :=
  let sign : string := if n <? 0 then "-" else "" in
  (sign ++ decimal (Z.to_N (round_half_even (Z.abs n) d)))%string.

(** The message of the size error, lines 71-76. *)
Definition size_error (st : Settings) : string :=
  ("Arquivo muito grande. Tamanho máximo: " ++ format_0f (MAX_FILE_SIZE st) (1024 * 1024) ++ "MB")%string.

Definition unrecognized_error : string := "Não foi possível identificar o tipo de arquivo".

Definition not_allowed_error : string := "Tipo de arquivo não permitido. Use: PDF, JPG, PNG".

Definition detect_mime_type (env : Env) (content : bytes) : option string :=
  filetype_guess env content.

Definition _validate_file_content (env : Env) (content : bytes) (file_size : Z) : ValidationResult :=
  if MAX_FILE_SIZE (settings env) <? file_size then
    {| is_valid := false; vr_mime_type := None; error := Some (size_error (settings env)) |}
  else
    match detect_mime_type env content with
    | None => {| is_valid := false; vr_mime_type := None; error := Some unrecognized_error |}
    | Some mime_type =>
        if negb (str_in mime_type ALLOWED_MIME_TYPES) then
          {| is_valid := false; vr_mime_type := Some mime_type; error := Some not_allowed_error |}
        else {| is_valid := true; vr_mime_type := Some mime_type; error := None |}
    end.

Definition get_file_extension (mime_type : string) : string :=
  match List.find (fun kv => String.eqb mime_type (fst kv)) MIME_TO_EXT with
  | Some kv => snd kv
  | None => ".bin"
  end.

(** [str.lower] on ASCII. *)
Definition lower_ascii (a : ascii) : ascii :=
  let n := nat_of_ascii a in
  if ((65 <=? n) && (n <=? 90))%nat then ascii_of_nat (n + 32) else a.

Fixpoint lower (s : string) : string :=
  match s with
  | EmptyString => EmptyString
  | String a r => String (lower_ascii a) (lower r)
  end.

(** [app/services/image_processing.py], [convert_image_to_pdf]. *)
Definition convert_image_to_pdf (env : Env) (image_bytes : bytes) : outcome bytes :=
  match image_validate (imaging env) image_bytes with
  | Raise e => Raise e
  | Return image_info =>
      let stripped_bytes :=
        strip_metadata (imaging env) image_bytes ("image/" ++ lower (img_format image_info))%string in
      match image_normalize (imaging env) stripped_bytes image_info with
      | Raise e => Raise e
      | Return normalized_bytes =>
          image_to_pdf (imaging env) normalized_bytes (img_dpi image_info)
      end
  end.

(** [get_upload_dir] *)
Definition get_upload_dir (env : Env) : M pystr :=
  let upload_dir := UPLOAD_DIR (settings env) in
  Fs.mkdir_parents env upload_dir [] ;;;
  ret upload_dir.

(** [get_process_upload_dir] *)
Definition get_process_upload_dir (env : Env) (patient_name protocol_number : pystr) : M pystr :=
  let sanitized_patient := sanitize_filename (unicode env) patient_name in
  base <- get_upload_dir env ;;
  let upload_dir := Fs.joinpath (Fs.joinpath base sanitized_patient) protocol_number in
  Fs.mkdir_parents env base [sanitized_patient; protocol_number] ;;;
  ret upload_dir.

(** [app/services/document_service.py], [get_document_type_index]. *)
Definition get_document_type_index (process_id : UUID) (document_type : DocumentType.t) : M Z :=
  get (fun w =>
         len (List.filter (fun d => (Models.process_id d =? process_id)%N
                                    && DocumentType.eqb (Models.document_type d) document_type)
                          (documents w)) + 1).

(** [file.file.read()]: the unread content of the upload, which is
    consumed. *)
Definition read_upload (file : N) : M bytes :=
  fun w =>
    (Return (default [] (uploads w !! file)), with_uploads (<[file := []]> (uploads w)) w).

(** An [outcome] as a computation. *)
Definition lift {A} (o : outcome A) : M A :=
  match o with
  | Return a => ret a
  | Raise e => raise e
  end.

(** [detected == mime], for the optional result of the sniffing. *)
Definition is_mime (detected : option string) (mime : string) : bool :=
  match detected with
  | Some d => String.eqb d mime
  | None => false
  end.

(** The handler of lines 175-177. *)
Definition image_error (e : exn) : exn :=
  match e with
  | ImageValidationError msg | ImageConversionError msg => FileValidationError msg
  | _ => e
  end.

(** The body of [save_file], lines 149-201. *)
Definition save_file_body (env : Env) (file : N) (process_id : UUID)
    (document_type : DocumentType.t) (patient_name protocol_number : pystr)
    : M (pystr * pystr * Z * string) :=
  content <- read_upload file ;;
  let file_size := len content in
  let validation := _validate_file_content env content file_size in
  if negb (is_valid validation) then
    raise (FileValidationError (default ""%string (error validation)))
  else
    let mime_type := default ""%string (vr_mime_type validation) in
    sanitized <-
      (if String.eqb mime_type "application/pdf" then
         content <- lift (sanitize_pdf (pikepdf env) content) ;;
         let detected := detect_mime_type env content in
         if negb (is_mime detected "application/pdf") then
           raise (FileValidationError "PDF inválido após sanitização")
         else ret (content, default ""%string detected)
       else if str_in mime_type ["image/jpeg"; "image/png"] then
         match convert_image_to_pdf env content with
         | Return content => ret (content, "application/pdf"%string)
         | Raise e => raise (image_error e)
         end
       else raise (FileValidationError ("Tipo MIME não suportado: " ++ mime_type))) ;;
    let '(content, mime_type) := sanitized in
    let file_size := len content in
    doc_index <- get_document_type_index process_id document_type ;;
    let stored_filename :=
      u (DocumentType.value document_type ++ "_" ++ decimal (Z.to_N doc_index)
         ++ get_file_extension mime_type) in
    process_dir <- get_process_upload_dir env patient_name protocol_number ;;
    let file_path := Fs.joinpath process_dir stored_filename in
    Fs.write_bytes env file_path content ;;;
    ret (stored_filename, file_path, file_size, mime_type).

(** [save_file], with its decorator. *)
Definition save_file (env : Env) (file : N) (process_id : UUID)
    (document_type : DocumentType.t) (patient_name protocol_number : pystr)
    : M (pystr * pystr * Z * string) :=
  StorageService.retry_file_operation Fs.sleep
    (STORAGE_RETRY_MAX_ATTEMPTS (settings env)) (STORAGE_RETRY_DELAY (settings env))
    true StorageService.default_retryable
    (save_file_body env file process_id document_type patient_name protocol_number).

(** The body of [delete_file], lines 208-219. *)
Definition delete_file_body (env : Env) (file_path : pystr) : M bool :=
  try_except
    (fun w =>
       if Fs.path_exists w file_path then (Fs.unlink env file_path ;;; ret true) w
       else (Return false, w))
    (fun _ => ret false).

(** [delete_file], with its decorator. *)
Definition delete_file (env : Env) (file_path : pystr) : M bool :=
  StorageService.retry_file_operation Fs.sleep
    (STORAGE_RETRY_MAX_ATTEMPTS (settings env)) (STORAGE_RETRY_DELAY (settings env))
    true StorageService.default_retryable
    (delete_file_body env file_path).

End FileService.

(** ** [app/repositories]: the queries the generation service uses *)

Module Repositories.

(** A [Process] as [get_process_with_patient_and_documents] loads it:
    the row and its [documents] relationship, read when it is loaded. *)
Record LoadedProcess := {
  row : Process;
  loaded_documents : list Document
}.

Definition is_combined_of (process_id : UUID) (d : Document) : bool :=
  (Models.process_id d =? process_id)%N
  && DocumentType.eqb (document_type d) DocumentType.PDF_COMBINADO.

Definition get_process_with_patient_and_documents (process_id : UUID) : M (option LoadedProcess) :=
  get (fun w =>
         match List.find (fun p => (proc_id p =? process_id)%N) (processes w) with
         | Some p =>
             Some {| row := p;
                     loaded_documents :=
                       List.filter (fun d => (Models.process_id d =? process_id)%N) (documents w) |}
         | None => None
         end).

Definition get_combined_pdf_for_process (process_id : UUID) : M (option Document) :=
  get (fun w => List.find (is_combined_of process_id) (documents w)).

Definition delete_combined_pdfs_for_process (process_id : UUID) : M unit :=
  modify (fun w =>
            with_documents
              (List.filter (fun d => negb (is_combined_of process_id d)) (documents w)) w).

(** The constraints [check_file_size] and [check_mime_type] of the
    table, which the flush enforces. *)
Definition check_constraints (d : Document) : option exn :=
  if negb ((0 <? file_size d) && (file_size d <=? 10485760)) then
    Some (IntegrityError "check_file_size")
  else if negb (FileService.str_in (mime_type d) ["application/pdf"; "image/jpeg"; "image/png"]) then
    Some (IntegrityError "check_mime_type")
  else None.

Definition create_combined_pdf_document (process_id : UUID) (file_path filename : pystr)
    (file_size : Z) : M Document :=
  fun w =>
    let combined_doc := {|
      doc_id := next_uuid w;
      Models.process_id := process_id;
      document_type := DocumentType.PDF_COMBINADO;
      original_filename := filename;
      stored_filename := filename;
      Models.file_path := file_path;
      Models.file_size := file_size;
      mime_type := "application/pdf";
      validation_status := ValidationStatus.VALID
    |} in
    let w := with_next_uuid (next_uuid w + 1)%N w in
    match check_constraints combined_doc with
    | Some e => (Raise e, w)
    | None => (Return combined_doc, with_documents (documents w ++ [combined_doc]) w)
    end.

(** [app/services/activity_service.py], [log_activity], for the action
    [pdf_generated]. *)
Definition log_activity (process_id : UUID) (action : string) (n_documents : Z)
    (combined : UUID) (n_admin : Z) : M unit :=
  modify (fun w =>
            with_activities
              (activities w ++
               [{| act_process_id := process_id; Models.action := action;
                   Models.n_documents := n_documents; combined_document := combined;
                   Models.n_admin := n_admin |}]) w).

End Repositories.

(** ** [app/services/pdf_generation_service.py] *)

Module PdfGenerationService.

Import FileSanitization FileService Repositories.

Definition DOCUMENT_TYPE_ORDER : list string :=
  ["formulario"; "declaracao"; "receita"; "relatorio"; "documento_pessoal"; "exame"].

Record PDFEnsureResult := {
  pdf : option Document;
  generated : bool;
  skipped : bool;
  skip_reason : option string;
  ensure_error : option exn
}.

(** The property [exists] of [PDFEnsureResult]. *)
Definition result_exists (r : PDFEnsureResult) : bool :=
  match pdf r with Some _ => true | None => false end.

(** [list.index]: the position of the first occurrence, if any. *)
Fixpoint index_of (x : string) (l : list string) : option Z :=
  match l with
  | [] => None
  | y :: r => if String.eqb x y then Some 0 else Z.succ <$> index_of x r
  end.

(** [list.sort(key=...)] is stable: elements with equal keys keep
    their order.  Insertion before the first element whose key is not
    smaller gives the same list. *)
Fixpoint insert_by {A} (key : A -> Z) (x : A) (l : list A) : list A :=
  match l with
  | [] => [x]
  | y :: r => if key x <=? key y then x :: l else y :: insert_by key x r
  end.

Definition sort_by {A} (key : A -> Z) (l : list A) : list A :=
  foldr (insert_by key) [] l.

Module PDFValidator.

Definition get_doc_order (doc : Document) : Z :=
  match index_of (DocumentType.value (document_type doc)) DOCUMENT_TYPE_ORDER with
  | Some i => i
  | None => len DOCUMENT_TYPE_ORDER
  end.

Definition is_valid_status (doc : Document) : bool :=
  ValidationStatus.eqb (validation_status doc) ValidationStatus.VALID.

Definition get_valid_documents (process : LoadedProcess) : option (list Document) :=
  let valid_documents :=
    List.filter
      (fun doc => is_valid_status doc
                  && str_in (DocumentType.value (document_type doc)) DOCUMENT_TYPE_ORDER)
      (loaded_documents process) in
  let admin_documents :=
    List.filter
      (fun doc => DocumentType.eqb (document_type doc) DocumentType.OUTRO
                  && is_valid_status doc)
      (loaded_documents process) in
  let valid_documents := valid_documents ++ admin_documents in
  match valid_documents with
  | [] => None
  | _ => Some (sort_by get_doc_order valid_documents)
  end.

End PDFValidator.

Module PDFMerger.

(** One turn of the loop at lines 193-209: the pages of the document's
    file are appended, unless the file is missing or cannot be opened. *)
Definition append_document (env : Env) (w : World) (combined_pdf : Pdf) (doc : Document) : Pdf :=
  if negb (Fs.path_exists w (file_path doc)) then combined_pdf
  else
    match files w !! file_path doc with
    | Some data =>
        match pdf_open (pikepdf env) data with
        | Return src_pdf =>
            {| Root := Root combined_pdf; pages := pages combined_pdf ++ pages src_pdf |}
        | Raise _ => combined_pdf
        end
    | None => combined_pdf
    end.

(** The document built by the loop at lines 193-209. *)
Definition merged_pdf (env : Env) (w : World) (documents : list Document) : Pdf :=
  fold_left (append_document env w) documents pdf_new.

(** [combined_pdf.save(str(output_path))]: serialise and write. *)
Definition save_to (env : Env) (combined_pdf : Pdf) (output_path : pystr) : M unit :=
  data <- lift (pdf_save (pikepdf env) combined_pdf) ;;
  Fs.write_bytes env output_path data.

(** The body of [merge_documents], lines 185-224. *)
Definition merge_documents_body (env : Env) (documents : list Document) (output_path : pystr)
    : M bool :=
  if negb (importable (pikepdf env)) then ret false
  else
    try_except
      (fun w =>
         let combined_pdf := merged_pdf env w documents in
         (save_to env combined_pdf output_path ;;;
          exists_after <- get (fun w => Fs.path_exists w output_path) ;;
          if negb exists_after then ret false else ret true) w)
      (fun _ => ret false).

(** [merge_documents], with its decorator. *)
Definition merge_documents (env : Env) (documents : list Document) (output_path : pystr)
    : M bool :=
  StorageService.retry_file_operation Fs.sleep
    (STORAGE_RETRY_MAX_ATTEMPTS (settings env)) (STORAGE_RETRY_DELAY (settings env))
    true StorageService.default_retryable
    (merge_documents_body env documents output_path).

End PDFMerger.

Fixpoint _delete_old_combined_pdfs (env : Env) (combined_pdfs : list Document) : M unit :=
  match combined_pdfs with
  | [] => ret tt
  | old_doc :: rest =>
      delete_file env (file_path old_doc) ;;;
      _delete_old_combined_pdfs env rest
  end.

(** [PROCESS_TYPE_TITLES] of [app/content.py]. *)
Definition PROCESS_TYPE_TITLES (key : string) : option pystr :=
  if String.eqb key "medicamento" then Some (u "Medicamento")
  else if String.eqb key "nutricao" then Some (u "Nutri" ++ [231; 227]%N ++ u "o Enteral")
  else if String.eqb key "bomba" then Some (u "Bomba de Insulina")
  else if String.eqb key "outro" then Some (u "Outro")
  else None.

Definition _generate_pdf_filename (env : Env) (process : LoadedProcess) : pystr :=
  let patient_name :=
    match patient_name (row process) with
    | [] => u "Desconhecido"
    | name => sanitize_filename (unicode env) name
    end in
  let key := ProcessType.value (proc_type (row process)) in
  let process_type_label := default (u key) (PROCESS_TYPE_TITLES key) in
  patient_name ++ u " - " ++ process_type_label ++ u ".pdf".

Definition get_generated_pdfs_dir (env : Env) : M pystr :=
  let upload_dir := UPLOAD_DIR (settings env) in
  Fs.mkdir_parents env upload_dir [u "generated_pdfs"] ;;;
  ret (Fs.joinpath upload_dir (u "generated_pdfs")).

(** What [generate_combined_pdf] has at hand when it calls the merger. *)
Record MergeInputs := {
  mi_process : LoadedProcess;
  mi_documents : list Document;
  mi_filename : pystr;
  mi_output_path : pystr
}.

(** Lines 293-316 of [generate_combined_pdf]: up to the call of the
    merger.  [None] is the early [return None]. *)
Definition generate_inputs (env : Env) (process_id : UUID) : M (option MergeInputs) :=
  loaded <- get_process_with_patient_and_documents process_id ;;
  match loaded with
  | None => ret None
  | Some process =>
      let existing_combined_pdfs :=
        List.filter
          (fun doc => DocumentType.eqb (document_type doc) DocumentType.PDF_COMBINADO)
          (loaded_documents process) in
      _delete_old_combined_pdfs env existing_combined_pdfs ;;;
      (match existing_combined_pdfs with
       | [] => ret tt
       | _ => delete_combined_pdfs_for_process process_id
       end) ;;;
      match PDFValidator.get_valid_documents process with
      | None => ret None
      | Some valid_documents =>
          let filename := _generate_pdf_filename env process in
          generated_dir <- get_generated_pdfs_dir env ;;
          ret (Some {| mi_process := process; mi_documents := valid_documents;
                       mi_filename := filename;
                       mi_output_path := Fs.joinpath generated_dir filename |})
      end
  end.

Definition generate_combined_pdf (env : Env) (process_id : UUID) : M (option pystr) :=
  inputs <- generate_inputs env process_id ;;
  match inputs with
  | None => ret None
  | Some inputs =>
      let valid_documents := mi_documents inputs in
      let output_path := mi_output_path inputs in
      let admin_count :=
        len (List.filter
               (fun doc => DocumentType.eqb (document_type doc) DocumentType.OUTRO)
               valid_documents) in
      merged <- PDFMerger.merge_documents env valid_documents output_path ;;
      if negb merged then ret None
      else
        file_size <- Fs.stat_size output_path ;;
        combined_doc <-
          create_combined_pdf_document (proc_id (row (mi_process inputs))) output_path
            (mi_filename inputs) file_size ;;
        log_activity process_id "pdf_generated" (len valid_documents) (doc_id combined_doc)
          admin_count ;;;
        ret (Some output_path)
  end.

Definition ensure_combined_pdf (env : Env) (process_id : UUID) : M PDFEnsureResult :=
  combined_pdf <- get_combined_pdf_for_process process_id ;;
  present <- get (fun w =>
                    match combined_pdf with
                    | Some doc => Fs.file_exists w (file_path doc)
                    | None => false
                    end) ;;
  match combined_pdf, present with
  | Some doc, true =>
      ret {| pdf := Some doc; generated := false; skipped := false;
             skip_reason := None; ensure_error := None |}
  | _, _ =>
      pdf_path <- generate_combined_pdf env process_id ;;
      combined_pdf <-
        (match pdf_path with
         | Some (_ :: _) => get_combined_pdf_for_process process_id
         | _ => ret None
         end) ;;
      match combined_pdf with
      | Some doc =>
          ret {| pdf := Some doc; generated := true; skipped := false;
                 skip_reason := None; ensure_error := None |}
      | None =>
          ret {| pdf := None; generated := false; skipped := true;
                 skip_reason := Some "no_valid_docs"%string; ensure_error := None |}
      end
  end.

(** The loop of [ensure_combined_pdfs_batch], lines 416-417. *)
Fixpoint ensure_each (env : Env) (process_ids : list UUID)
    (results : gmap UUID PDFEnsureResult) : M (gmap UUID PDFEnsureResult) :=
  match process_ids with
  | [] => ret results
  | process_id :: rest =>
      r <- ensure_combined_pdf env process_id ;;
      ensure_each env rest (<[process_id := r]> results)
  end.

(** [sum(1 for r in results.values() if p(r))] *)
Definition count_results (p : PDFEnsureResult -> bool) (results : gmap UUID PDFEnsureResult) : Z :=
  len (List.filter p (snd <$> map_to_list results)).

Definition ensure_combined_pdfs_batch (env : Env) (process_ids : list UUID)
    : M (gmap UUID PDFEnsureResult) :=
  results <- ensure_each env process_ids ∅ ;;
  let generated_count := count_results generated results in
  let skipped_count := count_results skipped results in
  let existing_count := count_results (fun r => result_exists r && negb (generated r)) results in
  modify (fun w =>
            with_summaries
              (summaries w ++
               [{| Models.existing_count := existing_count;
                   Models.generated_count := generated_count;
                   Models.skipped_count := skipped_count |}]) w) ;;;
  ret results.

End PdfGenerationService.

(** ** [app/services/document_service.py] *)

Module DocumentService.

Import FileSanitization FileService Repositories.

(** A [fastapi.UploadFile]: its stream, and the file name the client
    sent, if any. *)
Record UploadFile := {
  stream : N;
  filename : option pystr
}.

(** [app/repositories/process_repository.py], [get_process_for_update]. *)
Definition get_process_for_update (process_id : UUID) : M (option Process) :=
  get (fun w => List.find (fun p => (proc_id p =? process_id)%N) (processes w)).

(** The text of a key in a message; the keys are numbers here. *)
Definition uuid_str (key : UUID) : string := decimal key.

(** The database of the session: [app/database.py] takes a PostgreSQL
    or an SQLite database.  PostgreSQL enforces the lengths of the
    [String] columns and the range of the [Integer] columns; SQLite
    does not. *)
Inductive Dialect := PostgreSQL | SQLite.

Definition too_long (n : N) : exn :=
  OtherError "DataError" ("value too long for type character varying(" ++ decimal n ++ ")").

(** The flush of a new row of [documents]: under PostgreSQL the columns
    [original_filename] and [stored_filename] ([String(255)]),
    [file_path] ([String(500)]), [file_size] ([Integer]) and
    [mime_type] ([String(100)]), in this order; then the two check
    constraints. *)
Definition flush_document (db : Dialect) (d : Document) : option exn :=
  match db with
  | PostgreSQL =>
      if 255 <? len (original_filename d) then Some (too_long 255)
      else if 255 <? len (stored_filename d) then Some (too_long 255)
      else if 500 <? len (Models.file_path d) then Some (too_long 500)
      else if 2147483647 <? Models.file_size d then
        Some (OtherError "DataError" "integer out of range")
      else if 100 <? Z.of_nat (String.length (Models.mime_type d)) then Some (too_long 100)
      else check_constraints d
  | SQLite => check_constraints d
  end.

(** [create_document], lines 49-86, on a session of the database [db],
    for a [process_id] that is a UUID already ([ensure_uuid] returns it
    as it is).  Every process has a patient ([patient_id] is not
    nullable). *)
Definition create_document (env : Env) (db : Dialect) (process_id : UUID)
    (document_type : DocumentType.t) (file : UploadFile) : M Document :=
  process <- get_process_for_update process_id ;;
  match process with
  | None =>
      raise (ValueError ("Processo " ++ uuid_str process_id ++ " não encontrado"))
  | Some process =>
      let patient_name := Models.patient_name process in
      let protocol_number := Models.protocol_number process in
      saved <- save_file env (stream file) process_id document_type patient_name
                 protocol_number ;;
      let '(stored_filename, file_path, file_size, mime_type) := saved in
      let safe_filename :=
        match filename file with
        | Some (c :: name) => sanitize_filename (unicode env) (c :: name)
        | _ => u "unknown"
        end in
      fun w =>
        let document := {|
          doc_id := next_uuid w;
          Models.process_id := process_id;
          Models.document_type := document_type;
          original_filename := safe_filename;
          Models.stored_filename := stored_filename;
          Models.file_path := file_path;
          Models.file_size := file_size;
          Models.mime_type := mime_type;
          validation_status := ValidationStatus.PENDING
        |} in
        let w := with_next_uuid (next_uuid w + 1)%N w in
        match flush_document db document with
        | Some e => (Raise e, w)
        | None => (Return document, with_documents (documents w ++ [document]) w)
        end
  end.

(** [delete_document], lines 89-95: what [delete_file] returns is not
    looked at. *)
Definition delete_document (env : Env) (document : Document) : M bool :=
  delete_file env (Models.file_path document) ;;;
  modify (fun w =>
            with_documents
              (List.filter (fun d => negb (doc_id d =? doc_id document)%N) (documents w)) w) ;;;
  ret true.

End DocumentService.

(** ** [app/web/admin/pdf_routes.py]: the download of a generated PDF *)

Module PdfRoutes.

Import FileSanitization FileService PdfGenerationService.

(** [fastapi.HTTPException(status_code, detail)] *)
Definition HTTPException (status_code : N) (detail : string) : exn :=
  OtherError "HTTPException" (decimal status_code ++ " " ++ detail).

(** [fastapi.responses.FileResponse] *)
Record FileResponse := {
  path : pystr;
  response_filename : pystr;
  media_type : string;
  content_disposition_type : string
}.

(** [s.endswith(suffix)] *)
Definition endswith (s suffix : pystr) : bool :=
  bool_decide (drop (length s - length suffix) s = suffix).

(** [download_generated_pdf], lines 89-108. *)
Definition download_generated_pdf (env : Env) (filename : pystr) : M FileResponse :=
  let safe_filename := sanitize_filename (unicode env) filename in
  if negb (endswith safe_filename (u ".pdf")) then
    raise (HTTPException 400 "Invalid filename")
  else
    generated_dir <- get_generated_pdfs_dir env ;;
    let pdf_path := Fs.joinpath generated_dir safe_filename in
    present <- get (fun w => Fs.file_exists w pdf_path) ;;
    if negb present then raise (HTTPException 404 "PDF not found")
    else
      ret {| path := pdf_path; response_filename := safe_filename;
             media_type := "application/pdf"; content_disposition_type := "inline" |}.

End PdfRoutes.

(** ** [app/services/storage_service.py]: the health of the storage *)

Module StorageHealthService.

(** [str.split()] with no argument: the words between runs of white
    space ([str.isspace], the class of [re_space]).  [word] holds the
    characters of the word being read, last first. *)
Fixpoint split_from (db : Unicode) (word : pystr) (s : pystr) : list pystr :=
  match s with
  | [] => match word with [] => [] | _ => [rev word] end
  | c :: r =>
      if re_space db c then
        match word with
        | [] => split_from db [] r
        | _ => rev word :: split_from db [] r
        end
      else split_from db (c :: word) r
  end.

Definition split (db : Unicode) (s : pystr) : list pystr := split_from db [] s.

(** [s.startswith(prefix)] *)
Definition startswith (s prefix : pystr) : bool :=
  bool_decide (take (length prefix) s = prefix).

(** One turn of the loop of [detect_mount_type], lines 84-95. *)
Definition scan_mount (db : Unicode) (path_str : pystr) (best_match : option (Z * pystr))
    (line : pystr) : option (Z * pystr) :=
  match split db line with
  | _ :: mount_point :: fs_type :: _ =>
      if startswith path_str mount_point then
        let match_len := len mount_point in
        match best_match with
        | None => Some (match_len, fs_type)
        | Some (best_len, _) =>
            if best_len <? match_len then Some (match_len, fs_type) else best_match
        end
      else best_match
  | _ => best_match
  end.

(** [detect_mount_type], lines 69-104, given the outcome of
    [path.resolve()] and of the reading of the lines of [/proc/mounts]:
    any exception gives [None]. *)
Definition detect_mount_type (db : Unicode) (resolved : outcome pystr)
    (proc_mounts : outcome (list pystr)) : option pystr :=
  match resolved, proc_mounts with
  | Return path_str, Return mounts =>
      match fold_left (scan_mount db path_str) mounts None with
      | Some (_, fs_type) => Some fs_type
      | None => Some (u "local")
      end
  | _, _ => None
  end.

Record StorageHealth := {
  available : bool;
  mount_type : option pystr;
  total_bytes : Z;
  used_bytes : Z;
  free_bytes : Z;
  read_latency_ms : option Q;
  write_latency_ms : option Q;
  health_error : option string
}.

Section Health.

(** The state of the storage, and the four probes of
    [get_storage_health] as operations on it; each of them handles the
    exceptions of its accesses. *)
Context {S : Type}.
Variable check_mount_available : pystr -> S -> (bool * option string) * S.
Variable mount_type_of : pystr -> S -> option pystr * S.
Variable get_disk_usage : pystr -> S -> (Z * Z * Z) * S.
Variable measure_io_latency : pystr -> S -> (option Q * option Q) * S.

(** [get_storage_health], lines 183-222. *)
Definition get_storage_health (storage_path : pystr) (s : S) : StorageHealth * S :=
  let '((is_available, error), s) := check_mount_available storage_path s in
  if negb is_available then
    ({| available := false; mount_type := None; total_bytes := 0; used_bytes := 0;
        free_bytes := 0; read_latency_ms := None; write_latency_ms := None;
        health_error := error |}, s)
  else
    let '(mount, s) := mount_type_of storage_path s in
    let '((total, used, free), s) := get_disk_usage storage_path s in
    let '((read_latency, write_latency), s) := measure_io_latency storage_path s in
    ({| available := true; mount_type := mount; total_bytes := total; used_bytes := used;
        free_bytes := free; read_latency_ms := read_latency;
        write_latency_ms := write_latency; health_error := None |}, s).

(** The clock: [time.time()] gives a [Time]; [within now last interval]
    is the test [now - last < interval]; [time_zero] is the [0] that
    [__init__] stores. *)
Context {Time : Type}.
Variable within : Time -> Time -> Z -> bool.
Variable time_zero : Time.

(** [StorageHealthChecker] *)
Record StorageHealthChecker := {
  storage_path : pystr;
  check_interval : Z;
  _last_check : option StorageHealth;
  _last_check_time : Time
}.


(** The fresh check of lines 311-322. *)
Definition refresh (self : StorageHealthChecker) (now : Time) (s : S)
    : StorageHealth * StorageHealthChecker * S :=
  let '(health, s) := get_storage_health (storage_path self) s in
  (health,
   {| storage_path := storage_path self; check_interval := check_interval self;
      _last_check := Some health; _last_check_time := now |},
   s).

(** [check], lines 298-322, at the time [now] that [time.time()]
    gives. *)
Definition check (self : StorageHealthChecker) (force : bool) (now : Time) (s : S)
    : StorageHealth * StorageHealthChecker * S :=
  match _last_check self with
  | Some last =>
      if negb force && within now (_last_check_time self) (check_interval self)
      then (last, self, s)
      else refresh self now s
  | None => refresh self now s
  end.

(** The property [is_healthy], lines 324-328. *)
Definition is_healthy (self : StorageHealthChecker) (now : Time) (s : S)
    : bool * StorageHealthChecker * S :=
  let '(health, self, s) := check self false now s in
  (available health, self, s).

End Health.

End StorageHealthService.

(** ** [app/services/image_processing.py] *)

Module ImageProcessing.

Import FileService.

(** A PIL image, as far as the code reads it: [img.format], [img.mode],
    [img.size], the entry [dpi] of [img.info] (absent, or a tuple of
    numbers, which is not empty), whether [img.info] has the key
    [transparency], and the rest. *)
Record Image := {
  format : option string;
  mode : string;
  size : Z * Z;
  info_dpi : option (Q * list Q);
  info_transparency : bool;
  raster : N
}.

(** What the code needs of PIL and img2pdf.  [image_open] is
    [Image.open] on the bytes; [image_new mode size color] is
    [Image.new]; [image_paste base img mask] is [base.paste(img, mask)]
    and gives the image that [base] has become; [image_split_last img]
    is [img.split()[-1]]; [image_save img format option] is [img.save]
    to bytes, its option being the [quality] or the [resolution]; the
    others are the methods of their names.  [exception_text e] is the
    text of [e] in a message. *)
Record Libraries := {
  pil_importable : bool;
  image_open : bytes -> outcome Image;
  image_convert : Image -> string -> outcome Image;
  image_new : string -> Z * Z -> option (Z * Z * Z) -> outcome Image;
  image_paste : Image -> Image -> option Image -> outcome Image;
  image_split_last : Image -> outcome Image;
  image_flattened_data : Image -> outcome (list N);
  image_putdata : Image -> list N -> outcome Image;
  image_save : Image -> string -> option Z -> outcome bytes;
  img2pdf_importable : bool;
  img2pdf_convert : bytes -> Z * Z -> outcome (option bytes);
  exception_text : exn -> string
}.

Definition MIN_DIMENSION : Z := 10.
Definition MAX_DIMENSION : Z := 10000.
Definition ALLOWED_FORMATS : list string := ["JPEG"; "PNG"].

(** The text of an integer. *)
Definition int_str (n : Z) : string :=
  let sign : string := if (n <? 0)%Z then "-"%string else EmptyString in
  (sign ++ decimal (Z.to_N (Z.abs n)))%string.

(** The text of [img.format]. *)
Definition format_str (f : option string) : string :=
  match f with Some s => s | None => "None" end.

(** [ImageValidator._validate_image], lines 66-98. *)
Definition _validate_image (img : Image) : outcome unit :=
  if negb (match format img with Some f => str_in f ALLOWED_FORMATS | None => false end) then
    Raise (ImageValidationError
             ("Formato não suportado: " ++ format_str (format img) ++ ". Use: JPEG ou PNG"))
  else
    let '(width, height) := size img in
    if (width <? MIN_DIMENSION) || (height <? MIN_DIMENSION) then
      Raise (ImageValidationError
               ("Imagem muito pequena: " ++ int_str width ++ "x" ++ int_str height ++ "px. "
                ++ "Mínimo: " ++ int_str MIN_DIMENSION ++ "px"))
    else if (MAX_DIMENSION <? width) || (MAX_DIMENSION <? height) then
      Raise (ImageValidationError
               ("Imagem muito grande: " ++ int_str width ++ "x" ++ int_str height ++ "px. "
                ++ "Máximo: " ++ int_str MAX_DIMENSION ++ "px"))
    else Return tt.

(** [int(d)] of a number: towards zero. *)
Definition int_of (d : Q) : Z := Z.quot (Qnum d) (Zpos (Qden d)).

(** [ImageValidator._extract_metadata], lines 101-120. *)
Definition _extract_metadata (img : Image) : option (Z * Z) * bool :=
  let dpi :=
    match info_dpi img with
    | Some (d0, d1 :: _) => Some (int_of d0, int_of d1)
    | Some (_, []) => None
    | None => None
    end in
  let has_transparency :=
    str_in (mode img) ["RGBA"; "LA"; "PA"] || info_transparency img in
  (dpi, has_transparency).

(** The handlers of [validate], lines 167-171. *)
Definition validation_error (lib : Libraries) (e : exn) : exn :=
  match e with
  | ImageValidationError _ => e
  | _ => ImageValidationError ("Imagem corrompida ou inválida: " ++ exception_text lib e)
  end.

(** [ImageValidator.validate], lines 123-171. *)
Definition validate (lib : Libraries) (image_bytes : bytes) : outcome ImageInfo :=
  if negb (pil_importable lib) then
    Raise (ImageValidationError "Biblioteca de processamento de imagem não disponível")
  else
    match image_open lib image_bytes with
    | Raise e => Raise (validation_error lib e)
    | Return img =>
        match _validate_image img with
        | Raise e => Raise (validation_error lib e)
        | Return _ =>
            let '(dpi, has_transparency) := _extract_metadata img in
            match format img with
            | None =>
                Raise (validation_error lib
                         (ImageValidationError "Image format should be set after validation"))
            | Some fmt =>
                Return {| img_format := fmt; img_mode := mode img; img_size := size img;
                          img_dpi := dpi; Models.has_transparency := has_transparency |}
            end
        end
    end.

(** [ImageNormalizer._convert_to_rgb], lines 230-256. *)
Definition _convert_to_rgb (lib : Libraries) (img : Image) : outcome Image :=
  if str_in (mode img) ["RGBA"; "LA"; "PA"; "P"] then
    match (if negb (String.eqb (mode img) "RGBA") then image_convert lib img "RGBA"
           else Return img) with
    | Raise e => Raise e
    | Return img =>
        match image_new lib "RGB" (size img) (Some (255, 255, 255)) with
        | Raise e => Raise e
        | Return rgb_img =>
            match image_split_last lib img with
            | Raise e => Raise e
            | Return mask => image_paste lib rgb_img img (Some mask)
            end
        end
    end
  else image_convert lib img "RGB".

(** The handlers of [normalize], lines 223-227. *)
Definition normalization_error (lib : Libraries) (e : exn) : exn :=
  match e with
  | ImageConversionError _ => e
  | _ => ImageConversionError ("Falha ao normalizar imagem: " ++ exception_text lib e)
  end.

(** [ImageNormalizer.normalize], lines 185-227. *)
Definition normalize (lib : Libraries) (image_bytes : bytes) (image_info : ImageInfo)
    : outcome bytes :=
  if negb (pil_importable lib) then
    Raise (ImageConversionError "Biblioteca de processamento de imagem não disponível")
  else
    match image_open lib image_bytes with
    | Raise e => Raise (normalization_error lib e)
    | Return img =>
        match (if negb (String.eqb (mode img) "RGB") then _convert_to_rgb lib img
               else Return img) with
        | Raise e => Raise (normalization_error lib e)
        | Return img =>
            match image_save lib img "PNG" None with
            | Raise e => Raise (normalization_error lib e)
            | Return output => Return output
            end
        end
    end.

(** [ImageConverter._convert_with_pil], lines 311-346: the import is
    outside the [try]. *)
Definition _convert_with_pil (lib : Libraries) (image_bytes : bytes) (dpi : Z * Z)
    : outcome bytes :=
  if negb (pil_importable lib) then Raise (ImportError "PIL")
  else
    let failed (e : exn) :=
      ImageConversionError
        ("All PDF conversion methods failed. PIL error: " ++ exception_text lib e ++ ". "
         ++ "Try converting the image to PDF manually before uploading.") in
    match image_open lib image_bytes with
    | Raise e => Raise (failed e)
    | Return img =>
        match image_save lib img "PDF" (Some (fst dpi)) with
        | Raise e => Raise (failed e)
        | Return output => Return output
        end
    end.

(** [ImageConverter.convert_to_pdf], lines 267-308. *)
Definition convert_to_pdf (lib : Libraries) (image_bytes : bytes) (dpi : option (Z * Z))
    : outcome bytes :=
  let dpi := match dpi with None => (150, 150) | Some d => d end in
  if negb (img2pdf_importable lib) then _convert_with_pil lib image_bytes dpi
  else
    match img2pdf_convert lib image_bytes dpi with
    | Return None => _convert_with_pil lib image_bytes dpi
    | Return (Some pdf_bytes) => Return pdf_bytes
    | Raise _ => _convert_with_pil lib image_bytes dpi
    end.

(** [c in s] for a character [c]. *)
Fixpoint has_char (c : ascii) (s : string) : bool :=
  match s with
  | EmptyString => false
  | String a r => Ascii.eqb a c || has_char c r
  end.

(** The copy of the pixels of [strip_metadata], lines 387-406. *)
Definition clean_copy (lib : Libraries) (img : Image) : outcome Image :=
  match image_new lib (mode img) (size img) None with
  | Raise e => Raise e
  | Return img_clean =>
      if str_in (mode img) ["P"; "PA"] then
        match image_convert lib img_clean
                (if has_char "A" (mode img) then "RGBA" else "RGB") with
        | Raise e => Raise e
        | Return img_clean => image_paste lib img_clean img None
        end
      else if String.eqb (mode img) "LA" then image_paste lib img_clean img None
      else if String.eqb (mode img) "L" then image_paste lib img_clean img None
      else
        match image_flattened_data lib img with
        | Raise e => Raise e
        | Return data => image_putdata lib img_clean data
        end
  end.

(** The [format_map] of line 410. *)
Definition save_format (mime_type : string) : option string :=
  if String.eqb mime_type "image/jpeg" then Some "JPEG"%string
  else if String.eqb mime_type "image/png" then Some "PNG"%string
  else None.

(** [MetadataStripper.strip_metadata], lines 362-431: on any failure,
    the bytes it was given. *)
Definition strip_metadata (lib : Libraries) (image_bytes : bytes) (mime_type : string) : bytes :=
  if negb (pil_importable lib) then image_bytes
  else
    match image_open lib image_bytes with
    | Raise _ => image_bytes
    | Return img =>
        match clean_copy lib img with
        | Raise _ => image_bytes
        | Return img_clean =>
            match save_format mime_type with
            | None => image_bytes
            | Some fmt =>
                match image_save lib img_clean fmt
                        (if String.eqb fmt "JPEG" then Some 95 else None) with
                | Raise _ => image_bytes
                | Return output => output
                end
            end
        end
    end.

(** The four stages, as [convert_image_to_pdf] calls them. *)
Definition stages (lib : Libraries) : Imaging :=
  {| image_validate := validate lib;
     Models.strip_metadata := strip_metadata lib;
     image_normalize := normalize lib;
     image_to_pdf := convert_to_pdf lib |}.

End ImageProcessing.

(** * Theorems *)

(** ** [sanitize_filename] *)

Module SanitizeFilenameFacts.

Import FileSanitization.

(** The characters the result may hold: those of [\w], [\s], the dash,
    the dot, and the underscore. *)
Definition safe_char (db : Unicode) (c : N) : Prop :=
  unsafe_char db c = false \/ c = 95%N.

Lemma safe_char_not_forbidden db c :
  safe_char db c -> c <> 0%N /\ c <> 47%N /\ c <> 92%N.
Proof.
  intros [H | ->]; [| repeat split; discriminate].
  repeat split; intros ->; vm_compute in H; discriminate.
Qed.

Lemma re_sub_class_safe db s : Forall (safe_char db) (re_sub_class (unsafe_char db) s).
Proof.
  unfold re_sub_class. induction s as [| c s IH]; simpl; constructor; auto.
  destruct (unsafe_char db c) eqn:E; [right | left]; auto.
Qed.

Lemma re_sub_runs_safe db cls b s :
  Forall (safe_char db) s -> Forall (safe_char db) (re_sub_runs cls b s).
Proof.
  intros H. revert b. induction H as [| c s Hc Hs IH]; intros b; simpl; [constructor |].
  destruct (cls c); [destruct b |]; auto; constructor; auto; right; reflexivity.
Qed.

Lemma lstrip_Forall (P : N -> Prop) cls s : Forall P s -> Forall P (lstrip cls s).
Proof.
  induction 1 as [| c s Hc Hs IH]; simpl; [constructor |].
  destruct (cls c); auto.
Qed.

Lemma strip_Forall (P : N -> Prop) cls s : Forall P s -> Forall P (strip cls s).
Proof.
  intros H. unfold strip, rstrip.
  apply Forall_rev, lstrip_Forall, Forall_rev, lstrip_Forall, H.
Qed.

Lemma splitext_Forall (P : N -> Prop) s :
  Forall P s -> Forall P (fst (splitext s)) /\ Forall P (snd (splitext s)).
Proof.
  intros H. unfold splitext.
  destruct (_ && _); simpl; split; auto.
  - apply Forall_take, H.
  - apply Forall_drop, H.
Qed.

(** The name before the length limit (lines 48-61). *)
Definition cleaned (db : Unicode) (filename : pystr) : pystr :=
  strip strip_char
    (re_sub_runs (run_char db) false
       (re_sub_class (unsafe_char db)
          (fold_left (fun f char => replace_char char (u "_") f) windows_dangerous
             (remove_dotdot (basename (replace_char 0 [] filename)))))).

(** The length limit (lines 64-67). *)
Definition limited (filename : pystr) : pystr :=
  if 255 <? len filename then
    slice_to (fst (splitext filename)) (255 - len (snd (splitext filename)))
    ++ snd (splitext filename)
  else filename.

Lemma sanitize_filename_unfold db filename :
  sanitize_filename db filename =
  match filename with
  | [] => u "file"
  | _ => match limited (cleaned db filename) with
         | [] => u "file"
         | r => r
         end
  end.
Proof.
  destruct filename as [| c s]; [reflexivity |].
  unfold sanitize_filename, limited, cleaned.
  destruct (255 <? _).
  - destruct (splitext _) as [name ext]; simpl.
    destruct (slice_to name _ ++ ext); reflexivity.
  - destruct (strip _ _); reflexivity.
Qed.

Lemma cleaned_safe db filename : Forall (safe_char db) (cleaned db filename).
Proof. apply strip_Forall, re_sub_runs_safe, re_sub_class_safe. Qed.

Lemma limited_Forall (P : N -> Prop) s : Forall P s -> Forall P (limited s).
Proof.
  intros H. unfold limited. destruct (255 <? _); [| exact H].
  destruct (splitext_Forall P s H) as [Hn He].
  apply Forall_app; split; [apply Forall_take, Hn | exact He].
Qed.

Lemma file_safe db : Forall (safe_char db) (u "file").
Proof. repeat constructor. Qed.

Lemma sanitize_filename_safe db filename :
  Forall (safe_char db) (sanitize_filename db filename).
Proof.
  rewrite sanitize_filename_unfold.
  destruct filename; [apply file_safe |].
  pose proof (limited_Forall _ _ (cleaned_safe db (n :: filename))) as H.
  destruct (limited _); [apply file_safe | exact H].
Qed.

(** The result is never empty, and holds no null character and no path
    separator, whatever the input. *)
Lemma sanitize_filename_nonempty_no_separator db filename :
  sanitize_filename db filename <> [] /\
  Forall (fun c => c <> 0%N /\ c <> 47%N /\ c <> 92%N) (sanitize_filename db filename).
Proof.
  split.
  - rewrite sanitize_filename_unfold.
    destruct filename; [discriminate |]. destruct (limited _); discriminate.
  - eapply Forall_impl; [apply sanitize_filename_safe |].
    intros c Hc. eapply safe_char_not_forbidden, Hc.
Qed.

Lemma limited_length s : len (snd (splitext s)) <= 255 -> len (limited s) <= 255.
Proof.
  unfold limited. destruct (255 <? len s) eqn:E; [| lia].
  intros H. unfold len in *. rewrite length_app. unfold slice_to, slice_index.
  destruct (255 - _ <? 0) eqn:E2; [lia |]. rewrite length_take. lia.
Qed.

(** The limit of 255 characters holds whenever the extension of the
    cleaned name is itself at most 255 characters long. *)
Lemma sanitize_filename_length_short_extension db filename :
  len (snd (splitext (cleaned db filename))) <= 255 ->
  len (sanitize_filename db filename) <= 255.
Proof.
  intros H. rewrite sanitize_filename_unfold.
  destruct filename; [vm_compute; discriminate |].
  pose proof (limited_length _ H) as L.
  destruct (limited _); [vm_compute; discriminate | exact L].
Qed.

Lemma sanitize_filename_length_short_extension_witness :
  len (sanitize_filename {| uni_alnum := fun _ => true; uni_space := fun _ => false |}
         (repeat 98%N 300 ++ u ".pdf")) <= 255.
Proof.
  apply sanitize_filename_length_short_extension. vm_compute. discriminate.
Defined.

(** A name whose extension is longer than 255 characters: the letter a,
    a dot, and 300 times the letter b. *)
Definition long_extension : pystr := u "a." ++ repeat 98%N 300.

(** C10, at the failing input: the extension is kept whole, and the
    result has 301 characters. *)
Lemma sanitize_filename_long_extension db :
  sanitize_filename db long_extension = 46%N :: repeat 98%N 300 /\
  len (sanitize_filename db long_extension) = 301.
Proof. split; vm_compute; reflexivity. Qed.

End SanitizeFilenameFacts.

(** ** [sanitize_pdf] *)

Module SanitizePdfFacts.

Import FileSanitization.

(** The dangerous elements, as the specification lists them:
    JavaScript or embedded files in the name tree, an [/OpenAction],
    additional actions of the document, additional actions of a page. *)
Definition has_dangerous (pdf : Pdf) : bool :=
  match getitem (Root pdf) "/Names" with
  | Some names => contains names "/JavaScript" || contains names "/EmbeddedFiles"
  | None => false
  end
  || contains (Root pdf) "/OpenAction"
  || contains (Root pdf) "/AA"
  || existsb (fun page => contains page "/AA") (pages pdf).


Lemma contains_delitem_same o k : contains (delitem o k) k = false.
Proof.
  destruct o as [p es]. unfold contains, delitem. simpl.
  induction es as [| [k' v] es IH]; simpl; [reflexivity |].
  destruct (String.eqb k k') eqn:E; simpl; [exact IH |].
  rewrite E. exact IH.
Qed.

Lemma contains_delitem_other o k k' :
  k <> k' -> contains (delitem o k) k' = contains o k'.
Proof.
  intros Hne. destruct o as [p es]. unfold contains, delitem. simpl.
  induction es as [| [k0 v] es IH]; simpl; [reflexivity |].
  destruct (String.eqb k k0) eqn:E; simpl.
  - apply String.eqb_eq in E. subst k0.
    replace (String.eqb k' k) with false; [exact IH |].
    symmetry. apply String.eqb_neq. congruence.
  - rewrite IH. reflexivity.
Qed.

Lemma contains_setitem o k v k' : contains (setitem o k v) k' = contains o k'.
Proof.
  destruct o as [p es]. unfold contains, setitem. simpl.
  induction es as [| [k0 v0] es IH]; simpl; [reflexivity |].
  rewrite IH. destruct (String.eqb k k0); reflexivity.
Qed.

Lemma getitem_setitem_same o k v :
  contains o k = true -> getitem (setitem o k v) k = Some v.
Proof.
  destruct o as [p es]. unfold contains, getitem, setitem. simpl.
  induction es as [| [k0 v0] es IH]; simpl; [discriminate |].
  destruct (String.eqb k k0) eqn:E; simpl; rewrite E; simpl; [reflexivity | exact IH].
Qed.

Lemma getitem_delitem_other o k k' :
  k <> k' -> getitem (delitem o k) k' = getitem o k'.
Proof.
  intros Hne. destruct o as [p es]. unfold getitem, delitem. simpl.
  induction es as [| [k0 v] es IH]; simpl; [reflexivity |].
  destruct (String.eqb k k0) eqn:E; simpl.
  - apply String.eqb_eq in E. subst k0.
    replace (String.eqb k' k) with false; [exact IH |].
    symmetry. apply String.eqb_neq. congruence.
  - destruct (String.eqb k' k0); [reflexivity | exact IH].
Qed.

Lemma getitem_contains o k : contains o k = match getitem o k with Some _ => true | None => false end.
Proof.
  destruct o as [p es]. unfold contains, getitem. simpl.
  induction es as [| [k0 v] es IH]; simpl; [reflexivity |].
  destruct (String.eqb k k0); simpl; [reflexivity | exact IH].
Qed.

Lemma remove_key_fst o k : fst (_remove_key_if_exists o k) = contains o k.
Proof. unfold _remove_key_if_exists. destruct (contains o k); reflexivity. Qed.

Lemma remove_key_contains_same o k : contains (snd (_remove_key_if_exists o k)) k = false.
Proof.
  unfold _remove_key_if_exists. destruct (contains o k) eqn:E; simpl; [| exact E].
  apply contains_delitem_same.
Qed.

Lemma remove_key_contains_other o k k' :
  k <> k' -> contains (snd (_remove_key_if_exists o k)) k' = contains o k'.
Proof.
  intros H. unfold _remove_key_if_exists. destruct (contains o k); simpl; [| reflexivity].
  apply contains_delitem_other, H.
Qed.

Lemma remove_key_getitem_other o k k' :
  k <> k' -> getitem (snd (_remove_key_if_exists o k)) k' = getitem o k'.
Proof.
  intros H. unfold _remove_key_if_exists. destruct (contains o k); simpl; [| reflexivity].
  apply getitem_delitem_other, H.
Qed.

Lemma remove_page_actions_fst ps :
  fst (remove_page_actions ps) = existsb (fun page => contains page "/AA") ps.
Proof.
  induction ps as [| page ps IH]; simpl; [reflexivity |].
  pose proof (remove_key_fst page "/AA") as H.
  destruct (_remove_key_if_exists page "/AA") as [removed page'].
  destruct (remove_page_actions ps) as [modified rest']. simpl in *. congruence.
Qed.

Lemma remove_page_actions_clean ps :
  existsb (fun page => contains page "/AA") (snd (remove_page_actions ps)) = false.
Proof.
  induction ps as [| page ps IH]; simpl; [reflexivity |].
  pose proof (remove_key_contains_same page "/AA") as H.
  destruct (_remove_key_if_exists page "/AA") as [removed page'].
  destruct (remove_page_actions ps) as [modified rest']. simpl in *.
  rewrite H, IH. reflexivity.
Qed.

(** The catalog after the two deletions in the name tree (lines 107-116). *)
Definition names_cleaned (root : Object) : bool * Object :=
  match getitem root "/Names" with
  | Some names =>
      (contains names "/JavaScript" || contains names "/EmbeddedFiles",
       setitem root "/Names"
         (snd (_remove_key_if_exists (snd (_remove_key_if_exists names "/JavaScript"))
                 "/EmbeddedFiles")))
  | None => (false, root)
  end.

Lemma remove_dangerous_unfold pdf :
  _remove_dangerous_elements pdf =
  let r1 := snd (names_cleaned (Root pdf)) in
  let r2 := snd (_remove_key_if_exists r1 "/OpenAction") in
  let r3 := snd (_remove_key_if_exists r2 "/AA") in
  (fst (names_cleaned (Root pdf)) || contains r1 "/OpenAction" || contains r2 "/AA"
   || fst (remove_page_actions (pages pdf)),
   {| Root := r3; pages := snd (remove_page_actions (pages pdf)) |}).
Proof.
  unfold _remove_dangerous_elements, names_cleaned.
  destruct (getitem (Root pdf) "/Names") as [names |].
  - pose proof (remove_key_fst names "/JavaScript") as H1.
    pose proof (remove_key_contains_other names "/JavaScript" "/EmbeddedFiles"
                  ltac:(discriminate)) as H3.
    destruct (_remove_key_if_exists names "/JavaScript") as [js names1].
    cbn [fst snd] in *.
    pose proof (remove_key_fst names1 "/EmbeddedFiles") as H2.
    destruct (_remove_key_if_exists names1 "/EmbeddedFiles") as [ef names2].
    cbn [fst snd] in *.
    set (r1 := setitem (Root pdf) "/Names" names2).
    pose proof (remove_key_fst r1 "/OpenAction") as H4.
    destruct (_remove_key_if_exists r1 "/OpenAction") as [oa r2]. cbn [fst snd] in *.
    pose proof (remove_key_fst r2 "/AA") as H5.
    destruct (_remove_key_if_exists r2 "/AA") as [aa r3]. cbn [fst snd] in *.
    destruct (remove_page_actions (pages pdf)) as [pa ps]. cbn [fst snd].
    subst js ef oa aa. rewrite H3. reflexivity.
  - cbn [fst snd].
    pose proof (remove_key_fst (Root pdf) "/OpenAction") as H4.
    destruct (_remove_key_if_exists (Root pdf) "/OpenAction") as [oa r2]. cbn [fst snd] in *.
    pose proof (remove_key_fst r2 "/AA") as H5.
    destruct (_remove_key_if_exists r2 "/AA") as [aa r3]. cbn [fst snd] in *.
    destruct (remove_page_actions (pages pdf)) as [pa ps]. cbn [fst snd].
    subst oa aa. reflexivity.
Qed.

Lemma names_cleaned_contains root k :
  contains (snd (names_cleaned root)) k = contains root k.
Proof.
  unfold names_cleaned. destruct (getitem root "/Names"); cbn [snd]; [| reflexivity].
  apply contains_setitem.
Qed.

(** The sanitizer reports a modification exactly when the document
    holds a dangerous element. *)
Lemma modified_iff_dangerous pdf :
  fst (_remove_dangerous_elements pdf) = has_dangerous pdf.
Proof.
  rewrite remove_dangerous_unfold. cbn [fst]. unfold has_dangerous.
  rewrite remove_page_actions_fst.
  rewrite remove_key_contains_other by discriminate.
  rewrite !names_cleaned_contains.
  unfold names_cleaned. destruct (getitem (Root pdf) "/Names"); reflexivity.
Qed.

(** What the sanitizer leaves holds no dangerous element. *)
Lemma cleaned_not_dangerous pdf :
  has_dangerous (snd (_remove_dangerous_elements pdf)) = false.
Proof.
  rewrite remove_dangerous_unfold. cbn [snd]. unfold has_dangerous. cbn [Root pages].
  rewrite remove_page_actions_clean.
  rewrite remove_key_contains_same.
  rewrite (remove_key_contains_other _ "/AA" "/OpenAction") by discriminate.
  rewrite remove_key_contains_same.
  rewrite !remove_key_getitem_other by discriminate.
  unfold names_cleaned.
  destruct (getitem (Root pdf) "/Names") as [names |] eqn:E; cbn [snd].
  - rewrite getitem_setitem_same by (rewrite getitem_contains, E; reflexivity).
    rewrite remove_key_contains_same.
    rewrite (remove_key_contains_other _ "/EmbeddedFiles" "/JavaScript") by discriminate.
    rewrite remove_key_contains_same. reflexivity.
  - rewrite E. reflexivity.
Qed.

(** [_remove_dangerous_elements] reports a modification exactly when
    the document holds a dangerous element, and the document it leaves
    holds none. *)
Theorem remove_dangerous_elements_exact pdf :
  fst (_remove_dangerous_elements pdf) = has_dangerous pdf /\
  has_dangerous (snd (_remove_dangerous_elements pdf)) = false.
Proof. split; [apply modified_iff_dangerous | apply cleaned_not_dangerous]. Qed.

Lemma cleaned_no_open_action pdf :
  contains (Root (snd (_remove_dangerous_elements pdf))) "/OpenAction" = false.
Proof.
  pose proof (cleaned_not_dangerous pdf) as H. unfold has_dangerous in H.
  destruct (contains _ "/OpenAction"); [| reflexivity].
  rewrite orb_true_r in H. simpl in H. discriminate.
Qed.

Lemma sanitize_pdf_unfold lib content :
  sanitize_pdf lib content =
  if negb (importable lib) then Return content
  else
    match pdf_open lib content with
    | Raise e => Raise (rejection e)
    | Return pdf =>
        if has_dangerous pdf then
          match pdf_save lib (snd (_remove_dangerous_elements pdf)) with
          | Return output => Return output
          | Raise e => Raise (rejection e)
          end
        else Return content
    end.
Proof.
  unfold sanitize_pdf. destruct (negb (importable lib)); [reflexivity |].
  destruct (pdf_open lib content) as [pdf | e]; [| reflexivity].
  rewrite <- modified_iff_dangerous.
  destruct (_remove_dangerous_elements pdf) as [modified pdf']. reflexivity.
Qed.


(** *** A small instance of the library, for the concrete cases

    A buffer is the four bytes of the PDF header followed by one byte
    that names the document: [01] is a document whose catalog holds an
    [/OpenAction]; [02] is a document with one page and nothing
    dangerous; [03] is an encrypted document; [11], [12] and [13] are a
    form of one page, a prescription of two pages and an exam of one
    page.  Any other buffer does not parse.  Saving gives the buffer of
    the plain document. *)

Definition doc_open_action : Pdf :=
  {| Root := Obj 0 [("/Type", Obj 1 []); ("/OpenAction", Obj 2 [("/JS", Obj 3 [])])];
     pages := [Obj 4 []] |}.

Definition doc_plain : Pdf :=
  {| Root := Obj 0 [("/Type", Obj 1 [])]; pages := [Obj 4 []] |}.

Definition doc_of_pages (ps : list N) : Pdf :=
  {| Root := Obj 0 [("/Type", Obj 1 [])]; pages := map (fun n => Obj n []) ps |}.

Definition buf (tag : byte) : bytes := [x25; x50; x44; x46; tag].

Definition toy_open (content : bytes) : outcome Pdf :=
  match content with
  | [x25; x50; x44; x46; x01] => Return doc_open_action
  | [x25; x50; x44; x46; x02] => Return doc_plain
  | [x25; x50; x44; x46; x03] => Raise PasswordError
  | [x25; x50; x44; x46; x11] => Return (doc_of_pages [11%N])
  | [x25; x50; x44; x46; x12] => Return (doc_of_pages [21%N; 22%N])
  | [x25; x50; x44; x46; x13] => Return (doc_of_pages [31%N])
  | _ => Raise (PdfError "unable to find trailer dictionary")
  end.

Definition toy_pikepdf (installed : bool) : Pikepdf :=
  {| importable := installed;
     pdf_open := toy_open;
     pdf_save := fun _ => Return (buf x02) |}.




(** C7, as stated, fails where [pikepdf] cannot be imported: the
    document holds an [/OpenAction], and the result is the input, which
    still holds it. *)
Lemma sanitize_pdf_keeps_open_action_without_pikepdf :
  pdf_open (toy_pikepdf false) (buf x01) = Return doc_open_action /\
  contains (Root doc_open_action) "/OpenAction" = true /\
  sanitize_pdf (toy_pikepdf false) (buf x01) = Return (buf x01).
Proof. repeat split. Qed.

(** The law of [pikepdf] that the second half of C7 rests on: what
    [pdf.save] writes, [Pdf.open] reads back as the document saved. *)
Definition save_reopens (lib : Pikepdf) : Prop :=
  forall pdf output, pdf_save lib pdf = Return output -> pdf_open lib output = Return pdf.

(** C7, amended: a buffer that parses to a document with none of the
    dangerous elements is returned byte for byte.  When [pikepdf] can
    be imported, the result for a document that holds an [/OpenAction]
    is what [pikepdf] saves of the cleaned document (a failure to save
    is a [ValueError]), and this result no longer contains that key:
    read back, it is a document without [/OpenAction] and without any
    other dangerous element.  When [pikepdf] cannot be imported, the
    input is returned unchanged. *)
Theorem sanitize_pdf_clean_identity_and_open_action (lib : Pikepdf) (content : bytes) (pdf : Pdf) :
  pdf_open lib content = Return pdf ->
  (has_dangerous pdf = false -> sanitize_pdf lib content = Return content) /\
  (importable lib = true ->
   contains (Root pdf) "/OpenAction" = true ->
   let cleaned := snd (_remove_dangerous_elements pdf) in
   contains (Root cleaned) "/OpenAction" = false /\
   has_dangerous cleaned = false /\
   sanitize_pdf lib content =
   match pdf_save lib cleaned with
   | Return output => Return output
   | Raise e => Raise (rejection e)
   end /\
   (save_reopens lib ->
    forall output,
      sanitize_pdf lib content = Return output ->
      exists result,
        pdf_open lib output = Return result /\
        contains (Root result) "/OpenAction" = false /\
        has_dangerous result = false)) /\
  (importable lib = false -> sanitize_pdf lib content = Return content).
Proof.
  intros Ho. rewrite sanitize_pdf_unfold, Ho. split; [| split].
  - intros ->. destruct (negb (importable lib)); reflexivity.
  - intros -> Hoa. cbn [negb]. cbv zeta.
    assert (Hd : has_dangerous pdf = true)
      by (unfold has_dangerous; rewrite Hoa, orb_true_r; reflexivity).
    rewrite Hd.
    split; [apply cleaned_no_open_action |]. split; [apply cleaned_not_dangerous |].
    split; [reflexivity |].
    intros Hlaw output Hs.
    destruct (pdf_save lib (snd (_remove_dangerous_elements pdf))) as [saved | e] eqn:Hsave;
      [| discriminate].
    injection Hs as <-.
    exists (snd (_remove_dangerous_elements pdf)).
    split; [exact (Hlaw _ _ Hsave) |].
    split; [apply cleaned_no_open_action | apply cleaned_not_dangerous].
  - intros ->. reflexivity.
Qed.

(** A library that saves the plain document of one page only, as the
    buffer that it opens as that document. *)
Definition plain_save (pdf : Pdf) : outcome bytes :=
  match pdf with
  | {| Root := Obj 0%N [(key, Obj 1%N [])]; pages := [Obj 4%N []] |} =>
      if String.eqb key "/Type" then Return (buf x02)
      else Raise (PdfError "unsupported document")
  | _ => Raise (PdfError "unsupported document")
  end.

Definition exact_pikepdf : Pikepdf :=
  {| importable := true; pdf_open := toy_open; pdf_save := plain_save |}.

Lemma exact_pikepdf_reopens : save_reopens exact_pikepdf.
Proof.
  intros pdf output H. cbn [exact_pikepdf pdf_save pdf_open] in *.
  unfold plain_save in H.
  repeat match type of H with
         | context [match ?x with _ => _ end] => is_var x; destruct x; try discriminate H
         end.
  destruct (String.eqb _ "/Type") eqn:E; [| discriminate].
  apply String.eqb_eq in E. subst. injection H as <-. reflexivity.
Defined.

Lemma sanitize_pdf_clean_identity_and_open_action_witness :
  sanitize_pdf (toy_pikepdf true) (buf x02) = Return (buf x02) /\
  sanitize_pdf exact_pikepdf (buf x01) = Return (buf x02) /\
  (exists result,
      pdf_open exact_pikepdf (buf x02) = Return result /\
      contains (Root result) "/OpenAction" = false /\
      has_dangerous result = false) /\
  sanitize_pdf (toy_pikepdf false) (buf x01) = Return (buf x01).
Proof.
  split; [| split; [reflexivity | split]].
  - refine (proj1 (sanitize_pdf_clean_identity_and_open_action
                     (toy_pikepdf true) (buf x02) doc_plain _) _); reflexivity.
  - refine (proj2 (proj2 (proj2 (proj1 (proj2 (sanitize_pdf_clean_identity_and_open_action
                     exact_pikepdf (buf x01) doc_open_action _)) _ _)))
              exact_pikepdf_reopens (buf x02) _); reflexivity.
  - refine (proj2 (proj2 (sanitize_pdf_clean_identity_and_open_action
                     (toy_pikepdf false) (buf x01) doc_open_action _)) _); reflexivity.
Defined.

End SanitizePdfFacts.

(** ** [retry_file_operation] *)

Module RetryFacts.

Import StorageService.

Section Facts.

Context {S A : Type}.
Variable sleep : Q -> S -> S.
Variable retry_delay : Q.
Variable exponential_backoff : bool.
Variable retryable_exceptions : exn -> bool.
Variable func : S -> outcome A * S.

Lemma range_cons n : 0 <= n -> exists rest, range (n + 1) = 0 :: rest.
Proof.
  intros H. unfold range.
  replace (Z.to_nat (n + 1)) with (Datatypes.S (Z.to_nat n)) by lia.
  simpl. eauto.
Qed.



(** An exception outside [retryable_exceptions] leaves the loop at once. *)
Lemma retry_loop_propagates max_retries attempt rest delay last s e s' :
  func s = (Raise e, s') ->
  retryable_exceptions e = false ->
  retry_loop sleep max_retries exponential_backoff retryable_exceptions func
    (attempt :: rest) delay last s = (Raise e, s').
Proof. intros Hf Hr. simpl. rewrite Hf, Hr. reflexivity. Qed.

(** A value returned leaves the loop at once. *)
Lemma retry_loop_returns max_retries attempt rest delay last s v s' :
  func s = (Return v, s') ->
  retry_loop sleep max_retries exponential_backoff retryable_exceptions func
    (attempt :: rest) delay last s = (Return v, s').
Proof. intros Hf. simpl. rewrite Hf. reflexivity. Qed.


(** An operation that never raises is invoked once by its wrapper, as
    soon as [max_retries] is not negative. *)
Lemma retry_never_raises max_retries s :
  0 <= max_retries ->
  (forall s0, exists v s1, func s0 = (Return v, s1)) ->
  retry_file_operation sleep max_retries retry_delay exponential_backoff
    retryable_exceptions func s = func s.
Proof.
  intros Hm Hf. unfold retry_file_operation.
  destruct (range_cons max_retries Hm) as [rest ->].
  destruct (Hf s) as (v & s1 & E). rewrite E. eapply retry_loop_returns, E.
Qed.

End Facts.





(** An operation on a counter of its own, which always fails with an
    I/O error. *)
Definition always_eio (s : nat) : outcome unit * nat := (Raise (OSError "EIO"), s).




End RetryFacts.

(** ** Computations on the world *)

Module MonadFacts.

Lemma bind_return_inv {A B} (m : M A) (k : A -> M B) w v w' :
  bind m k w = (Return v, w') ->
  exists a w1, m w = (Return a, w1) /\ k a w1 = (Return v, w').
Proof.
  unfold bind. destruct (m w) as [[a | e] w1]; [eauto | discriminate].
Qed.

Lemma bind_return {A B} (m : M A) (k : A -> M B) w a w1 :
  m w = (Return a, w1) -> bind m k w = k a w1.
Proof. unfold bind. intros ->. reflexivity. Qed.

Lemma bind_raise {A B} (m : M A) (k : A -> M B) w e w1 :
  m w = (Raise e, w1) -> bind m k w = (Raise e, w1).
Proof. unfold bind. intros ->. reflexivity. Qed.

(** A result is the pair of its outcome and of the world it leaves. *)
Lemma outcome_and_world {A} (p : outcome A * World) (o : outcome A) :
  fst p = o -> p = (o, snd p).
Proof. destruct p. simpl. intros ->. reflexivity. Qed.

Lemma lift_return_inv {A} (o : outcome A) w v w' :
  FileService.lift o w = (Return v, w') -> o = Return v /\ w' = w.
Proof. destruct o; simpl; unfold ret, raise; intros [= <- <-] || discriminate; auto. Qed.

End MonadFacts.

(** ** A concrete environment, for the concrete cases *)

Module Toy.

Import FileSanitization SanitizePdfFacts.

(** Sniffing by magic numbers, as the [filetype] library does it: the
    headers of PDF, JPEG, PNG and GIF. *)
Definition sniff (content : bytes) : option string :=
  match content with
  | x25 :: x50 :: x44 :: x46 :: _ => Some "application/pdf"%string
  | xff :: xd8 :: xff :: _ => Some "image/jpeg"%string
  | x89 :: x50 :: x4e :: x47 :: _ => Some "image/png"%string
  | x47 :: x49 :: x46 :: _ => Some "image/gif"%string
  | _ => None
  end.

Definition rgb (fmt : string) : ImageInfo :=
  {| img_format := fmt; img_mode := "RGB"; img_size := (100, 100); img_dpi := None;
     has_transparency := false |}.

(** Image stages that accept the JPEG and PNG headers and convert to
    the plain document. *)
Definition toy_imaging : Imaging :=
  {| image_validate := fun b =>
       match b with
       | xff :: xd8 :: xff :: _ => Return (rgb "JPEG")
       | x89 :: x50 :: x4e :: x47 :: _ => Return (rgb "PNG")
       | _ => Raise (ImageValidationError "Imagem corrompida ou inválida")
       end;
     strip_metadata := fun b _ => b;
     image_normalize := fun b _ => Return b;
     image_to_pdf := fun _ _ => Return (buf x02) |}.

Definition ascii_only : Unicode :=
  {| uni_alnum := fun _ => false; uni_space := fun _ => false |}.

Definition no_fault (w : World) (op : FsOp) : option exn := None.

Definition env (st : Settings) (installed : bool) (fault : World -> FsOp -> option exn) : Env :=
  {| settings := st; unicode := ascii_only; pikepdf := toy_pikepdf installed;
     filetype_guess := sniff; imaging := toy_imaging; storage_fault := fault |}.

(** Settings with a maximum of five bytes. *)
Definition tiny_settings : Settings :=
  {| UPLOAD_DIR := u "./uploads"; MAX_FILE_SIZE := 5; STORAGE_RETRY_MAX_ATTEMPTS := 3;
     STORAGE_RETRY_DELAY := (1 # 2)%Q |}.

Definition empty_world : World :=
  {| files := ∅; dirs := ∅; documents := []; processes := []; activities := [];
     uploads := ∅; slept := []; summaries := []; next_uuid := 1000%N |}.

End Toy.

(** ** [_validate_file_content] *)

Module ValidateFacts.

Import FileService.




(** The settings of [app/config.py] give a limit of 10MB in the message. *)
Lemma size_error_default :
  size_error default_settings = "Arquivo muito grande. Tamanho máximo: 10MB"%string.
Proof. vm_compute. reflexivity. Qed.



End ValidateFacts.

(** ** [save_file] *)

Module SaveFileFacts.

Import FileSanitization FileService MonadFacts.

Lemma u_app (a b : string) : u (a ++ b) = u a ++ u b.
Proof.
  unfold u. induction a as [| c a IH]; simpl; [reflexivity |]. f_equal. exact IH.
Qed.

(** What the image branch stores is what the sniffed type says. *)
Definition provenance (env : Env) (raw stored : bytes) : Prop :=
  (filetype_guess env raw = Some "application/pdf"%string /\
   sanitize_pdf (pikepdf env) raw = Return stored) \/
  ((filetype_guess env raw = Some "image/jpeg"%string \/
    filetype_guess env raw = Some "image/png"%string) /\
   convert_image_to_pdf env raw = Return stored).

Lemma str_in_images m :
  str_in m ["image/jpeg"; "image/png"]%string = true ->
  m = "image/jpeg"%string \/ m = "image/png"%string.
Proof.
  unfold str_in. simpl. rewrite orb_false_r. intros H.
  apply orb_true_iff in H. destruct H as [H | H]; apply String.eqb_eq in H; auto.
Qed.

Lemma write_bytes_return_inv env p data w w' :
  Fs.write_bytes env p data w = (Return tt, w') ->
  files w' !! p = Some data.
Proof.
  unfold Fs.write_bytes. destruct (storage_fault env w (OpWrite p)); [discriminate |].
  destruct (bool_decide _); [discriminate |].
  intros [= <-]. simpl. apply lookup_insert_eq.
Qed.

(** A return of the body of [save_file]. *)
Lemma save_file_body_return env file pid dt pn proto w name path size mime w' :
  save_file_body env file pid dt pn proto w = (Return (name, path, size, mime), w') ->
  mime = "application/pdf"%string /\
  (exists stem, name = stem ++ u ".pdf") /\
  exists stored,
    files w' !! path = Some stored /\ size = len stored /\
    provenance env (default [] (uploads w !! file)) stored.
Proof.
  unfold save_file_body. intros H.
  apply bind_return_inv in H. destruct H as (content & w1 & Hread & H).
  unfold read_upload in Hread. injection Hread as <- <-.
  set (raw := default [] (uploads w !! file)) in *.
  unfold _validate_file_content, detect_mime_type in H.
  destruct (MAX_FILE_SIZE (settings env) <? len raw); [discriminate |].
  destruct (filetype_guess env raw) as [m |] eqn:Hg; [| discriminate].
  destruct (str_in m ALLOWED_MIME_TYPES) eqn:Hal; [| discriminate].
  cbn [negb is_valid vr_mime_type default] in H. unfold id in H.
  apply bind_return_inv in H. destruct H as ([stored mime'] & w2 & Hsan & H).
  apply bind_return_inv in H. destruct H as (doc_index & w3 & _ & H).
  apply bind_return_inv in H. destruct H as (process_dir & w4 & _ & H).
  apply bind_return_inv in H. destruct H as ([] & w5 & Hw & H).
  injection H as <- <- <- <- <-.
  assert (mime' = "application/pdf"%string /\ provenance env raw stored) as [-> Hp].
  { destruct (String.eqb_spec m "application/pdf") as [-> | Hne].
    - apply bind_return_inv in Hsan. destruct Hsan as (c & wa & Hl & Hd).
      apply lift_return_inv in Hl. destruct Hl as [Hl ->].
      unfold detect_mime_type, is_mime in Hd.
      destruct (filetype_guess env c) as [d |] eqn:Hc; [| discriminate].
      destruct (String.eqb_spec d "application/pdf") as [-> | Hd']; [| discriminate].
      injection Hd as <- <- <-. split; [reflexivity |]. left. auto.
    - destruct (str_in m ["image/jpeg"; "image/png"]%string) eqn:Him; [| discriminate].
      destruct (convert_image_to_pdf env raw) as [c | e] eqn:Hc; [| discriminate].
      injection Hsan as <- <- <-. split; [reflexivity |]. right.
      apply str_in_images in Him. destruct Him as [-> | ->]; auto. }
  split; [reflexivity |]. split.
  - eexists. rewrite !u_app. rewrite !app_assoc. reflexivity.
  - exists stored. split; [eapply write_bytes_return_inv, Hw |]. split; [reflexivity | exact Hp].
Qed.

End SaveFileFacts.

Module SaveFileTheorem.

Import FileSanitization FileService MonadFacts SaveFileFacts.


(** An upload of a JPEG image for a prescription. *)
Definition jpeg_upload : World :=
  with_uploads {[ 7%N := [xff; xd8; xff; xe0; x00] ]} Toy.empty_world.

Definition toy_save : outcome (pystr * pystr * Z * string) * World :=
  save_file (Toy.env default_settings true Toy.no_fault) 7 1 DocumentType.RECEITA
    (u "Maria Silva") (u "2024-0001") jpeg_upload.


End SaveFileTheorem.

(** ** [PDFValidator.get_valid_documents] and the order of the merge *)

Module OrderingFacts.

Import FileSanitization FileService Repositories PdfGenerationService.
Import PDFValidator.

(** The precedence of the categories: the six named ones in the order
    of [DOCUMENT_TYPE_ORDER], and every other one after them. *)
Definition type_order (t : DocumentType.t) : Z :=
  match t with
  | DocumentType.FORMULARIO => 0
  | DocumentType.DECLARACAO => 1
  | DocumentType.RECEITA => 2
  | DocumentType.RELATORIO => 3
  | DocumentType.DOCUMENTO_PESSOAL => 4
  | DocumentType.EXAME => 5
  | DocumentType.PDF_COMBINADO | DocumentType.OUTRO => 6
  end.

(** The categories of [DOCUMENT_TYPE_ORDER]. *)
Definition named (t : DocumentType.t) : bool :=
  str_in (DocumentType.value t) DOCUMENT_TYPE_ORDER.

Lemma get_doc_order_type doc : get_doc_order doc = type_order (document_type doc).
Proof. unfold get_doc_order. destruct (document_type doc); reflexivity. Qed.

Lemma named_order t : named t = true <-> type_order t < 6.
Proof. destruct t; vm_compute; split; congruence. Qed.

(** The documents the merge takes: valid, and of a named category or
    uploaded by the staff ([outro]). *)
Definition merge_input (doc : Document) : bool :=
  is_valid_status doc
  && (named (document_type doc) || DocumentType.eqb (document_type doc) DocumentType.OUTRO).

Section Sorting.

Context {A : Type} (key : A -> Z).

Definition key_le (a b : A) : Prop := key a <= key b.

Lemma insert_by_perm x l : insert_by key x l ≡ₚ x :: l.
Proof.
  induction l as [| y l IH]; simpl; [reflexivity |].
  destruct (key x <=? key y); [reflexivity |].
  rewrite IH. apply Permutation_swap.
Qed.

Lemma sort_by_perm l : sort_by key l ≡ₚ l.
Proof.
  induction l as [| x l IH]; simpl; [reflexivity |].
  rewrite insert_by_perm, IH. reflexivity.
Qed.

Lemma insert_by_sorted x l :
  StronglySorted key_le l -> StronglySorted key_le (insert_by key x l).
Proof.
  induction 1 as [| y l Hs IH Hy]; simpl.
  - repeat constructor.
  - destruct (Z.leb_spec (key x) (key y)) as [Hle | Hgt].
    + constructor; [constructor; assumption |].
      constructor; [exact Hle |].
      eapply Forall_impl; [exact Hy |]. unfold key_le. intros z Hz. lia.
    + constructor; [exact IH |].
      rewrite insert_by_perm. constructor; [unfold key_le; lia | exact Hy].
Qed.

Lemma sort_by_sorted l : StronglySorted key_le (sort_by key l).
Proof.
  induction l as [| x l IH]; simpl; [constructor |].
  apply insert_by_sorted, IH.
Qed.

(** In a sorted list, an element with a smaller key stands before one
    with a larger key. *)
Lemma sorted_lookup_lt l i j a b :
  StronglySorted key_le l ->
  l !! i = Some a -> l !! j = Some b -> key a < key b -> (i < j)%nat.
Proof.
  intros Hs. revert i j. induction Hs as [| x l Hs IH Hx]; intros i j Ha Hb Hlt.
  - discriminate.
  - destruct i as [| i], j as [| j]; simpl in *.
    + injection Ha as <-. injection Hb as <-. lia.
    + lia.
    + injection Hb as <-. exfalso.
      apply list_elem_of_lookup_2 in Ha.
      rewrite Forall_forall in Hx. specialize (Hx a Ha). unfold key_le in Hx. lia.
    + apply -> Nat.succ_lt_mono. eapply IH; eauto.
Qed.

(** The sort is stable: the elements of one key keep their order. *)
Lemma insert_by_filter_key k x l :
  StronglySorted key_le l ->
  List.filter (fun a => key a =? k) (insert_by key x l) =
  List.filter (fun a => key a =? k) (x :: l).
Proof.
  induction 1 as [| y l Hs IH Hy]; [reflexivity |].
  cbn [insert_by]. destruct (Z.leb_spec (key x) (key y)) as [Hle | Hgt]; [reflexivity |].
  cbn [List.filter] in *. rewrite IH.
  destruct (Z.eqb_spec (key x) k), (Z.eqb_spec (key y) k); try reflexivity. lia.
Qed.

Lemma sort_by_stable k l :
  List.filter (fun a => key a =? k) (sort_by key l) = List.filter (fun a => key a =? k) l.
Proof.
  induction l as [| x l IH]; [reflexivity |].
  cbn [sort_by foldr]. rewrite insert_by_filter_key by apply sort_by_sorted.
  cbn [List.filter]. fold (sort_by key l). rewrite IH. reflexivity.
Qed.

End Sorting.

Lemma StronglySorted_weaken {A} (R R' : A -> A -> Prop) l :
  (forall a b, R a b -> R' a b) -> StronglySorted R l -> StronglySorted R' l.
Proof.
  intros H. induction 1 as [| x l Hs IH Hx]; constructor; [exact IH |].
  eapply Forall_impl; [exact Hx |]. intros b. apply H.
Qed.

Lemma filter_disjoint_app {A} (p q : A -> bool) l :
  (forall a, p a = true -> q a = false) ->
  List.filter p l ++ List.filter q l ≡ₚ List.filter (fun a => p a || q a) l.
Proof.
  intros Hd. induction l as [| a l IH]; simpl; [reflexivity |].
  destruct (p a) eqn:Hp; simpl.
  - rewrite (Hd a Hp). constructor. exact IH.
  - destruct (q a); simpl; [| exact IH].
    rewrite <- IH. symmetry. apply Permutation_middle.
Qed.

Lemma filter_ext_bool {A} (p q : A -> bool) l :
  (forall a, p a = q a) -> List.filter p l = List.filter q l.
Proof.
  intros H. induction l as [| a l IH]; simpl; [reflexivity |].
  rewrite H, IH. reflexivity.
Qed.

(** The list that [get_valid_documents] sorts. *)
Definition collected (process : LoadedProcess) : list Document :=
  List.filter
    (fun doc => is_valid_status doc
                && str_in (DocumentType.value (document_type doc)) DOCUMENT_TYPE_ORDER)
    (loaded_documents process)
  ++ List.filter
       (fun doc => DocumentType.eqb (document_type doc) DocumentType.OUTRO
                   && is_valid_status doc)
       (loaded_documents process).

Lemma get_valid_documents_unfold process :
  get_valid_documents process =
  match collected process with
  | [] => None
  | _ => Some (sort_by get_doc_order (collected process))
  end.
Proof. reflexivity. Qed.

Lemma collected_perm process :
  collected process ≡ₚ List.filter merge_input (loaded_documents process).
Proof.
  unfold collected. rewrite filter_disjoint_app.
  - erewrite filter_ext_bool; [reflexivity |].
    intros a. unfold merge_input, named.
    destruct (is_valid_status a), (str_in _ _), (DocumentType.eqb _ _); reflexivity.
  - intros a Ha. apply andb_true_iff in Ha. destruct Ha as [_ Ha].
    destruct (document_type a); try reflexivity.
    vm_compute in Ha. discriminate.
Qed.

(** The file of [doc] is there and opens as [src]. *)
Definition opens (env : Env) (w : World) (doc : Document) (src : Pdf) : Prop :=
  exists data, files w !! file_path doc = Some data /\ pdf_open (pikepdf env) data = Return src.

Lemma append_document_opens env w combined doc src :
  opens env w doc src ->
  PDFMerger.append_document env w combined doc =
  {| Root := Root combined; pages := pages combined ++ pages src |}.
Proof.
  intros (data & Hf & Ho). unfold PDFMerger.append_document, Fs.path_exists.
  rewrite Hf, Ho. rewrite bool_decide_eq_true_2 by eauto. reflexivity.
Qed.

(** C4: the documents that [get_valid_documents] hands to the merge are
    the valid documents of a named category or of the staff ([outro]),
    sorted by the precedence formulario, declaracao, receita, relatorio,
    documento_pessoal, exame, with every document of another category
    after all those of the named ones; there is none exactly when the
    result is [None].  In particular a process whose valid documents
    are, in this order, an exam, a form and a prescription gets the
    list form, prescription, exam, and the merged document holds the
    pages of the form, then those of the prescription, then those of
    the exam. *)
Theorem get_valid_documents_sorted_by_precedence (process : LoadedProcess) :
  (forall docs,
     get_valid_documents process = Some docs ->
     StronglySorted
       (fun a b => type_order (document_type a) <= type_order (document_type b)) docs /\
     docs ≡ₚ List.filter merge_input (loaded_documents process) /\
     (forall i j a b,
        docs !! i = Some a -> docs !! j = Some b ->
        named (document_type a) = true -> named (document_type b) = false ->
        (i < j)%nat)) /\
  (get_valid_documents process = None <->
   List.filter merge_input (loaded_documents process) = []) /\
  (forall exam form prescription,
     loaded_documents process = [exam; form; prescription] ->
     document_type exam = DocumentType.EXAME ->
     document_type form = DocumentType.FORMULARIO ->
     document_type prescription = DocumentType.RECEITA ->
     Forall (fun doc => validation_status doc = ValidationStatus.VALID)
       [exam; form; prescription] ->
     get_valid_documents process = Some [form; prescription; exam] /\
     forall env w pe pf pp,
       opens env w exam pe -> opens env w form pf -> opens env w prescription pp ->
       pages (PDFMerger.merged_pdf env w [form; prescription; exam]) =
       pages pf ++ pages pp ++ pages pe).
Proof.
  split; [| split].
  - intros docs H. rewrite get_valid_documents_unfold in H.
    destruct (collected process) as [| d0 l0] eqn:E; [discriminate |].
    injection H as <-.
    assert (StronglySorted
              (fun a b => type_order (document_type a) <= type_order (document_type b))
              (sort_by get_doc_order (d0 :: l0))) as Hs.
    { pose proof (sort_by_sorted get_doc_order (d0 :: l0)) as Hs.
      eapply StronglySorted_weaken; [| exact Hs].
      unfold key_le. intros a b. rewrite !get_doc_order_type. auto. }
    split; [exact Hs |]. split.
    + etransitivity; [exact (sort_by_perm get_doc_order (d0 :: l0)) |].
      rewrite <- E. apply collected_perm.
    + intros i j a b Ha Hb Hna Hnb.
      eapply (sorted_lookup_lt (fun d => type_order (document_type d))); eauto.
      apply named_order in Hna.
      assert (~ type_order (document_type b) < 6) as Hb6
        by (rewrite <- named_order, Hnb; discriminate).
      assert (type_order (document_type b) <= 6) by (destruct (document_type b); simpl; lia).
      lia.
  - rewrite get_valid_documents_unfold. pose proof (collected_perm process) as Hp.
    destruct (collected process) as [| d0 l0] eqn:E.
    + split; [intros _ | reflexivity].
      apply Permutation_nil_l in Hp. symmetry. exact Hp.
    + split; [discriminate |]. intros Hn. rewrite Hn in Hp.
      apply Permutation_nil_r in Hp. discriminate.
  - intros exam form prescription Hl He Hf Hp Hv.
    inversion Hv as [| ? ? Hve Hv1]; subst. inversion Hv1 as [| ? ? Hvf Hv2]; subst.
    inversion Hv2 as [| ? ? Hvp _]; subst.
    split.
    + unfold get_valid_documents, is_valid_status, get_doc_order. rewrite Hl.
      destruct exam, form, prescription. simpl in He, Hf, Hp, Hve, Hvf, Hvp. subst.
      reflexivity.
    + intros env w pe pf pp Hoe Hof Hop.
      unfold PDFMerger.merged_pdf. simpl.
      rewrite (append_document_opens _ _ _ _ _ Hof).
      rewrite (append_document_opens _ _ _ _ _ Hop).
      rewrite (append_document_opens _ _ _ _ _ Hoe).
      simpl. rewrite app_assoc. reflexivity.
Qed.

End OrderingFacts.

(** ** [generate_combined_pdf] and [ensure_combined_pdf] *)

Module GenerationFacts.

Import FileSanitization FileService Repositories PdfGenerationService MonadFacts.

(** The retry settings are well formed when the number of retries is
    not negative: a wrapped operation is then invoked at least once. *)
Definition retries_ok (env : Env) : Prop :=
  0 <= STORAGE_RETRY_MAX_ATTEMPTS (settings env).

(** No document of the table is a combined PDF of the process. *)
Definition no_combined (process_id : UUID) (w : World) : Prop :=
  Forall (fun d => is_combined_of process_id d = false) (documents w).

(** The tables are the same in both worlds. *)
Definition same_tables (w w' : World) : Prop :=
  documents w' = documents w /\ processes w' = processes w.

Lemma same_tables_refl w : same_tables w w.
Proof. split; reflexivity. Qed.

Lemma same_tables_trans w1 w2 w3 :
  same_tables w1 w2 -> same_tables w2 w3 -> same_tables w1 w3.
Proof. unfold same_tables. intros [-> ->] [-> ->]. auto. Qed.

(** *** The file operations *)

Lemma unlink_tables env p w r w' :
  Fs.unlink env p w = (r, w') -> same_tables w w'.
Proof.
  unfold Fs.unlink. destruct (storage_fault env w (OpUnlink p)).
  - intros [= <- <-]. (split; reflexivity).
  - destruct (files w !! p).
    + intros [= <- <-]. (split; reflexivity).
    + destruct (bool_decide _); intros [= <- <-]; (split; reflexivity).
Qed.

Lemma delete_file_body_returns env p w :
  exists b w', delete_file_body env p w = (Return b, w') /\ same_tables w w'.
Proof.
  unfold delete_file_body, try_except.
  destruct (Fs.path_exists w p).
  - unfold bind. destruct (Fs.unlink env p w) as [[[] | e] w1] eqn:E.
    + unfold ret. eexists _, _. split; [reflexivity |]. eapply unlink_tables, E.
    + unfold ret. eexists _, _. split; [reflexivity |]. eapply unlink_tables, E.
  - eexists _, _. split; [reflexivity |]. (split; reflexivity).
Qed.

Lemma delete_file_returns env p w :
  retries_ok env ->
  exists b w', delete_file env p w = (Return b, w') /\ same_tables w w'.
Proof.
  intros Hr. unfold delete_file. rewrite RetryFacts.retry_never_raises.
  - apply delete_file_body_returns.
  - exact Hr.
  - intros s0. destruct (delete_file_body_returns env p s0) as (b & w' & E & _). eauto.
Qed.

Lemma delete_old_returns env l w :
  retries_ok env ->
  exists w', _delete_old_combined_pdfs env l w = (Return tt, w') /\ same_tables w w'.
Proof.
  intros Hr. revert w. induction l as [| d l IH]; intros w; simpl.
  - eexists. split; [reflexivity | (split; reflexivity)].
  - destruct (delete_file_returns env (file_path d) w Hr) as (b & w1 & E & T1).
    destruct (IH w1) as (w2 & E2 & T2).
    exists w2. split; [| eapply same_tables_trans; eauto].
    erewrite bind_return by exact E. exact E2.
Qed.

Lemma mkdir_one_inv env p w r w' :
  Fs.mkdir_one env p w = (r, w') ->
  same_tables w w' /\ files w' = files w.
Proof.
  unfold Fs.mkdir_one. destruct (storage_fault env w (OpMkdir p)).
  - intros [= <- <-]. split; [(split; reflexivity) | reflexivity].
  - destruct (bool_decide _); intros [= <- <-]; (split; [(split; reflexivity) | reflexivity]).
Qed.

Lemma mkdir_parents_inv env base cs w r w' :
  Fs.mkdir_parents env base cs w = (r, w') ->
  same_tables w w' /\ files w' = files w.
Proof.
  revert base w. induction cs as [| c cs IH]; intros base w; simpl; unfold bind.
  - destruct (Fs.mkdir_one env base w) as [[[] | e] w1] eqn:E.
    + unfold ret. intros [= <- <-]. eapply mkdir_one_inv, E.
    + intros [= <- <-]. eapply mkdir_one_inv, E.
  - destruct (Fs.mkdir_one env base w) as [[[] | e] w1] eqn:E.
    + intros H. apply IH in H. apply mkdir_one_inv in E.
      destruct E as [T1 F1], H as [T2 F2].
      split; [eapply same_tables_trans; eauto | congruence].
    + intros [= <- <-]. eapply mkdir_one_inv, E.
Qed.

Lemma write_bytes_inv env p data w r w' :
  Fs.write_bytes env p data w = (r, w') ->
  same_tables w w' /\
  match r with
  | Return _ => files w' = <[p := data]> (files w) /\ dirs w' = dirs w /\ p ∉ dirs w
  | Raise _ => w' = w
  end.
Proof.
  unfold Fs.write_bytes. destruct (storage_fault env w (OpWrite p)).
  - intros [= <- <-]. split; [(split; reflexivity) | reflexivity].
  - destruct (bool_decide (p ∈ dirs w)) eqn:E.
    + intros [= <- <-]. split; [(split; reflexivity) | reflexivity].
    + intros [= <- <-]. split; [(split; reflexivity) |].
      simpl. repeat split. apply bool_decide_eq_false in E. exact E.
Qed.

Ltac merge_failed :=
  split; [reflexivity | split; [split; reflexivity | split; [discriminate | intros _; reflexivity]]].

(** The body of the merger never raises; when it returns [True], the
    file of the merged document is at the output path. *)
Lemma merge_documents_body_returns env docs out w :
  exists b w',
    PDFMerger.merge_documents_body env docs out w = (Return b, w') /\
    same_tables w w' /\
    (b = true ->
     exists data,
       pdf_save (pikepdf env) (PDFMerger.merged_pdf env w docs) = Return data /\
       files w' = <[out := data]> (files w) /\ dirs w' = dirs w) /\
    (b = false -> w' = w).
Proof.
  unfold PDFMerger.merge_documents_body.
  destruct (importable (pikepdf env)); cbn [negb].
  2: { exists false, w. merge_failed. }
  unfold try_except, PDFMerger.save_to, bind, lift.
  destruct (pdf_save (pikepdf env) (PDFMerger.merged_pdf env w docs)) as [data | e] eqn:Es.
  2: { unfold raise, ret. exists false, w. merge_failed. }
  unfold ret at 1.
  destruct (Fs.write_bytes env out data w) as [[[] | e] w1] eqn:Ew.
  - apply write_bytes_inv in Ew. destruct Ew as [T (Hf & Hd & Hn)].
    unfold get, Fs.path_exists. rewrite Hf, lookup_insert_eq.
    rewrite bool_decide_eq_true_2 by eauto. cbn [orb negb]. unfold ret.
    exists true, w1. split; [reflexivity |]. split; [exact T |].
    split; [| discriminate]. intros _. exists data. auto.
  - apply write_bytes_inv in Ew. destruct Ew as [T ->].
    unfold ret. exists false, w. merge_failed.
Qed.

Lemma merge_documents_is_body env docs out w :
  retries_ok env ->
  PDFMerger.merge_documents env docs out w = PDFMerger.merge_documents_body env docs out w.
Proof.
  intros Hr. unfold PDFMerger.merge_documents. apply RetryFacts.retry_never_raises.
  - exact Hr.
  - intros s0. destruct (merge_documents_body_returns env docs out s0) as (b & w' & E & _).
    eauto.
Qed.

Lemma filter_combined_none (process_id : UUID) (docs : list Document) :
  List.filter
    (fun doc => DocumentType.eqb (document_type doc) DocumentType.PDF_COMBINADO)
    (List.filter (fun d => (Models.process_id d =? process_id)%N) docs) = [] ->
  List.filter (fun d => negb (is_combined_of process_id d)) docs = docs.
Proof.
  induction docs as [| d docs IH]; simpl; [reflexivity |].
  unfold is_combined_of at 1.
  destruct (Models.process_id d =? process_id)%N; simpl.
  - destruct (DocumentType.eqb _ _); simpl; [discriminate |].
    intros H. rewrite IH by exact H. reflexivity.
  - intros H. rewrite IH by exact H. reflexivity.
Qed.

Lemma filter_not_combined (process_id : UUID) (docs : list Document) :
  Forall (fun d => is_combined_of process_id d = false)
    (List.filter (fun d => negb (is_combined_of process_id d)) docs).
Proof.
  induction docs as [| d docs IH]; simpl; [constructor |].
  destruct (is_combined_of process_id d) eqn:E; simpl; [exact IH |].
  constructor; assumption.
Qed.

Lemma find_app_last {A} (f : A -> bool) l x :
  Forall (fun a => f a = false) l -> f x = true -> List.find f (l ++ [x]) = Some x.
Proof.
  induction 1 as [| a l Ha Hl IH]; intros Hx; simpl.
  - rewrite Hx. reflexivity.
  - rewrite Ha. apply IH, Hx.
Qed.

Lemma find_none_forall {A} (f : A -> bool) l :
  Forall (fun a => f a = false) l -> List.find f l = None.
Proof.
  induction 1 as [| a l Ha Hl IH]; simpl; [reflexivity |]. rewrite Ha. exact IH.
Qed.

Lemma find_proc_id (process_id : UUID) (ps : list Process) p :
  List.find (fun p => (proc_id p =? process_id)%N) ps = Some p -> proc_id p = process_id.
Proof.
  intros H. apply find_some in H. destruct H as [_ H]. apply N.eqb_eq, H.
Qed.

(** [generate_inputs] returns inputs for the merger: the process was
    found, it has valid documents, the directory of the generated PDFs
    was made, and no combined document of the process is left in the
    table. *)
Lemma generate_inputs_some env process_id w inputs w1 :
  retries_ok env ->
  generate_inputs env process_id w = (Return (Some inputs), w1) ->
  proc_id (row (mi_process inputs)) = process_id /\
  PDFValidator.get_valid_documents (mi_process inputs) = Some (mi_documents inputs) /\
  mi_output_path inputs =
  Fs.joinpath (Fs.joinpath (UPLOAD_DIR (settings env)) (u "generated_pdfs"))
    (mi_filename inputs) /\
  documents w1 = List.filter (fun d => negb (is_combined_of process_id d)) (documents w) /\
  processes w1 = processes w.
Proof.
  intros Hr H. unfold generate_inputs in H.
  apply bind_return_inv in H. destruct H as (loaded & w0 & Hl & H).
  unfold get_process_with_patient_and_documents, get in Hl. injection Hl as <- <-.
  destruct (List.find _ (processes w)) as [p |] eqn:Hp; [| discriminate].
  apply bind_return_inv in H. destruct H as ([] & wa & Hd & H).
  destruct (delete_old_returns env
              (List.filter
                 (fun doc => DocumentType.eqb (document_type doc) DocumentType.PDF_COMBINADO)
                 (loaded_documents
                    {| row := p;
                       loaded_documents :=
                         List.filter (fun d => (Models.process_id d =? process_id)%N)
                           (documents w) |})) w Hr) as (wa' & Hd' & Ta).
  rewrite Hd' in Hd. injection Hd as <-.
  apply bind_return_inv in H. destruct H as ([] & wb & Hdel & H).
  assert (documents wb = List.filter (fun d => negb (is_combined_of process_id d)) (documents w)
          /\ processes wb = processes w) as [Db Pb].
  { destruct Ta as [Da Pa]. cbn [loaded_documents] in Hdel.
    destruct (List.filter _ (List.filter _ (documents w))) eqn:Ef.
    - injection Hdel as <-. rewrite filter_combined_none by exact Ef. auto.
    - unfold delete_combined_pdfs_for_process, modify in Hdel. injection Hdel as <-.
      simpl. rewrite Da. auto. }
  destruct (PDFValidator.get_valid_documents _) as [valid |] eqn:Hv; [| discriminate].
  apply bind_return_inv in H. destruct H as (dir & wc & Hg & H).
  injection H as <- <-.
  unfold get_generated_pdfs_dir in Hg.
  apply bind_return_inv in Hg. destruct Hg as ([] & wd & Hm & Hg).
  injection Hg as <- <-.
  apply mkdir_parents_inv in Hm. destruct Hm as [[Dd Pd] _].
  cbn [mi_process mi_documents mi_output_path mi_filename row].
  split; [eapply find_proc_id, Hp |]. split; [exact Hv |]. split; [reflexivity |].
  split; congruence.
Qed.

Lemma joinpath_nonempty a b : Fs.joinpath a b <> [].
Proof. unfold Fs.joinpath. destruct a; discriminate. Qed.

(** [generate_combined_pdf] returns a path: the combined document is
    the last row of the table and the only combined document of the
    process, and its file is at the path. *)
Lemma generate_combined_pdf_some env process_id w path w1 :
  retries_ok env ->
  generate_combined_pdf env process_id w = (Return (Some path), w1) ->
  path <> [] /\
  exists combined_doc data,
    documents w1 =
    List.filter (fun d => negb (is_combined_of process_id d)) (documents w) ++ [combined_doc] /\
    is_combined_of process_id combined_doc = true /\
    file_path combined_doc = path /\
    files w1 !! path = Some data /\
    file_size combined_doc = len data /\
    processes w1 = processes w.
Proof.
  intros Hr H. unfold generate_combined_pdf in H.
  apply bind_return_inv in H. destruct H as (inputs & wi & Hi & H).
  destruct inputs as [inputs |]; [| discriminate].
  apply (generate_inputs_some _ _ _ _ _ Hr) in Hi.
  destruct Hi as (Hpid & Hv & Hout & Di & Pi).
  apply bind_return_inv in H. destruct H as (merged & wm & Hm & H).
  rewrite merge_documents_is_body in Hm by exact Hr.
  destruct (merge_documents_body_returns env (mi_documents inputs) (mi_output_path inputs) wi)
    as (b & wm' & Hm' & [Dm Pm] & Htrue & _).
  rewrite Hm' in Hm. injection Hm as <- <-.
  destruct b; cbn [negb] in H; [| discriminate].
  destruct (Htrue eq_refl) as (data & Hsave & Fm & _).
  apply bind_return_inv in H. destruct H as (size & ws & Hs & H).
  unfold Fs.stat_size in Hs. rewrite Fm, lookup_insert_eq in Hs. injection Hs as <- <-.
  apply bind_return_inv in H. destruct H as (doc & wc & Hc & H).
  apply bind_return_inv in H. destruct H as ([] & wl & Hl & H).
  injection H as <- <-.
  unfold log_activity, modify in Hl. injection Hl as <-.
  unfold create_combined_pdf_document in Hc.
  destruct (check_constraints _); [discriminate |].
  injection Hc as <- <-.
  split; [rewrite Hout; apply joinpath_nonempty |].
  eexists _, data. cbn [documents files processes with_activities with_documents with_next_uuid].
  split; [rewrite Dm, Di; reflexivity |].
  split; [unfold is_combined_of; cbn; rewrite Hpid, N.eqb_refl; reflexivity |].
  split; [reflexivity |]. split; [rewrite Fm; apply lookup_insert_eq |].
  split; [reflexivity | congruence].
Qed.


End GenerationFacts.

Module EnsureFacts.

Import FileSanitization FileService Repositories PdfGenerationService MonadFacts.
Import GenerationFacts.

(** The three results of [ensure_combined_pdf]. *)
Definition hit (doc : Document) : PDFEnsureResult :=
  {| pdf := Some doc; generated := false; skipped := false;
     skip_reason := None; ensure_error := None |}.

Definition just_generated (doc : Document) : PDFEnsureResult :=
  {| pdf := Some doc; generated := true; skipped := false;
     skip_reason := None; ensure_error := None |}.

Definition skipped_no_valid_docs : PDFEnsureResult :=
  {| pdf := None; generated := false; skipped := true;
     skip_reason := Some "no_valid_docs"%string; ensure_error := None |}.

(** The combined document on record, when its file is there. *)
Definition cached (process_id : UUID) (w : World) : option Document :=
  match List.find (is_combined_of process_id) (documents w) with
  | Some doc => if Fs.file_exists w (file_path doc) then Some doc else None
  | None => None
  end.

(** Lines 379-394: generation, and what is reported of it. *)
Definition regenerate (env : Env) (process_id : UUID) (w : World)
    : outcome PDFEnsureResult * World :=
  match generate_combined_pdf env process_id w with
  | (Raise e, w') => (Raise e, w')
  | (Return (Some (_ :: _)), w') =>
      match List.find (is_combined_of process_id) (documents w') with
      | Some doc => (Return (just_generated doc), w')
      | None => (Return skipped_no_valid_docs, w')
      end
  | (Return _, w') => (Return skipped_no_valid_docs, w')
  end.

Lemma ensure_combined_pdf_unfold env process_id w :
  ensure_combined_pdf env process_id w =
  match cached process_id w with
  | Some doc => (Return (hit doc), w)
  | None => regenerate env process_id w
  end.
Proof.
  unfold ensure_combined_pdf, cached, regenerate, get_combined_pdf_for_process,
    Models.bind, Models.get, Models.ret.
  cbv beta iota.
  destruct (List.find (is_combined_of process_id) (documents w)) as [doc |].
  - destruct (Fs.file_exists w (file_path doc)); [reflexivity |].
    destruct (generate_combined_pdf env process_id w) as [[[[| c path] |] | e] w'];
      try reflexivity.
    cbv beta iota. destruct (List.find _ (documents w')); reflexivity.
  - destruct (generate_combined_pdf env process_id w) as [[[[| c path] |] | e] w'];
      try reflexivity.
    cbv beta iota. destruct (List.find _ (documents w')); reflexivity.
Qed.

(** After a generation that returned a path, the combined document is
    on record with its file. *)
Lemma cached_after_generation env process_id w path w1 :
  retries_ok env ->
  generate_combined_pdf env process_id w = (Return (Some path), w1) ->
  exists doc,
    List.find (is_combined_of process_id) (documents w1) = Some doc /\
    cached process_id w1 = Some doc.
Proof.
  intros Hr H. apply (generate_combined_pdf_some _ _ _ _ _ Hr) in H.
  destruct H as (Hne & doc & data & Hd & Hc & Hp & Hf & _).
  assert (List.find (is_combined_of process_id) (documents w1) = Some doc) as Hfind.
  { rewrite Hd. apply find_app_last; [apply filter_not_combined | exact Hc]. }
  exists doc. split; [exact Hfind |].
  unfold cached. rewrite Hfind. unfold Fs.file_exists, Fs.path_exists.
  rewrite Hp. destruct path; [contradiction |].
  rewrite Hf. rewrite bool_decide_eq_true_2 by eauto. reflexivity.
Qed.


(** The world in which the merger is called. *)
Definition before_merge (env : Env) (process_id : UUID) (w : World) : World :=
  snd (generate_inputs env process_id w).

(** Generation is attempted (no combined document is on record with
    its file), it reaches the merger, and the merger returns [False]. *)
Definition merge_fails (env : Env) (process_id : UUID) (w : World) : Prop :=
  cached process_id w = None /\
  exists inputs,
    fst (generate_inputs env process_id w) = Return (Some inputs) /\
    fst (PDFMerger.merge_documents env (mi_documents inputs) (mi_output_path inputs)
           (before_merge env process_id w)) = Return false.

(** C2, amended: when generation is attempted and the merge fails,
    [ensure_combined_pdf] returns the same result as for a request with
    no valid document (no document, [generated] false, [skipped] true,
    [skip_reason] no_valid_docs, no error), and no combined document of
    the request is in the table. *)
Theorem ensure_combined_pdf_merge_failure (env : Env) (process_id : UUID) (w : World) :
  retries_ok env ->
  merge_fails env process_id w ->
  ensure_combined_pdf env process_id w =
  (Return skipped_no_valid_docs, before_merge env process_id w) /\
  skipped skipped_no_valid_docs = true /\
  no_combined process_id (before_merge env process_id w) /\
  List.find (is_combined_of process_id) (documents (before_merge env process_id w)) = None.
Proof.
  intros Hr (Hc & inputs & Hi & Hm). unfold before_merge in *.
  apply outcome_and_world in Hi. apply outcome_and_world in Hm.
  set (w1 := snd (generate_inputs env process_id w)) in *.
  pose proof (generate_inputs_some _ _ _ _ _ Hr Hi) as (_ & _ & _ & Di & _).
  rewrite merge_documents_is_body in Hm by exact Hr.
  destruct (merge_documents_body_returns env (mi_documents inputs) (mi_output_path inputs) w1)
    as (b & w' & Hm' & _ & _ & Hfalse).
  rewrite Hm' in Hm. cbn [snd] in Hm. injection Hm as ->. specialize (Hfalse eq_refl). subst w'.
  assert (no_combined process_id w1) as Hn
    by (unfold no_combined; rewrite Di; apply filter_not_combined).
  split; [| split; [reflexivity | split; [exact Hn | apply find_none_forall, Hn]]].
  rewrite ensure_combined_pdf_unfold, Hc. unfold regenerate, generate_combined_pdf.
  erewrite bind_return; [| eassumption]. cbv beta iota zeta.
  erewrite bind_return
    by (rewrite merge_documents_is_body by exact Hr; exact Hm').
  reflexivity.
Qed.

(** The merger succeeds when the library is there, the merged document
    can be saved and the storage takes the write. *)
Lemma merge_documents_body_success env docs out w data :
  importable (pikepdf env) = true ->
  pdf_save (pikepdf env) (PDFMerger.merged_pdf env w docs) = Return data ->
  storage_fault env w (OpWrite out) = None ->
  bool_decide (out ∈ dirs w) = false ->
  PDFMerger.merge_documents_body env docs out w =
  (Return true, with_files (<[out := data]> (files w)) w).
Proof.
  intros Hi Hs Hf Hd. unfold PDFMerger.merge_documents_body. rewrite Hi. cbn [negb].
  unfold try_except, PDFMerger.save_to, Models.bind, lift. rewrite Hs.
  unfold Models.ret at 1. unfold Fs.write_bytes. rewrite Hf, Hd.
  unfold Models.get, Fs.path_exists. cbn [files with_files].
  rewrite lookup_insert_eq. rewrite bool_decide_eq_true_2 by eauto. reflexivity.
Qed.

(** Without a valid document of a named category or of the staff,
    [generate_inputs] returns early, once the old combined documents
    are deleted. *)
Lemma generate_inputs_no_valid env process_id w p :
  retries_ok env ->
  List.find (fun p => (proc_id p =? process_id)%N) (processes w) = Some p ->
  List.filter OrderingFacts.merge_input
    (List.filter (fun d => (Models.process_id d =? process_id)%N) (documents w)) = [] ->
  exists w',
    generate_inputs env process_id w = (Return None, w') /\
    documents w' = List.filter (fun d => negb (is_combined_of process_id d)) (documents w).
Proof.
  intros Hr Hp Hnone. unfold generate_inputs.
  erewrite bind_return
    by (unfold get_process_with_patient_and_documents, Models.get; rewrite Hp; reflexivity).
  cbv beta iota. cbn [loaded_documents].
  set (loaded := List.filter (fun d => (Models.process_id d =? process_id)%N) (documents w))
    in *.
  set (existing :=
         List.filter
           (fun doc => DocumentType.eqb (document_type doc) DocumentType.PDF_COMBINADO) loaded).
  destruct (delete_old_returns env existing w Hr) as (wa & Hd & [Da Pa]).
  erewrite bind_return by exact Hd.
  assert (PDFValidator.get_valid_documents {| row := p; loaded_documents := loaded |} = None)
    as Hv.
  { rewrite OrderingFacts.get_valid_documents_unfold.
    pose proof (OrderingFacts.collected_perm {| row := p; loaded_documents := loaded |}) as Hc.
    cbn [loaded_documents] in Hc. rewrite Hnone in Hc.
    apply Permutation_nil_r in Hc. rewrite Hc. reflexivity. }
  destruct existing as [| d0 l0] eqn:Ee.
  - erewrite bind_return by reflexivity. rewrite Hv.
    exists wa. split; [reflexivity |].
    rewrite Da. symmetry. apply filter_combined_none. exact Ee.
  - erewrite bind_return
      by (unfold delete_combined_pdfs_for_process, modify; reflexivity).
    rewrite Hv. eexists. split; [reflexivity |]. cbn [documents with_documents].
    rewrite Da. reflexivity.
Qed.

(** A request whose process exists and has no valid document to merge,
    and no combined document on record with its file: the call reports
    skipped, and leaves no combined document of the request in the
    table. *)
Theorem ensure_skips_without_valid_documents (env : Env) (process_id : UUID) (w : World)
    (p : Process) :
  retries_ok env ->
  cached process_id w = None ->
  List.find (fun p => (proc_id p =? process_id)%N) (processes w) = Some p ->
  List.filter OrderingFacts.merge_input
    (List.filter (fun d => (Models.process_id d =? process_id)%N) (documents w)) = [] ->
  fst (ensure_combined_pdf env process_id w) = Return skipped_no_valid_docs /\
  no_combined process_id (snd (ensure_combined_pdf env process_id w)).
Proof.
  intros Hr Hc Hp Hnone.
  destruct (generate_inputs_no_valid env process_id w p Hr Hp Hnone) as (w' & Hg & Hd).
  rewrite ensure_combined_pdf_unfold, Hc. unfold regenerate, generate_combined_pdf.
  erewrite bind_return by exact Hg. cbn [fst snd]. unfold Models.ret.
  split; [reflexivity |].
  unfold no_combined. cbn [snd]. rewrite Hd. apply filter_not_combined.
Qed.



(** A failure inside [ensure_combined_pdf] for the first request of a
    batch is raised by the batch: no result is returned for any
    request. *)
Lemma batch_raises_on_first env process_id rest w e :
  fst (ensure_combined_pdf env process_id w) = Raise e ->
  fst (ensure_combined_pdfs_batch env (process_id :: rest) w) = Raise e.
Proof.
  intros H. apply outcome_and_world in H. unfold ensure_combined_pdfs_batch.
  erewrite bind_raise; [reflexivity |].
  simpl. erewrite bind_raise; [reflexivity | exact H].
Qed.

(** An exception of the generation is not handled by
    [ensure_combined_pdf]. *)
Lemma ensure_raises env process_id w e :
  cached process_id w = None ->
  fst (generate_combined_pdf env process_id w) = Raise e ->
  fst (ensure_combined_pdf env process_id w) = Raise e.
Proof.
  intros Hc H. apply outcome_and_world in H.
  rewrite ensure_combined_pdf_unfold, Hc. unfold regenerate. rewrite H. reflexivity.
Qed.

(** When the merged file breaks the size constraint of the table, the
    flush of the new row raises, and [generate_combined_pdf] with it. *)
Lemma generate_raises_on_constraint env process_id w inputs data :
  retries_ok env ->
  fst (generate_inputs env process_id w) = Return (Some inputs) ->
  importable (pikepdf env) = true ->
  pdf_save (pikepdf env)
    (PDFMerger.merged_pdf env (before_merge env process_id w) (mi_documents inputs)) =
  Return data ->
  storage_fault env (before_merge env process_id w) (OpWrite (mi_output_path inputs)) = None ->
  bool_decide (mi_output_path inputs ∈ dirs (before_merge env process_id w)) = false ->
  (0 <? len data) && (len data <=? 10485760) = false ->
  fst (generate_combined_pdf env process_id w) = Raise (IntegrityError "check_file_size").
Proof.
  intros Hr Hi Himp Hs Hf Hd Hsize. unfold before_merge in *.
  apply outcome_and_world in Hi.
  set (w1 := snd (generate_inputs env process_id w)) in *.
  unfold generate_combined_pdf.
  erewrite bind_return by exact Hi. cbv beta iota zeta.
  erewrite bind_return
    by (rewrite merge_documents_is_body by exact Hr;
        apply merge_documents_body_success; eassumption).
  cbn [negb].
  erewrite bind_return
    by (unfold Fs.stat_size; cbn [files with_files]; rewrite lookup_insert_eq; reflexivity).
  erewrite bind_raise; [reflexivity |].
  unfold create_combined_pdf_document, check_constraints. cbn [file_size].
  rewrite Hsize. reflexivity.
Qed.

(** When no call raises, the batch returns a result for every request. *)
Lemma ensure_each_dom env process_ids results w results' w' :
  ensure_each env process_ids results w = (Return results', w') ->
  dom results' = list_to_set process_ids ∪ dom results.
Proof.
  revert results w. induction process_ids as [| p ps IH]; intros results w; simpl.
  - intros [= <- <-]. set_solver.
  - intros H. apply bind_return_inv in H. destruct H as (r & w1 & _ & H).
    apply IH in H. rewrite H, dom_insert_L. set_solver.
Qed.

(** When the batch returns, its map holds a result for every request
    of the list and for nothing else, and the summary it logs counts
    the generated, the skipped and the existing results of that map. *)
Theorem batch_returns_all env process_ids w results :
  fst (ensure_combined_pdfs_batch env process_ids w) = Return results ->
  dom results = list_to_set process_ids /\
  summaries (snd (ensure_combined_pdfs_batch env process_ids w)) =
  summaries (snd (ensure_each env process_ids ∅ w)) ++
  [{| existing_count :=
        count_results (fun r => result_exists r && negb (generated r)) results;
      generated_count := count_results generated results;
      skipped_count := count_results skipped results |}].
Proof.
  unfold ensure_combined_pdfs_batch, Models.bind, modify, Models.ret.
  destruct (ensure_each env process_ids ∅ w) as [[res | e] w1] eqn:He;
    cbn [fst snd]; [| discriminate].
  intros [= <-]. apply ensure_each_dom in He.
  split; [rewrite He; set_solver | reflexivity].
Qed.

End EnsureFacts.

(** ** Concrete requests *)

Module Scenario.

Import FileSanitization FileService Repositories PdfGenerationService.
Import SanitizePdfFacts GenerationFacts EnsureFacts.

(** Two requests: the first has an exam, a form and a prescription,
    uploaded in this order and all valid; the second has no document. *)
Definition maria : Process :=
  {| proc_id := 1; protocol_number := u "2024-0001";
     proc_type := ProcessType.MEDICAMENTO; patient_name := u "Maria Silva" |}.

Definition joao : Process :=
  {| proc_id := 2; protocol_number := u "2024-0002";
     proc_type := ProcessType.BOMBA; patient_name := u "Joao Souza" |}.

Definition stored (name : string) : pystr := u "./uploads/Maria_Silva/2024-0001/" ++ u name.

Definition upload (key : UUID) (t : DocumentType.t) (name : string) : Document :=
  {| doc_id := key; process_id := 1; document_type := t;
     original_filename := u name; stored_filename := u name;
     file_path := stored name; file_size := 5; mime_type := "application/pdf";
     validation_status := ValidationStatus.VALID |}.

Definition exam : Document := upload 11 DocumentType.EXAME "exame_1.pdf".
Definition form : Document := upload 12 DocumentType.FORMULARIO "formulario_1.pdf".
Definition prescription : Document := upload 13 DocumentType.RECEITA "receita_1.pdf".

Definition w0 : World :=
  {| files :=
       <[stored "exame_1.pdf" := buf x13]>
         (<[stored "formulario_1.pdf" := buf x11]>
            (<[stored "receita_1.pdf" := buf x12]> ∅));
     dirs := {[ u "./uploads" ]};
     documents := [exam; form; prescription];
     processes := [maria; joao];
     activities := []; uploads := ∅; slept := []; summaries := [];
     next_uuid := 100 |}.

(** The storage works. *)
Definition sound : Env := Toy.env default_settings true Toy.no_fault.

(** Every write to the storage fails with an I/O error. *)
Definition read_only : Env :=
  Toy.env default_settings true
    (fun _ op => match op with OpWrite _ => Some (OSError "EIO") | _ => None end).

(** The path of the combined PDF of the first request. *)
Definition combined_path : pystr :=
  u "./uploads/generated_pdfs/Maria_Silva - Medicamento.pdf".

Definition combined : Document :=
  {| doc_id := 100; process_id := 1; document_type := DocumentType.PDF_COMBINADO;
     original_filename := u "Maria_Silva - Medicamento.pdf";
     stored_filename := u "Maria_Silva - Medicamento.pdf";
     file_path := combined_path; file_size := 5; mime_type := "application/pdf";
     validation_status := ValidationStatus.VALID |}.

(** What [generate_combined_pdf] hands to the merger for the first
    request. *)
Definition maria_inputs : MergeInputs :=
  {| mi_process := {| row := maria; loaded_documents := [exam; form; prescription] |};
     mi_documents := [form; prescription; exam];
     mi_filename := u "Maria_Silva - Medicamento.pdf";
     mi_output_path := combined_path |}.

Lemma retries_ok_default installed fault : retries_ok (Toy.env default_settings installed fault).
Proof. unfold retries_ok. simpl. lia. Defined.

Lemma ensure_generates :
  fst (ensure_combined_pdf sound 1 w0) = Return (just_generated combined).
Proof. by_evaluation. Qed.

Lemma opens_stored key t name tag src :
  files w0 !! stored name = Some (buf tag) ->
  toy_open (buf tag) = Return src ->
  OrderingFacts.opens sound w0 (upload key t name) src.
Proof. intros H1 H2. exists (buf tag). split; assumption. Defined.

Lemma get_valid_documents_sorted_by_precedence_witness :
  PDFValidator.get_valid_documents
    {| row := maria; loaded_documents := [exam; form; prescription] |} =
  Some [form; prescription; exam] /\
  pages (PDFMerger.merged_pdf sound w0 [form; prescription; exam]) =
  [Obj 11 []; Obj 21 []; Obj 22 []; Obj 31 []].
Proof.
  pose proof (proj2 (proj2 (OrderingFacts.get_valid_documents_sorted_by_precedence
    {| row := maria; loaded_documents := [exam; form; prescription] |}))
    exam form prescription eq_refl eq_refl eq_refl eq_refl
    ltac:(repeat constructor)) as [H1 H2].
  split; [exact H1 |].
  apply (H2 sound w0 (doc_of_pages [31%N]) (doc_of_pages [11%N]) (doc_of_pages [21%N; 22%N])).
  - apply (opens_stored _ _ "exame_1.pdf" x13); by_evaluation.
  - apply (opens_stored _ _ "formulario_1.pdf" x11); by_evaluation.
  - apply (opens_stored _ _ "receita_1.pdf" x12); by_evaluation.
Defined.


Lemma merge_fails_read_only : merge_fails read_only 1 w0.
Proof.
  split; [by_evaluation |].
  exists maria_inputs. split; by_evaluation.
Defined.


(** C2, as stated, fails: generation is attempted for the first
    request, the merge fails because the storage refuses the write, and
    the result is the skipped one, [skipped] true with the reason
    no_valid_docs: the very result of the second request, which has no
    document at all. *)
Lemma ensure_reports_merge_failure_as_skipped :
  merge_fails read_only 1 w0 /\
  fst (ensure_combined_pdf read_only 1 w0) = Return skipped_no_valid_docs /\
  skipped skipped_no_valid_docs = true /\
  fst (ensure_combined_pdf read_only 2 w0) = Return skipped_no_valid_docs.
Proof.
  split; [exact merge_fails_read_only |].
  repeat split; by_evaluation.
Qed.

Lemma ensure_skips_without_valid_documents_witness :
  fst (ensure_combined_pdf sound 2 w0) = Return skipped_no_valid_docs /\
  no_combined 2 (snd (ensure_combined_pdf sound 2 w0)).
Proof.
  apply (ensure_skips_without_valid_documents sound 2 w0 joao).
  - apply retries_ok_default.
  - by_evaluation.
  - by_evaluation.
  - by_evaluation.
Defined.


(** The results of a batch over both requests. *)
Definition both_results : gmap UUID PDFEnsureResult :=
  <[2%N := skipped_no_valid_docs]> (<[1%N := just_generated combined]> ∅).

Lemma batch_returns_all_witness :
  dom both_results = list_to_set [1; 2]%N /\
  summaries (snd (ensure_combined_pdfs_batch sound [1; 2]%N w0)) =
  summaries (snd (ensure_each sound [1; 2]%N ∅ w0)) ++
  [{| existing_count :=
        count_results (fun r => result_exists r && negb (generated r)) both_results;
      generated_count := count_results generated both_results;
      skipped_count := count_results skipped both_results |}].
Proof. apply batch_returns_all. by_evaluation. Defined.

(** A merged document of ten mebibytes and one byte. *)
Definition oversized : bytes := repeat x00 (Z.to_nat 10485761).

(** The library saves the merged document of the first request as
    [oversized]. *)
Definition heavy : Env :=
  {| settings := default_settings; unicode := Toy.ascii_only;
     pikepdf := {| importable := true; pdf_open := toy_open;
                   pdf_save := fun _ => Return oversized |};
     filetype_guess := Toy.sniff; imaging := Toy.toy_imaging;
     storage_fault := Toy.no_fault |}.

Lemma len_oversized : len oversized = 10485761.
Proof.
  unfold len, oversized. rewrite repeat_length. apply Z2Nat.id. discriminate.
Qed.

(** C9, at the failing input: the batch is called for the two requests;
    the merged file of the first breaks the size constraint of the
    table, the flush raises [IntegrityError], and the batch raises it:
    no map is returned, although the second request on its own would
    have got its result. *)
Lemma ensure_combined_pdfs_batch_halts_on_exception :
  fst (ensure_combined_pdfs_batch heavy [1; 2]%N w0) =
  Raise (IntegrityError "check_file_size") /\
  fst (ensure_combined_pdf heavy 2 w0) = Return skipped_no_valid_docs.
Proof.
  split; [| by_evaluation].
  apply batch_raises_on_first, ensure_raises; [by_evaluation |].
  apply (generate_raises_on_constraint heavy 1 w0 maria_inputs oversized).
  - unfold retries_ok. simpl. lia.
  - by_evaluation.
  - reflexivity.
  - reflexivity.
  - reflexivity.
  - by_evaluation.
  - rewrite len_oversized. reflexivity.
Qed.

Lemma ensure_combined_pdf_merge_failure_witness :
  ensure_combined_pdf read_only 1 w0 =
  (Return skipped_no_valid_docs, before_merge read_only 1 w0) /\
  skipped skipped_no_valid_docs = true /\
  no_combined 1 (before_merge read_only 1 w0) /\
  List.find (is_combined_of 1) (documents (before_merge read_only 1 w0)) = None.
Proof.
  apply (ensure_combined_pdf_merge_failure read_only 1 w0).
  - apply retries_ok_default.
  - exact merge_fails_read_only.
Defined.

End Scenario.

(** ** [retry_file_operation]: the backoff and the recovery *)

Module RetryScheduleFacts.

Import StorageService RetryFacts.

(** What is observed of a run of the wrapper: the number of invocations
    of the operation and the delays slept, in order. *)
Definition Trace : Type := (nat * list Q)%type.

(** An operation instrumented with the count of its invocations; it
    does not see the trace. *)
Definition traced {S A} (func : S -> outcome A * S) (ts : Trace * S)
    : outcome A * (Trace * S) :=
  let '(r, s) := func (snd ts) in
  (r, ((Datatypes.S (fst (fst ts)), snd (fst ts)), s)).

(** [time.sleep] recorded in the trace. *)
Definition traced_sleep {S} (d : Q) (ts : Trace * S) : Trace * S :=
  ((fst (fst ts), log_sleep d (snd (fst ts))), snd ts).

(** The delays of [k] successive sleeps, from [delay] on. *)
Fixpoint schedule (exponential_backoff : bool) (delay : Q) (k : nat) : list Q :=
  match k with
  | O => []
  | Datatypes.S k =>
      delay :: schedule exponential_backoff
                 (if exponential_backoff then (delay * 2)%Q else delay) k
  end.

Lemma traced_eq {S A} (func : S -> outcome A * S) n l s r s' :
  func s = (r, s') -> traced func ((n, l), s) = (r, ((Datatypes.S n, l), s')).
Proof. intros H. unfold traced. simpl. rewrite H. reflexivity. Qed.

(** The loop over the attempts from [a] on, the last one being attempt
    [max_retries]. *)
Lemma retry_loop_schedule {S A : Type} (exponential_backoff : bool)
    (retryable_exceptions : exn -> bool) (func : S -> outcome A * S) (max_retries : Z) :
  forall (m a : nat) delay last (n : nat) (l : list Q) (s : S),
    Z.of_nat (a + m) = max_retries ->
    exists k : nat,
      (k <= m)%nat /\
      fst (snd (retry_loop traced_sleep max_retries exponential_backoff retryable_exceptions
                  (traced func) (map Z.of_nat (seq a (Datatypes.S m))) delay last ((n, l), s))) =
      ((n + Datatypes.S k)%nat, l ++ schedule exponential_backoff delay k).
Proof.
  induction m as [| m IH]; intros a delay last n l s Ha.
  - exists 0%nat. split; [lia |]. cbn [seq map retry_loop].
    destruct (func s) as [[v | e] s'] eqn:E; rewrite (traced_eq _ _ _ _ _ _ E).
    + cbn. rewrite app_nil_r. do 2 f_equal. lia.
    + destruct (retryable_exceptions e).
      * replace (Z.of_nat a =? max_retries) with true by (symmetry; apply Z.eqb_eq; lia).
        cbn. rewrite app_nil_r. do 2 f_equal. lia.
      * cbn. rewrite app_nil_r. do 2 f_equal. lia.
  - change (seq a (Datatypes.S (Datatypes.S m)))
      with (a :: seq (Datatypes.S a) (Datatypes.S m)).
    cbn [map retry_loop].
    destruct (func s) as [[v | e] s'] eqn:E; rewrite (traced_eq _ _ _ _ _ _ E).
    + exists 0%nat. split; [lia |]. cbn. rewrite app_nil_r. do 2 f_equal. lia.
    + destruct (retryable_exceptions e).
      * replace (Z.of_nat a =? max_retries) with false by (symmetry; apply Z.eqb_neq; lia).
        destruct (IH (Datatypes.S a)
                     (if exponential_backoff then (delay * 2)%Q else delay) (Some e)
                     (Datatypes.S n) (log_sleep delay l) s') as (k & Hk & Hl); [lia |].
        exists (Datatypes.S k). split; [lia |].
        change (traced_sleep delay (Datatypes.S n, l, s'))
          with ((Datatypes.S n, log_sleep delay l), s').
        rewrite Hl.
        unfold log_sleep. cbn [schedule]. rewrite <- app_assoc. cbn [app].
        f_equal. lia.
      * exists 0%nat. split; [lia |]. cbn. rewrite app_nil_r. do 2 f_equal. lia.
Qed.

(** Whatever the operation does, its wrapper invokes it at least once
    and at most [max_retries + 1] times, and between two invocations it
    sleeps: first for [retry_delay], then, under exponential backoff,
    for twice the delay before (without it, for the same delay). *)
Theorem retry_file_operation_backoff_schedule {S A : Type} (retry_delay : Q)
    (exponential_backoff : bool) (retryable_exceptions : exn -> bool)
    (func : S -> outcome A * S) (max_retries : Z) (s0 : S) :
  0 <= max_retries ->
  exists k : nat,
    (k <= Z.to_nat max_retries)%nat /\
    fst (snd (retry_file_operation traced_sleep max_retries retry_delay exponential_backoff
                retryable_exceptions (traced func) ((0%nat, []), s0))) =
    (Datatypes.S k, schedule exponential_backoff retry_delay k).
Proof.
  intros Hm. unfold retry_file_operation, range.
  replace (Z.to_nat (max_retries + 1)) with (Datatypes.S (Z.to_nat max_retries)) by lia.
  destruct (retry_loop_schedule exponential_backoff retryable_exceptions func max_retries
              (Z.to_nat max_retries) 0%nat retry_delay None 0%nat [] s0) as (k & Hk & H);
    [lia |].
  exists k. split; [exact Hk | exact H].
Qed.

Lemma retry_file_operation_backoff_schedule_witness :
  exists k : nat,
    (k <= Z.to_nat 3)%nat /\
    fst (snd (retry_file_operation traced_sleep 3 (1 # 2)%Q true default_retryable
                (traced always_eio) ((0%nat, []), 0%nat))) =
    (Datatypes.S k, schedule true (1 # 2)%Q k).
Proof.
  apply (retry_file_operation_backoff_schedule (1 # 2)%Q true default_retryable always_eio 3
           0%nat).
  lia.
Defined.

Section Recovery.

Context {S A : Type}.
Variable sleep : Q -> S -> S.
Variable exponential_backoff : bool.
Variable retryable_exceptions : exn -> bool.
Variable func : S -> outcome A * S.



End Recovery.




End RetryScheduleFacts.

(** ** [save_file] and [delete_file]: what they write and when they retry *)

Module FileServiceFacts.

Import FileSanitization FileService PdfGenerationService MonadFacts GenerationFacts.
Import StorageService.

(** The tables, the upload streams, the log of the sleeps and the
    source of keys are the same in both worlds. *)
Definition quiet (w w' : World) : Prop :=
  documents w' = documents w /\ uploads w' = uploads w /\ slept w' = slept w /\
  processes w' = processes w /\ next_uuid w' = next_uuid w.

Lemma quiet_refl w : quiet w w.
Proof. repeat split. Qed.

Lemma quiet_trans w1 w2 w3 : quiet w1 w2 -> quiet w2 w3 -> quiet w1 w3.
Proof. unfold quiet. intros (-> & -> & -> & -> & ->) (-> & -> & -> & -> & ->). repeat split. Qed.

(** The directory [base / c1 / ... / cn]. *)
Definition nested (base : pystr) (components : list pystr) : pystr :=
  fold_left Fs.joinpath components base.

Lemma mkdir_one_quiet env p w r w' :
  Fs.mkdir_one env p w = (r, w') ->
  quiet w w' /\ files w' = files w /\ dirs w ⊆ dirs w' /\
  (forall x, r = Return x -> p ∈ dirs w').
Proof.
  unfold Fs.mkdir_one. destruct (storage_fault env w (OpMkdir p)).
  - intros [= <- <-].
    split; [apply quiet_refl |]. split; [reflexivity |]. split; [set_solver |].
    intros x Hx. discriminate Hx.
  - destruct (bool_decide _); intros [= <- <-].
    + split; [apply quiet_refl |]. split; [reflexivity |]. split; [set_solver |].
      intros x Hx. discriminate Hx.
    + split; [repeat split |]. split; [reflexivity |]. cbn [dirs with_dirs].
      split; [set_solver |]. intros x _. set_solver.
Qed.

Lemma mkdir_parents_quiet env base cs w r w' :
  Fs.mkdir_parents env base cs w = (r, w') ->
  quiet w w' /\ files w' = files w /\ dirs w ⊆ dirs w' /\
  (forall x, r = Return x -> nested base cs ∈ dirs w').
Proof.
  revert base w. induction cs as [| c cs IH]; intros base w; simpl; unfold bind.
  - destruct (Fs.mkdir_one env base w) as [[[] | e] w1] eqn:E;
      apply mkdir_one_quiet in E; destruct E as (Q & F & D & P).
    + unfold ret. intros [= <- <-].
      split; [exact Q |]. split; [exact F |]. split; [exact D |].
      intros x _. apply (P tt eq_refl).
    + intros [= <- <-].
      split; [exact Q |]. split; [exact F |]. split; [exact D |].
      intros x Hx. discriminate Hx.
  - destruct (Fs.mkdir_one env base w) as [[[] | e] w1] eqn:E;
      apply mkdir_one_quiet in E; destruct E as (Q & F & D & P).
    + intros H. apply IH in H. destruct H as (Q2 & F2 & D2 & P2).
      split; [eapply quiet_trans; eauto |]. split; [congruence |].
      split; [etransitivity; eassumption | exact P2].
    + intros [= <- <-].
      split; [exact Q |]. split; [exact F |]. split; [exact D |].
      intros x Hx. discriminate Hx.
Qed.

Lemma write_bytes_quiet env p data w r w' :
  Fs.write_bytes env p data w = (r, w') -> quiet w w' /\ dirs w' = dirs w.
Proof.
  unfold Fs.write_bytes. destruct (storage_fault env w (OpWrite p)).
  - intros [= <- <-]. repeat split.
  - destruct (bool_decide _); intros [= <- <-]; repeat split.
Qed.

Lemma get_process_upload_dir_inv env pn proto w r w' :
  get_process_upload_dir env pn proto w = (r, w') ->
  quiet w w' /\ files w' = files w /\
  (forall d, r = Return d ->
     d = Fs.joinpath (Fs.joinpath (UPLOAD_DIR (settings env))
                        (sanitize_filename (unicode env) pn)) proto /\
     d ∈ dirs w').
Proof.
  unfold get_process_upload_dir, get_upload_dir, bind.
  destruct (Fs.mkdir_parents env (UPLOAD_DIR (settings env)) [] w) as [[[] | e] w1] eqn:E1;
    apply mkdir_parents_quiet in E1; destruct E1 as (Q1 & F1 & D1 & P1).
  - unfold ret at 1.
    destruct (Fs.mkdir_parents env (UPLOAD_DIR (settings env)) _ w1) as [[[] | e] w2] eqn:E2;
      apply mkdir_parents_quiet in E2; destruct E2 as (Q2 & F2 & D2 & P2).
    + unfold ret. intros [= <- <-].
      split; [eapply quiet_trans; eauto |]. split; [congruence |].
      intros d [= <-]. split; [reflexivity |]. apply (P2 tt). reflexivity.
    + intros [= <- <-].
      split; [eapply quiet_trans; eauto |]. split; [congruence |]. discriminate.
  - intros [= <- <-]. split; [exact Q1 |]. split; [exact F1 |]. discriminate.
Qed.

(** *** [delete_file] *)

Lemma delete_file_result env file_path w :
  retries_ok env ->
  exists b : bool,
    delete_file env file_path w =
    (Return b, if b then with_files (delete file_path (files w)) w else w) /\
    (b = true <->
     is_Some (files w !! file_path) /\ storage_fault env w (OpUnlink file_path) = None).
Proof.
  intros Hr. unfold delete_file. rewrite RetryFacts.retry_never_raises.
  2: exact Hr.
  2: { intros s0. destruct (delete_file_body_returns env file_path s0) as (b & w' & E & _).
       eauto. }
  unfold delete_file_body, try_except, Fs.path_exists, bind, Fs.unlink, ret.
  destruct (files w !! file_path) as [data |] eqn:Ef.
  - rewrite bool_decide_eq_true_2 by eauto. cbn [orb].
    destruct (storage_fault env w (OpUnlink file_path)) as [e |].
    + exists false. split; [reflexivity |].
      split; [discriminate | intros [_ H]; discriminate].
    + exists true. split; [reflexivity |]. split; eauto.
  - rewrite bool_decide_eq_false_2 by (intros [? ?]; discriminate). cbn [orb].
    exists false.
    split; [| split; [discriminate | intros [[? H] _]; discriminate]].
    destruct (bool_decide (file_path ∈ dirs w)); [| reflexivity].
    destruct (storage_fault env w (OpUnlink file_path)); reflexivity.
Qed.

(** [delete_file] never raises and never retries: it returns [True]
    exactly when a file is at the path and the storage lets it be
    unlinked, and the file is gone; in every other case (nothing at the
    path, a directory, an error of the storage) it returns [False] and
    the world is as it was. *)
Theorem delete_file_outcome (env : Env) (file_path : pystr) (w : World) :
  retries_ok env ->
  exists b : bool,
    delete_file env file_path w =
    (Return b, if b then with_files (delete file_path (files w)) w else w) /\
    (b = true <->
     is_Some (files w !! file_path) /\ storage_fault env w (OpUnlink file_path) = None).
Proof. exact (delete_file_result env file_path w). Qed.

(** *** [save_file] *)

Lemma bind_inv {A B} (m : M A) (k : A -> M B) w r w' :
  bind m k w = (r, w') ->
  (exists a w1, m w = (Return a, w1) /\ k a w1 = (r, w')) \/
  (exists e, m w = (Raise e, w') /\ r = Raise e).
Proof.
  unfold bind. destruct (m w) as [[a | e] w1].
  - intros H. left. eauto.
  - intros [= <- <-]. right. eauto.
Qed.

(** The body of [save_file] consumes the upload and, that apart,
    touches the file system only. *)
Lemma save_file_body_quiet env file pid dt pn proto w r w' :
  save_file_body env file pid dt pn proto w = (r, w') ->
  documents w' = documents w /\ slept w' = slept w /\
  uploads w' = <[file := []]> (uploads w) /\
  processes w' = processes w /\ next_uuid w' = next_uuid w.
Proof.
  unfold save_file_body. intros H.
  apply bind_inv in H. destruct H as [(content & w1 & Hread & H) | (e & Hread & _)].
  2: { unfold read_upload in Hread. discriminate Hread. }
  unfold read_upload in Hread. injection Hread as <- <-.
  set (w1 := with_uploads (<[file := []]> (uploads w)) w) in *.
  destruct (negb (is_valid _)); [unfold raise in H; injection H as <- <-; repeat split |].
  apply bind_inv in H. destruct H as [([stored mime'] & w2 & Hsan & H) | (e & Hsan & _)].
  2: { assert (w' = w1) as ->; [| repeat split].
       revert Hsan. destruct (String.eqb _ "application/pdf").
       - unfold bind, lift. destruct (sanitize_pdf _ _); [| unfold raise; intros [= _ <-]; reflexivity].
         unfold ret at 1. destruct (negb _); unfold raise, ret; intros [= _ <-]; reflexivity.
       - destruct (str_in _ _); [| unfold raise; intros [= _ <-]; reflexivity].
         destruct (convert_image_to_pdf _ _); unfold raise, ret; intros [= _ <-]; reflexivity. }
  assert (w2 = w1) as ->.
  { revert Hsan. destruct (String.eqb _ "application/pdf").
    - unfold bind, lift. destruct (sanitize_pdf _ _); [| discriminate].
      unfold ret at 1. destruct (negb _); [discriminate |]. intros [= _ _ <-]. reflexivity.
    - destruct (str_in _ _); [| discriminate].
      destruct (convert_image_to_pdf _ _); [| discriminate]. intros [= _ _ <-]. reflexivity. }
  apply bind_inv in H. destruct H as [(doc_index & w3 & Hi & H) | (e & Hi & _)].
  2: { unfold get_document_type_index, get in Hi. discriminate Hi. }
  unfold get_document_type_index, get in Hi. injection Hi as _ <-.
  apply bind_inv in H. destruct H as [(process_dir & w4 & Hd & H) | (e & Hd & _)].
  2: { apply get_process_upload_dir_inv in Hd. destruct Hd as ((D2 & U2 & S2 & P2 & N2) & _).
       rewrite D2, U2, S2, P2, N2. repeat split. }
  apply get_process_upload_dir_inv in Hd. destruct Hd as ((D2 & U2 & S2 & P2 & N2) & _).
  apply bind_inv in H. destruct H as [([] & w5 & Hw & H) | (e & Hw & _)].
  - apply write_bytes_quiet in Hw. destruct Hw as ((D3 & U3 & S3 & P3 & N3) & _).
    unfold ret in H. injection H as _ <-.
    rewrite D3, U3, S3, P3, N3, D2, U2, S2, P2, N2. repeat split.
  - apply write_bytes_quiet in Hw. destruct Hw as ((D3 & U3 & S3 & P3 & N3) & _).
    rewrite D3, U3, S3, P3, N3, D2, U2, S2, P2, N2. repeat split.
Qed.

(** An upload that the validator rejects (for its size, because its
    type is not recognised, or because its type is not allowed) makes
    [save_file] raise [FileValidationError] with the message of the
    validator at the first attempt: the upload is read, and nothing
    else changes; no file is written, no directory is made, and there
    is no retry. *)
Theorem save_file_rejected_upload (env : Env) (file : N) (process_id : UUID)
    (document_type : DocumentType.t) (patient_name protocol_number : pystr) (w : World) :
  let raw := default [] (uploads w !! file) in
  let validation := _validate_file_content env raw (len raw) in
  retries_ok env ->
  is_valid validation = false ->
  save_file env file process_id document_type patient_name protocol_number w =
  (Raise (FileValidationError (default ""%string (error validation))),
   with_uploads (<[file := []]> (uploads w)) w).
Proof.
  intros raw validation Hr Hv. unfold save_file, retry_file_operation.
  destruct (RetryFacts.range_cons _ Hr) as [rest ->].
  apply RetryFacts.retry_loop_propagates; [| reflexivity].
  unfold save_file_body, bind, read_upload. fold raw. fold validation. rewrite Hv. reflexivity.
Qed.


(** A return of the body of [save_file]: the name and the place. *)
Lemma save_file_body_place env file pid dt pn proto w name path size mime w' :
  save_file_body env file pid dt pn proto w = (Return (name, path, size, mime), w') ->
  let index :=
    len (List.filter (fun d => (Models.process_id d =? pid)%N
                               && DocumentType.eqb (Models.document_type d) dt)
           (documents w)) + 1 in
  let dir :=
    Fs.joinpath (Fs.joinpath (UPLOAD_DIR (settings env)) (sanitize_filename (unicode env) pn))
      proto in
  name = u (DocumentType.value dt ++ "_" ++ decimal (Z.to_N index) ++ ".pdf") /\
  path = Fs.joinpath dir name /\
  dir ∈ dirs w'.
Proof.
  intros H index dir.
  pose proof (SaveFileFacts.save_file_body_return _ _ _ _ _ _ _ _ _ _ _ _ H) as (-> & _ & _).
  unfold save_file_body in H.
  apply bind_return_inv in H. destruct H as (content & w1 & Hread & H).
  unfold read_upload in Hread. injection Hread as <- <-.
  destruct (negb (is_valid _)); [discriminate |].
  apply bind_return_inv in H. destruct H as ([stored mime'] & w2 & Hsan & H).
  assert (w2 = with_uploads (<[file:=[]]> (uploads w)) w) as ->.
  { revert Hsan. destruct (String.eqb _ "application/pdf").
    - unfold bind, lift. destruct (sanitize_pdf _ _); [| discriminate].
      unfold ret at 1. destruct (negb _); [discriminate |]. intros [= _ _ <-]. reflexivity.
    - destruct (str_in _ _); [| discriminate].
      destruct (convert_image_to_pdf _ _); [| discriminate]. intros [= _ _ <-]. reflexivity. }
  apply bind_return_inv in H. destruct H as (doc_index & w3 & Hi & H).
  unfold get_document_type_index, get in Hi. injection Hi as <- <-.
  apply bind_return_inv in H. destruct H as (process_dir & w4 & Hd & H).
  apply get_process_upload_dir_inv in Hd. destruct Hd as (_ & _ & Hd).
  destruct (Hd process_dir eq_refl) as [-> Hin].
  apply bind_return_inv in H. destruct H as ([] & w5 & Hw & H).
  apply write_bytes_quiet in Hw. destruct Hw as [_ Hdirs].
  injection H as <- <- <- -> <-.
  split; [reflexivity |]. split; [reflexivity |]. rewrite Hdirs. exact Hin.
Qed.

Section RetryInvariant.

Context {S A : Type}.
Variable sleep : Q -> S -> S.
Variable exponential_backoff : bool.
Variable retryable_exceptions : exn -> bool.
Variable func : S -> outcome A * S.
Variable P : S -> Prop.

Hypothesis func_keeps : forall s r s', P s -> func s = (r, s') -> P s'.
Hypothesis sleep_keeps : forall d s, P s -> P (sleep d s).

(** What the operation and the sleeps keep holds in the state of the
    invocation that returns. *)
Lemma retry_loop_return_keeps max_retries attempts delay last s v s' :
  P s ->
  retry_loop sleep max_retries exponential_backoff retryable_exceptions func
    attempts delay last s = (Return v, s') ->
  exists s0, P s0 /\ func s0 = (Return v, s').
Proof.
  revert delay last s. induction attempts as [| attempt rest IH]; intros delay last s Hs; simpl.
  - discriminate.
  - destruct (func s) as [[v0 | e] s1] eqn:Hf.
    + intros [= <- <-]. eauto.
    + destruct (retryable_exceptions e); [| discriminate].
      destruct (attempt =? max_retries); [discriminate |].
      apply IH. eapply sleep_keeps, func_keeps; eauto.
Qed.

End RetryInvariant.

(** A return of [save_file] is a return of its body, in a state with
    the tables and the source of keys of the state of the call. *)
Lemma save_file_return_body env file pid dt pn proto w x w' :
  save_file env file pid dt pn proto w = (Return x, w') ->
  exists s0,
    (documents s0 = documents w /\ processes s0 = processes w /\
     next_uuid s0 = next_uuid w) /\
    save_file_body env file pid dt pn proto s0 = (Return x, w').
Proof.
  intros H. unfold save_file, retry_file_operation in H.
  refine (retry_loop_return_keeps Fs.sleep true default_retryable
            (save_file_body env file pid dt pn proto)
            (fun s => documents s = documents w /\ processes s = processes w /\
                      next_uuid s = next_uuid w) _ (fun d s Hs => Hs)
            _ _ _ _ _ _ _ _ H).
  - intros s r s' (Hd & Hp & Hn) Hb. apply save_file_body_quiet in Hb.
    destruct Hb as (-> & _ & _ & -> & ->). auto.
  - auto.
Qed.

(** [save_file] returns only under a retry setting that is not
    negative. *)
Lemma save_file_return_retries_ok env file pid dt pn proto w x w' :
  save_file env file pid dt pn proto w = (Return x, w') -> retries_ok env.
Proof.
  unfold save_file, retry_file_operation, range, retries_ok. intros H.
  destruct (Z.ltb_spec (STORAGE_RETRY_MAX_ATTEMPTS (settings env)) 0) as [Hneg | Hok];
    [| exact Hok].
  replace (Z.to_nat (STORAGE_RETRY_MAX_ATTEMPTS (settings env) + 1)) with 0%nat in H by lia.
  discriminate H.
Qed.

(** Whenever [save_file] returns, the stored name is the value of the
    document type, an underscore, one more than the number of documents
    of that type that the request has on record, and [.pdf]; the file
    is in the directory of the request under the upload directory,
    named after the sanitized name of the patient and the protocol
    number, and this directory exists. *)
Theorem save_file_name_and_place (env : Env) (file : N) (process_id : UUID)
    (document_type : DocumentType.t) (patient_name protocol_number : pystr)
    (w w' : World) (stored_filename file_path : pystr) (file_size : Z) (mime_type : string) :
  save_file env file process_id document_type patient_name protocol_number w =
  (Return (stored_filename, file_path, file_size, mime_type), w') ->
  let index :=
    len (List.filter (fun d => (Models.process_id d =? process_id)%N
                               && DocumentType.eqb (Models.document_type d) document_type)
           (documents w)) + 1 in
  let dir :=
    Fs.joinpath
      (Fs.joinpath (UPLOAD_DIR (settings env)) (sanitize_filename (unicode env) patient_name))
      protocol_number in
  stored_filename =
  u (DocumentType.value document_type ++ "_" ++ decimal (Z.to_N index) ++ ".pdf") /\
  file_path = Fs.joinpath dir stored_filename /\
  dir ∈ dirs w'.
Proof.
  intros H index dir.
  destruct (save_file_return_body _ _ _ _ _ _ _ _ _ H) as (s0 & (Hs0 & _) & Hb).
  apply save_file_body_place in Hb. unfold index. rewrite <- Hs0. exact Hb.
Qed.

(** *** The retry setting *)

(** What [retry_file_operation] raises when its loop ends without an
    attempt: the message tells of an unexpected error, and of no last
    exception. *)
Definition no_attempt : exn := StorageRetryableError (UnexpectedInRetry None) None.

(** With a negative [STORAGE_RETRY_MAX_ATTEMPTS] the wrapped operations
    are never invoked: [save_file], [delete_file] and
    [PDFMerger.merge_documents] raise [StorageRetryableError] and leave
    the world untouched (the upload is not even read). *)
Theorem negative_retry_setting_never_invokes (env : Env) (file : N) (process_id : UUID)
    (document_type : DocumentType.t) (patient_name protocol_number path : pystr)
    (docs : list Document) (w : World) :
  STORAGE_RETRY_MAX_ATTEMPTS (settings env) < 0 ->
  save_file env file process_id document_type patient_name protocol_number w =
  (Raise no_attempt, w) /\
  delete_file env path w = (Raise no_attempt, w) /\
  PDFMerger.merge_documents env docs path w = (Raise no_attempt, w).
Proof.
  intros H.
  unfold save_file, delete_file, PDFMerger.merge_documents, retry_file_operation, range.
  replace (Z.to_nat (STORAGE_RETRY_MAX_ATTEMPTS (settings env) + 1)) with 0%nat by lia.
  repeat split.
Qed.

End FileServiceFacts.

Module FileServiceCases.

Import FileSanitization FileService PdfGenerationService.
Import GenerationFacts FileServiceFacts.

Lemma delete_file_outcome_witness :
  exists b : bool,
    delete_file Scenario.sound (Scenario.stored "exame_1.pdf") Scenario.w0 =
    (Return b,
     if b then with_files (delete (Scenario.stored "exame_1.pdf") (files Scenario.w0)) Scenario.w0
     else Scenario.w0) /\
    (b = true <->
     is_Some (files Scenario.w0 !! Scenario.stored "exame_1.pdf") /\
     storage_fault Scenario.sound Scenario.w0 (OpUnlink (Scenario.stored "exame_1.pdf")) = None).
Proof.
  apply (delete_file_outcome Scenario.sound (Scenario.stored "exame_1.pdf") Scenario.w0).
  apply Scenario.retries_ok_default.
Defined.

(** An upload of six bytes, under a maximum of five. *)
Definition six_bytes : World :=
  with_uploads {[ 7%N := [x25; x50; x44; x46; x02; x00] ]} Toy.empty_world.

Definition tiny : Env := Toy.env Toy.tiny_settings true Toy.no_fault.

Lemma save_file_rejected_upload_witness :
  save_file tiny 7 1 DocumentType.RECEITA (u "Maria Silva") (u "2024-0001") six_bytes =
  (Raise (FileValidationError
            (default ""%string
               (error (_validate_file_content tiny (default [] (uploads six_bytes !! 7%N))
                         (len (default [] (uploads six_bytes !! 7%N))))))),
   with_uploads (<[7%N := []]> (uploads six_bytes)) six_bytes).
Proof.
  apply (save_file_rejected_upload tiny 7 1 DocumentType.RECEITA (u "Maria Silva")
           (u "2024-0001") six_bytes).
  - unfold retries_ok. simpl. lia.
  - by_evaluation.
Defined.


Lemma save_file_name_and_place_witness :
  u "receita_1.pdf" =
  u (DocumentType.value DocumentType.RECEITA ++ "_" ++
     decimal (Z.to_N
                (len (List.filter
                        (fun d => (Models.process_id d =? 1)%N
                                  && DocumentType.eqb (Models.document_type d)
                                       DocumentType.RECEITA)
                        (documents SaveFileTheorem.jpeg_upload)) + 1)) ++ ".pdf") /\
  u "./uploads/Maria_Silva/2024-0001/receita_1.pdf" =
  Fs.joinpath
    (Fs.joinpath
       (Fs.joinpath (UPLOAD_DIR (settings (Toy.env default_settings true Toy.no_fault)))
          (sanitize_filename (unicode (Toy.env default_settings true Toy.no_fault))
             (u "Maria Silva")))
       (u "2024-0001"))
    (u "receita_1.pdf") /\
  Fs.joinpath
    (Fs.joinpath (UPLOAD_DIR (settings (Toy.env default_settings true Toy.no_fault)))
       (sanitize_filename (unicode (Toy.env default_settings true Toy.no_fault))
          (u "Maria Silva")))
    (u "2024-0001") ∈ dirs (snd SaveFileTheorem.toy_save).
Proof.
  apply (save_file_name_and_place (Toy.env default_settings true Toy.no_fault) 7 1
           DocumentType.RECEITA (u "Maria Silva") (u "2024-0001") SaveFileTheorem.jpeg_upload
           (snd SaveFileTheorem.toy_save) (u "receita_1.pdf")
           (u "./uploads/Maria_Silva/2024-0001/receita_1.pdf") 5 "application/pdf"%string).
  apply MonadFacts.outcome_and_world. by_evaluation.
Defined.

(** Settings with a negative number of retries. *)
Definition no_retry_settings : Settings :=
  {| UPLOAD_DIR := u "./uploads"; MAX_FILE_SIZE := 10485760; STORAGE_RETRY_MAX_ATTEMPTS := -1;
     STORAGE_RETRY_DELAY := (1 # 2)%Q |}.

Lemma negative_retry_setting_never_invokes_witness :
  save_file (Toy.env no_retry_settings true Toy.no_fault) 7 1 DocumentType.RECEITA
    (u "Maria Silva") (u "2024-0001") SaveFileTheorem.jpeg_upload =
  (Raise no_attempt, SaveFileTheorem.jpeg_upload) /\
  delete_file (Toy.env no_retry_settings true Toy.no_fault) (u "./uploads/x.pdf")
    SaveFileTheorem.jpeg_upload =
  (Raise no_attempt, SaveFileTheorem.jpeg_upload) /\
  PDFMerger.merge_documents (Toy.env no_retry_settings true Toy.no_fault) []
    (u "./uploads/x.pdf") SaveFileTheorem.jpeg_upload =
  (Raise no_attempt, SaveFileTheorem.jpeg_upload).
Proof.
  apply (negative_retry_setting_never_invokes (Toy.env no_retry_settings true Toy.no_fault) 7 1
           DocumentType.RECEITA (u "Maria Silva") (u "2024-0001") (u "./uploads/x.pdf") []
           SaveFileTheorem.jpeg_upload).
  simpl. lia.
Defined.

End FileServiceCases.

(** ** The characters of a sanitized name, and the download of a generated PDF *)

Module SanitizeCharsFacts.

Import FileSanitization SanitizeFilenameFacts.

(** A character of a sanitized name: no white space, and a character
    of [\w] (the underscore is one), a dash or a dot. *)
Definition tidy_char (db : Unicode) (c : N) : Prop :=
  re_space db c = false /\ (re_word db c = true \/ c = 45%N \/ c = 46%N).

Lemma underscore_tidy db : tidy_char db 95.
Proof. split; [reflexivity | left; reflexivity]. Qed.

Lemma re_sub_runs_tidy db b s :
  Forall (safe_char db) s -> Forall (tidy_char db) (re_sub_runs (run_char db) b s).
Proof.
  intros H. revert b. induction H as [| c s Hc Hs IH]; intros b; simpl; [constructor |].
  destruct (run_char db c) eqn:E.
  - destruct b; [apply IH |]. constructor; [apply underscore_tidy | apply IH].
  - constructor; [| apply IH].
    unfold run_char in E. apply orb_false_iff in E. destruct E as [E95 Esp].
    split; [exact Esp |].
    destruct Hc as [Hu | ->]; [| discriminate].
    unfold unsafe_char in Hu. apply negb_false_iff in Hu. rewrite Esp in Hu.
    destruct (re_word db c); [left; reflexivity |]. simpl in Hu.
    apply orb_true_iff in Hu. destruct Hu as [Hu | Hu]; apply N.eqb_eq in Hu; auto.
Qed.

Lemma cleaned_tidy db filename : Forall (tidy_char db) (cleaned db filename).
Proof. apply strip_Forall, re_sub_runs_tidy, re_sub_class_safe. Qed.

Lemma file_tidy db : Forall (tidy_char db) (u "file").
Proof. repeat constructor. Qed.

Lemma sanitize_filename_tidy db filename :
  Forall (tidy_char db) (sanitize_filename db filename).
Proof.
  rewrite sanitize_filename_unfold.
  destruct filename; [apply file_tidy |].
  pose proof (limited_Forall _ _ (cleaned_tidy db (n :: filename))) as H.
  destruct (limited _); [apply file_tidy | exact H].
Qed.

(** Whatever the input, every character of the result of
    [sanitize_filename] is a character of [\w], a dash or a dot, and
    none is white space: no space, no control character, none of the
    characters that Windows reserves. *)
Theorem sanitize_filename_characters (db : Unicode) (filename : pystr) :
  Forall (fun c => re_space db c = false /\ (re_word db c = true \/ c = 45%N \/ c = 46%N))
    (sanitize_filename db filename) /\
  Forall (fun c => (32 < c)%N /\ ~ In c windows_dangerous /\ c <> 127%N)
    (sanitize_filename db filename).
Proof.
  split; [exact (sanitize_filename_tidy db filename) |].
  eapply Forall_impl; [apply sanitize_filename_tidy |].
  intros c [Hs Hw].
  assert ((48 <= c <= 57 \/ 65 <= c <= 90 \/ 97 <= c <= 122 \/ c = 95 \/ c = 45 \/ c = 46
           \/ 128 <= c)%N) as Hrange.
  { destruct (N.ltb_spec c 128) as [Hlt | Hge]; [| lia].
    destruct Hw as [Hw | [-> | ->]]; [| lia ..].
    unfold re_word in Hw.
    replace (c <? 128)%N with true in Hw by (symmetry; apply N.ltb_lt; lia).
    unfold ascii_alnum in Hw.
    rewrite !orb_true_iff, !andb_true_iff, !N.leb_le, N.eqb_eq in Hw. lia. }
  split; [lia |]. split; [| lia].
  unfold windows_dangerous. simpl. lia.
Qed.

(** The result of the sanitization is not empty and holds no null
    character and no path separator. *)
Lemma sanitized_name_shape db filename :
  sanitize_filename db filename <> [] /\
  Forall (fun c => c <> 0%N /\ c <> 47%N /\ c <> 92%N) (sanitize_filename db filename).
Proof.
  split.
  - rewrite sanitize_filename_unfold.
    destruct filename; [discriminate |]. destruct (limited _); discriminate.
  - eapply Forall_impl; [apply sanitize_filename_safe |].
    intros c Hc. eapply safe_char_not_forbidden, Hc.
Qed.

End SanitizeCharsFacts.

Module DownloadFacts.

Import FileSanitization FileService PdfGenerationService PdfRoutes.
Import MonadFacts SanitizeFilenameFacts SanitizeCharsFacts FileServiceFacts.

(** The directory of the generated PDFs. *)
Definition generated_dir (env : Env) : pystr :=
  Fs.joinpath (UPLOAD_DIR (settings env)) (u "generated_pdfs").

Lemma get_generated_pdfs_dir_inv env w r w' :
  get_generated_pdfs_dir env w = (r, w') ->
  files w' = files w /\ documents w' = documents w /\
  (forall d, r = Return d -> d = generated_dir env /\ d ∈ dirs w') /\
  (forall q, q ∈ dirs w' -> q ∈ dirs w \/ q = UPLOAD_DIR (settings env) \/ q = generated_dir env).
Proof.
  unfold get_generated_pdfs_dir. cbn [Fs.mkdir_parents]. unfold bind, Fs.mkdir_one.
  destruct (storage_fault env w (OpMkdir (UPLOAD_DIR (settings env)))).
  { intros [= <- <-]. split; [reflexivity |]. split; [reflexivity |].
    split; [intros d Hd; discriminate Hd | auto]. }
  destruct (bool_decide (is_Some (files w !! UPLOAD_DIR (settings env)))).
  { intros [= <- <-]. split; [reflexivity |]. split; [reflexivity |].
    split; [intros d Hd; discriminate Hd | auto]. }
  set (w1 := with_dirs _ w).
  assert (forall q, q ∈ dirs w1 -> q ∈ dirs w \/ q = UPLOAD_DIR (settings env) \/
                                   q = generated_dir env) as H1.
  { intros q. unfold w1. cbn [dirs with_dirs]. rewrite elem_of_union, elem_of_singleton.
    tauto. }
  destruct (storage_fault env w1 (OpMkdir _)).
  { intros [= <- <-]. split; [reflexivity |]. split; [reflexivity |].
    split; [intros d Hd; discriminate Hd | exact H1]. }
  destruct (bool_decide (is_Some (files w1 !! _))).
  { intros [= <- <-]. split; [reflexivity |]. split; [reflexivity |].
    split; [intros d Hd; discriminate Hd | exact H1]. }
  unfold ret. intros [= <- <-]. cbn [files dirs documents with_dirs].
  split; [reflexivity |]. split; [reflexivity |]. split.
  - intros d [= <-]. split; [reflexivity |]. unfold generated_dir.
    rewrite elem_of_union, elem_of_singleton. auto.
  - intros q. rewrite elem_of_union, elem_of_singleton. intros [-> | Hq].
    + right. right. reflexivity.
    + apply H1, Hq.
Qed.

Lemma joinpath_longer a b : b <> [] -> (length a < length (Fs.joinpath a b))%nat.
Proof.
  intros H. unfold Fs.joinpath. rewrite !length_app. simpl. lia.
Qed.

(** Whenever [download_generated_pdf] answers with a file, the file is
    directly in the directory of the generated PDFs: its name is the
    sanitized one, which holds no path separator and ends in [.pdf],
    and something is at the path. *)
Theorem download_generated_pdf_confined (env : Env) (filename : pystr) (w w' : World)
    (response : FileResponse) :
  download_generated_pdf env filename w = (Return response, w') ->
  path response = Fs.joinpath (generated_dir env) (response_filename response) /\
  response_filename response = sanitize_filename (unicode env) filename /\
  Forall (fun c => c <> 47%N /\ c <> 92%N /\ c <> 0%N) (response_filename response) /\
  endswith (response_filename response) (u ".pdf") = true /\
  Fs.path_exists w' (path response) = true.
Proof.
  unfold download_generated_pdf.
  destruct (endswith (sanitize_filename (unicode env) filename) (u ".pdf")) eqn:Hend;
    cbn [negb]; [| discriminate].
  intros H. apply bind_return_inv in H. destruct H as (d & w1 & Hd & H).
  apply get_generated_pdfs_dir_inv in Hd. destruct Hd as (_ & _ & Hd & _).
  destruct (Hd d eq_refl) as [-> _].
  unfold bind, get in H.
  destruct (Fs.file_exists w1 _) eqn:Hex; cbn [negb] in H; [| discriminate].
  injection H as <- <-. cbn [path response_filename].
  split; [reflexivity |]. split; [reflexivity |]. split; [| split; [exact Hend |]].
  - eapply Forall_impl; [apply (proj2 (sanitized_name_shape _ _)) |].
    intros c (H0 & H47 & H92). auto.
  - unfold Fs.file_exists in Hex. destruct (Fs.joinpath _ _); [discriminate | exact Hex].
Qed.

Lemma generated_name_has_space env process : In 32%N (_generate_pdf_filename env process).
Proof.
  unfold _generate_pdf_filename. apply in_or_app. right. left. reflexivity.
Qed.

(** The name under which [generate_combined_pdf] stores the combined
    PDF of a request holds a space, and [sanitize_filename] leaves no
    space: the download route never looks up a generated PDF under its
    own name. *)
Theorem generated_name_changed_by_sanitization (env : Env) (process : Repositories.LoadedProcess) :
  sanitize_filename (unicode env) (_generate_pdf_filename env process) <>
  _generate_pdf_filename env process /\
  Fs.joinpath (generated_dir env)
    (sanitize_filename (unicode env) (_generate_pdf_filename env process)) <>
  Fs.joinpath (generated_dir env) (_generate_pdf_filename env process).
Proof.
  assert (sanitize_filename (unicode env) (_generate_pdf_filename env process) <>
          _generate_pdf_filename env process) as Hne.
  { intros Heq.
    pose proof (sanitize_filename_tidy (unicode env) (_generate_pdf_filename env process)) as Ht.
    rewrite Heq in Ht. rewrite List.Forall_forall in Ht.
    destruct (Ht 32%N (generated_name_has_space env process)) as [Hs _].
    discriminate Hs. }
  split; [exact Hne |].
  unfold Fs.joinpath. intros Heq. apply app_inv_head in Heq. apply app_inv_head in Heq.
  contradiction.
Qed.

(** Asked for a generated PDF by the name it was stored under, the
    download route fails (with the status 400 or 404, or with the error
    of the storage) unless something else happens to be at the path of
    the sanitized name. *)
Theorem download_of_generated_name_fails (env : Env) (process : Repositories.LoadedProcess)
    (w : World) :
  Fs.path_exists w
    (Fs.joinpath (generated_dir env)
       (sanitize_filename (unicode env) (_generate_pdf_filename env process))) = false ->
  exists e, fst (download_generated_pdf env (_generate_pdf_filename env process) w) = Raise e.
Proof.
  intros Hno. unfold download_generated_pdf.
  set (safe := sanitize_filename (unicode env) (_generate_pdf_filename env process)) in *.
  destruct (endswith safe (u ".pdf")); cbn [negb]; [| unfold raise; eauto].
  unfold bind.
  destruct (get_generated_pdfs_dir env w) as [[d | e] w1] eqn:Hd; [| eauto].
  apply get_generated_pdfs_dir_inv in Hd. destruct Hd as (Hf & _ & Hd & Hdirs).
  destruct (Hd d eq_refl) as [-> _].
  unfold get.
  replace (Fs.file_exists w1 (Fs.joinpath (generated_dir env) safe)) with false.
  { cbn [negb]. unfold raise. eauto. }
  symmetry. unfold Fs.file_exists.
  destruct (Fs.joinpath (generated_dir env) safe) as [| c p] eqn:Hp; [reflexivity |].
  rewrite <- Hp in *. clear Hp.
  unfold Fs.path_exists in *. rewrite Hf.
  apply orb_false_iff in Hno. destruct Hno as [Hno1 Hno2]. rewrite Hno1. cbn [orb].
  apply bool_decide_eq_false. intros Hin. apply Hdirs in Hin.
  assert (safe <> []) as Hsafe by apply sanitized_name_shape.
  pose proof (joinpath_longer (generated_dir env) safe Hsafe) as Hl1.
  pose proof (joinpath_longer (UPLOAD_DIR (settings env)) (u "generated_pdfs")
                ltac:(discriminate)) as Hl2.
  fold (generated_dir env) in Hl2.
  destruct Hin as [Hin | [Heq | Heq]].
  - apply bool_decide_eq_false in Hno2. contradiction.
  - rewrite Heq in Hl1. lia.
  - rewrite Heq in Hl1. lia.
Qed.

End DownloadFacts.

(** ** The merged document, and what the generation leaves alone *)

Module MergeFacts.

Import FileSanitization FileService Repositories PdfGenerationService.
Import MonadFacts GenerationFacts EnsureFacts.

(** The pages that a document brings to the merge: those of its file,
    when the file is there and [pikepdf] opens it. *)
Definition readable_pages (env : Env) (w : World) (doc : Document) : list Object :=
  match files w !! file_path doc with
  | Some data =>
      match pdf_open (pikepdf env) data with
      | Return src_pdf => pages src_pdf
      | Raise _ => []
      end
  | None => []
  end.

Lemma append_document_pages env w combined_pdf doc :
  pages (PDFMerger.append_document env w combined_pdf doc) =
  pages combined_pdf ++ readable_pages env w doc /\
  Root (PDFMerger.append_document env w combined_pdf doc) = Root combined_pdf.
Proof.
  unfold PDFMerger.append_document, readable_pages, Fs.path_exists.
  destruct (files w !! file_path doc) as [data |].
  - rewrite bool_decide_eq_true_2 by eauto. cbn [orb negb].
    destruct (pdf_open (pikepdf env) data); cbn [pages Root];
      rewrite ?app_nil_r; auto.
  - destruct (negb _); rewrite app_nil_r; auto.
Qed.

Lemma merged_pdf_pages_from env w docs acc :
  pages (fold_left (PDFMerger.append_document env w) docs acc) =
  pages acc ++ flat_map (readable_pages env w) docs /\
  Root (fold_left (PDFMerger.append_document env w) docs acc) = Root acc.
Proof.
  revert acc. induction docs as [| d docs IH]; intros acc; simpl.
  - rewrite app_nil_r. auto.
  - destruct (IH (PDFMerger.append_document env w acc d)) as [Hp Hr].
    destruct (append_document_pages env w acc d) as [Hp1 Hr1].
    rewrite Hp, Hr, Hp1, Hr1, app_assoc. auto.
Qed.

(** [PDFMerger.merge_documents] never raises.  When it returns [True],
    the file at the output path is the saved form of a document whose
    pages are those of the source files, in the order of the list, a
    document whose file is missing or cannot be opened bringing none
    (the merge goes on without it), and no other file has changed; when
    it returns [False], nothing has changed. *)
Theorem merge_documents_pages (env : Env) (docs : list Document) (output_path : pystr)
    (w : World) :
  retries_ok env ->
  exists (b : bool) (w' : World),
    PDFMerger.merge_documents env docs output_path w = (Return b, w') /\
    (b = true ->
     exists data,
       pdf_save (pikepdf env)
         {| Root := Root pdf_new; pages := flat_map (readable_pages env w) docs |} =
       Return data /\
       files w' = <[output_path := data]> (files w) /\
       dirs w' = dirs w /\ documents w' = documents w) /\
    (b = false -> w' = w).
Proof.
  intros Hr. rewrite merge_documents_is_body by exact Hr.
  destruct (merge_documents_body_returns env docs output_path w)
    as (b & w' & E & [Hd _] & Ht & Hf).
  exists b, w'. split; [exact E |]. split; [| exact Hf].
  intros Hb. destruct (Ht Hb) as (data & Hs & Hfiles & Hdirs).
  exists data. split; [| auto].
  rewrite <- Hs. f_equal. unfold PDFMerger.merged_pdf.
  destruct (merged_pdf_pages_from env w docs pdf_new) as [Hp Hroot].
  destruct (fold_left _ docs pdf_new) as [root ps]. cbn [pages Root] in *.
  rewrite Hp, Hroot. reflexivity.
Qed.

Lemma filter_filter_same {A} (f : A -> bool) (l : list A) :
  List.filter f (List.filter f l) = List.filter f l.
Proof.
  induction l as [| a l IH]; simpl; [reflexivity |].
  destruct (f a) eqn:E; simpl; [rewrite E, IH |]; auto.
Qed.

(** The source documents of a request: the rows that are not its
    combined PDF. *)
Definition sources (process_id : UUID) (w : World) : list Document :=
  List.filter (fun d => negb (is_combined_of process_id d)) (documents w).

Lemma generate_inputs_keeps env process_id w o w1 :
  retries_ok env ->
  generate_inputs env process_id w = (Return o, w1) ->
  sources process_id w1 = sources process_id w /\ processes w1 = processes w.
Proof.
  intros Hr H. unfold generate_inputs in H.
  apply bind_return_inv in H. destruct H as (loaded & w0 & Hl & H).
  unfold get_process_with_patient_and_documents, get in Hl. injection Hl as <- <-.
  destruct (List.find _ (processes w)) as [p |] eqn:Hp.
  2: { injection H as _ <-. auto. }
  apply bind_return_inv in H. destruct H as ([] & wa & Hd & H).
  destruct (delete_old_returns env
              (List.filter
                 (fun doc => DocumentType.eqb (document_type doc) DocumentType.PDF_COMBINADO)
                 (loaded_documents
                    {| row := p;
                       loaded_documents :=
                         List.filter (fun d => (Models.process_id d =? process_id)%N)
                           (documents w) |})) w Hr) as (wa' & Hd' & Ta).
  rewrite Hd' in Hd. injection Hd as <-.
  apply bind_return_inv in H. destruct H as ([] & wb & Hdel & H).
  assert (documents wb = sources process_id w /\ processes wb = processes w) as [Db Pb].
  { destruct Ta as [Da Pa]. cbn [loaded_documents] in Hdel. unfold sources.
    destruct (List.filter _ (List.filter _ (documents w))) eqn:Ef.
    - injection Hdel as <-. rewrite filter_combined_none by exact Ef. auto.
    - unfold delete_combined_pdfs_for_process, modify in Hdel. injection Hdel as <-.
      simpl. rewrite Da. auto. }
  assert (sources process_id wb = sources process_id w) as Sb.
  { unfold sources at 1. rewrite Db. unfold sources. apply filter_filter_same. }
  destruct (PDFValidator.get_valid_documents _) as [valid |].
  2: { injection H as _ <-. auto. }
  apply bind_return_inv in H. destruct H as (dir & wc & Hg & H).
  injection H as _ <-.
  unfold get_generated_pdfs_dir in Hg.
  apply bind_return_inv in Hg. destruct Hg as ([] & wd & Hm & Hg).
  injection Hg as _ <-.
  apply mkdir_parents_inv in Hm. destruct Hm as [[Dd Pd] _].
  unfold sources in *. rewrite Dd, Pd. auto.
Qed.

Lemma generate_combined_pdf_keeps env process_id w o w' :
  retries_ok env ->
  generate_combined_pdf env process_id w = (Return o, w') ->
  sources process_id w' = sources process_id w /\ processes w' = processes w.
Proof.
  intros Hr H. destruct o as [path |].
  - apply (generate_combined_pdf_some _ _ _ _ _ Hr) in H.
    destruct H as (_ & doc & data & Hd & Hc & _ & _ & _ & Hp).
    split; [| exact Hp]. unfold sources. rewrite Hd, List.filter_app.
    rewrite filter_filter_same. simpl. rewrite Hc. simpl. apply app_nil_r.
  - unfold generate_combined_pdf in H.
    apply bind_return_inv in H. destruct H as (inputs & wi & Hi & H).
    apply (generate_inputs_keeps _ _ _ _ _ Hr) in Hi. destruct Hi as [Si Pi].
    destruct inputs as [inputs |]; [| injection H as <-; auto].
    apply bind_return_inv in H. destruct H as (merged & wm & Hm & H).
    rewrite merge_documents_is_body in Hm by exact Hr.
    destruct (merge_documents_body_returns env (mi_documents inputs) (mi_output_path inputs) wi)
      as (b & wm' & Hm' & _ & _ & Hfalse).
    rewrite Hm' in Hm. injection Hm as <- <-.
    destruct b; cbn [negb] in H.
    + apply bind_return_inv in H. destruct H as (size & ws & _ & H).
      apply bind_return_inv in H. destruct H as (doc & wc & _ & H).
      apply bind_return_inv in H. destruct H as ([] & wl & _ & H).
      discriminate H.
    + injection H as <-. rewrite (Hfalse eq_refl). auto.
Qed.

(** Whenever [ensure_combined_pdf] returns, the rows of the table that
    are not the combined PDF of the request are as they were, in their
    order, and so are the processes; and a document it returns is a
    combined PDF of the request, on record, with something at its
    path. *)
Theorem ensure_combined_pdf_keeps_sources (env : Env) (process_id : UUID) (w w' : World)
    (r : PDFEnsureResult) :
  retries_ok env ->
  ensure_combined_pdf env process_id w = (Return r, w') ->
  List.filter (fun d => negb (is_combined_of process_id d)) (documents w') =
  List.filter (fun d => negb (is_combined_of process_id d)) (documents w) /\
  processes w' = processes w /\
  (forall doc, pdf r = Some doc ->
     is_combined_of process_id doc = true /\ In doc (documents w') /\
     Fs.file_exists w' (file_path doc) = true).
Proof.
  intros Hr H. rewrite ensure_combined_pdf_unfold in H.
  assert (forall doc w1, cached process_id w1 = Some doc ->
            is_combined_of process_id doc = true /\ In doc (documents w1) /\
            Fs.file_exists w1 (file_path doc) = true) as Hcached.
  { intros doc w1. unfold cached.
    destruct (List.find _ (documents w1)) as [d |] eqn:Hfind; [| discriminate].
    destruct (Fs.file_exists w1 (file_path d)) eqn:Hex; [| discriminate].
    intros [= <-]. apply find_some in Hfind. destruct Hfind as [Hin Hc]. auto. }
  destruct (cached process_id w) as [doc0 |] eqn:Hc.
  - injection H as <- <-. split; [reflexivity |]. split; [reflexivity |].
    intros doc [= <-]. apply Hcached, Hc.
  - unfold regenerate in H.
    destruct (generate_combined_pdf env process_id w) as [[o | e] w1] eqn:Hg; [| discriminate].
    pose proof (generate_combined_pdf_keeps _ _ _ _ _ Hr Hg) as [Hs Hp].
    unfold sources in Hs.
    destruct o as [[| c path] |].
    + injection H as <- <-. split; [exact Hs |]. split; [exact Hp |]. discriminate.
    + destruct (cached_after_generation env process_id w _ w1 Hr Hg) as (doc' & Hfind & Hcd).
      rewrite Hfind in H. injection H as <- <-.
      split; [exact Hs |]. split; [exact Hp |].
      intros doc [= <-]. apply Hcached, Hcd.
    + injection H as <- <-. split; [exact Hs |]. split; [exact Hp |]. discriminate.
Qed.

End MergeFacts.

Module GenerationCases.

Import FileSanitization FileService Repositories PdfGenerationService PdfRoutes.
Import GenerationFacts EnsureFacts DownloadFacts MergeFacts SanitizePdfFacts.

(** A world with the combined PDF of the first request in place. *)
Definition generated_world : World :=
  with_files (<[Scenario.combined_path := buf x02]> (files Scenario.w0)) Scenario.w0.

(** A world with a file whose name sanitization leaves as it is. *)
Definition report_world : World :=
  with_files (<[u "./uploads/generated_pdfs/report.pdf" := buf x02]> (files Scenario.w0))
    Scenario.w0.

Definition report_response : FileResponse :=
  {| path := u "./uploads/generated_pdfs/report.pdf"; response_filename := u "report.pdf";
     media_type := "application/pdf"; content_disposition_type := "inline" |}.

Lemma download_generated_pdf_confined_witness :
  path report_response =
  Fs.joinpath (generated_dir Scenario.sound) (response_filename report_response) /\
  response_filename report_response =
  sanitize_filename (unicode Scenario.sound) (u "../report.pdf") /\
  Forall (fun c => c <> 47%N /\ c <> 92%N /\ c <> 0%N) (response_filename report_response) /\
  endswith (response_filename report_response) (u ".pdf") = true /\
  Fs.path_exists (snd (download_generated_pdf Scenario.sound (u "../report.pdf") report_world))
    (path report_response) = true.
Proof.
  apply (download_generated_pdf_confined Scenario.sound (u "../report.pdf") report_world).
  apply MonadFacts.outcome_and_world. by_evaluation.
Defined.

Lemma download_of_generated_name_fails_witness :
  exists e,
    fst (download_generated_pdf Scenario.sound
           (_generate_pdf_filename Scenario.sound (mi_process Scenario.maria_inputs))
           generated_world) = Raise e.
Proof.
  apply (download_of_generated_name_fails Scenario.sound (mi_process Scenario.maria_inputs)
           generated_world).
  by_evaluation.
Defined.

Lemma merge_documents_pages_witness :
  exists (b : bool) (w' : World),
    PDFMerger.merge_documents Scenario.sound (mi_documents Scenario.maria_inputs)
      Scenario.combined_path Scenario.w0 = (Return b, w') /\
    (b = true ->
     exists data,
       pdf_save (pikepdf Scenario.sound)
         {| Root := Root pdf_new;
            pages := flat_map (readable_pages Scenario.sound Scenario.w0)
                       (mi_documents Scenario.maria_inputs) |} =
       Return data /\
       files w' = <[Scenario.combined_path := data]> (files Scenario.w0) /\
       dirs w' = dirs Scenario.w0 /\ documents w' = documents Scenario.w0) /\
    (b = false -> w' = Scenario.w0).
Proof.
  apply (merge_documents_pages Scenario.sound (mi_documents Scenario.maria_inputs)
           Scenario.combined_path Scenario.w0).
  apply Scenario.retries_ok_default.
Defined.

Lemma ensure_combined_pdf_keeps_sources_witness :
  List.filter (fun d => negb (is_combined_of 1 d))
    (documents (snd (ensure_combined_pdf Scenario.sound 1 Scenario.w0))) =
  List.filter (fun d => negb (is_combined_of 1 d)) (documents Scenario.w0) /\
  processes (snd (ensure_combined_pdf Scenario.sound 1 Scenario.w0)) = processes Scenario.w0 /\
  (forall doc, pdf (just_generated Scenario.combined) = Some doc ->
     is_combined_of 1 doc = true /\
     In doc (documents (snd (ensure_combined_pdf Scenario.sound 1 Scenario.w0))) /\
     Fs.file_exists (snd (ensure_combined_pdf Scenario.sound 1 Scenario.w0)) (file_path doc) =
     true).
Proof.
  apply (ensure_combined_pdf_keeps_sources Scenario.sound 1 Scenario.w0
           (snd (ensure_combined_pdf Scenario.sound 1 Scenario.w0))
           (just_generated Scenario.combined)).
  - apply Scenario.retries_ok_default.
  - apply MonadFacts.outcome_and_world. by_evaluation.
Defined.

End GenerationCases.

(** ** [create_document] and [delete_document] *)

Module DocumentServiceFacts.

Import FileSanitization FileService Repositories DocumentService.
Import MonadFacts GenerationFacts FileServiceFacts SanitizeFilenameFacts.

(** The documents of a type that a request has on record. *)
Definition same_kind (process_id : UUID) (document_type : DocumentType.t) (d : Document) : bool :=
  (Models.process_id d =? process_id)%N && DocumentType.eqb (Models.document_type d) document_type.

Definition count_kind (process_id : UUID) (document_type : DocumentType.t) (w : World) : Z :=
  len (List.filter (same_kind process_id document_type) (documents w)).

(** The stored name of the [index]-th document of a type. *)
Definition stored_name (document_type : DocumentType.t) (index : Z) : pystr :=
  u (DocumentType.value document_type ++ "_" ++ decimal (Z.to_N index) ++ ".pdf").

(** The directory of the uploads of a process. *)
Definition process_dir (env : Env) (p : Process) : pystr :=
  Fs.joinpath
    (Fs.joinpath (UPLOAD_DIR (settings env))
       (sanitize_filename (unicode env) (patient_name p)))
    (protocol_number p).

(** [original_filename], as [create_document] sets it. *)
Definition safe_name (env : Env) (file : UploadFile) : pystr :=
  match filename file with
  | Some (c :: name) => sanitize_filename (unicode env) (c :: name)
  | _ => u "unknown"
  end.

(** A return of [create_document]. *)
Lemma create_document_inv env db process_id document_type file w doc w' :
  create_document env db process_id document_type file w = (Return doc, w') ->
  exists p stored,
    List.find (fun p => (proc_id p =? process_id)%N) (processes w) = Some p /\
    doc = {| doc_id := next_uuid w;
             Models.process_id := process_id;
             Models.document_type := document_type;
             original_filename := safe_name env file;
             stored_filename :=
               stored_name document_type (count_kind process_id document_type w + 1);
             file_path :=
               Fs.joinpath (process_dir env p)
                 (stored_name document_type (count_kind process_id document_type w + 1));
             file_size := len stored;
             mime_type := "application/pdf";
             validation_status := ValidationStatus.PENDING |} /\
    flush_document db doc = None /\
    documents w' = documents w ++ [doc] /\
    processes w' = processes w /\
    next_uuid w' = (next_uuid w + 1)%N /\
    files w' !! file_path doc = Some stored /\
    retries_ok env.
Proof.
  unfold create_document. intros H.
  apply bind_return_inv in H. destruct H as (found & w0 & Hfind & H).
  unfold get_process_for_update, get in Hfind. injection Hfind as <- <-.
  destruct (List.find _ (processes w)) as [p |] eqn:Hp; [| discriminate].
  apply bind_return_inv in H. destruct H as ([[[name path] size] mime] & w1 & Hsave & H).
  pose proof (save_file_return_retries_ok _ _ _ _ _ _ _ _ _ Hsave) as Hr.
  destruct (save_file_return_body _ _ _ _ _ _ _ _ _ Hsave) as (s0 & (Hd0 & Hp0 & Hn0) & Hb).
  pose proof (save_file_body_quiet _ _ _ _ _ _ _ _ _ Hb) as (Hd1 & _ & _ & Hp1 & Hn1).
  pose proof (save_file_body_place _ _ _ _ _ _ _ _ _ _ _ _ Hb) as (Hname & Hpath & _).
  pose proof (SaveFileFacts.save_file_body_return _ _ _ _ _ _ _ _ _ _ _ _ Hb)
    as (Hmime & _ & stored & Hfile & Hsize & _).
  rewrite Hd0 in Hname. fold (same_kind process_id document_type) in Hname.
  fold (count_kind process_id document_type w) in Hname.
  fold (stored_name document_type (count_kind process_id document_type w + 1)) in Hname.
  fold (process_dir env p) in Hpath.
  subst name path size mime.
  fold (safe_name env file) in H.
  rewrite Hn1, Hn0 in H.
  destruct (flush_document _) eqn:Hflush; [discriminate |].
  injection H as <- <-.
  exists p, stored. cbn [documents processes next_uuid files with_documents with_next_uuid
                          Models.file_path].
  split; [reflexivity |]. split; [reflexivity |]. split; [exact Hflush |].
  split; [rewrite Hd1, Hd0; reflexivity |]. split; [congruence |].
  split; [reflexivity |]. split; [exact Hfile | exact Hr].
Qed.

Lemma flush_document_none db d :
  flush_document db d = None ->
  check_constraints d = None /\
  (db = PostgreSQL -> len (original_filename d) <= 255 /\ len (file_path d) <= 500).
Proof.
  destruct db; cbn [flush_document].
  - destruct (255 <? len (original_filename d)) eqn:E1; [discriminate |].
    destruct (255 <? len (stored_filename d)); [discriminate |].
    destruct (500 <? len (file_path d)) eqn:E3; [discriminate |].
    destruct (2147483647 <? file_size d); [discriminate |].
    destruct (100 <? _); [discriminate |].
    intros H. apply Z.ltb_ge in E1, E3. auto.
  - intros H. split; [exact H | discriminate].
Qed.

(** Whenever [create_document] returns, the new row is the last of the
    table, pending validation, of the type [application/pdf], with the
    stored name of its rank among the documents of its type; its file
    is in the directory of the process and holds as many bytes as
    [file_size] says, between 1 and 10485760; the original name it
    records is a sanitized one; and under PostgreSQL that name has at
    most 255 characters and the path at most 500. *)
Theorem create_document_row (env : Env) (db : Dialect) (process_id : UUID)
    (document_type : DocumentType.t) (file : UploadFile) (w w' : World) (doc : Document) :
  create_document env db process_id document_type file w = (Return doc, w') ->
  documents w' = documents w ++ [doc] /\
  Models.process_id doc = process_id /\
  Models.document_type doc = document_type /\
  validation_status doc = ValidationStatus.PENDING /\
  mime_type doc = "application/pdf"%string /\
  stored_filename doc =
  stored_name document_type (count_kind process_id document_type w + 1) /\
  (exists p,
     List.find (fun p => (proc_id p =? process_id)%N) (processes w) = Some p /\
     file_path doc = Fs.joinpath (process_dir env p) (stored_filename doc)) /\
  (exists stored,
     files w' !! file_path doc = Some stored /\ file_size doc = len stored /\
     0 < len stored <= 10485760) /\
  original_filename doc <> [] /\
  Forall (fun c => c <> 0%N /\ c <> 47%N /\ c <> 92%N) (original_filename doc) /\
  (db = PostgreSQL -> len (original_filename doc) <= 255 /\ len (file_path doc) <= 500).
Proof.
  intros H. apply create_document_inv in H.
  destruct H as (p & stored & Hp & -> & Hflush & Hdocs & _ & _ & Hfile & _).
  apply flush_document_none in Hflush. destruct Hflush as [Hcheck Hlen].
  cbn [Models.process_id Models.document_type validation_status mime_type stored_filename
       file_path file_size original_filename] in *.
  unfold check_constraints in Hcheck. cbn [file_size mime_type] in Hcheck.
  destruct ((0 <? len stored) && (len stored <=? 10485760)) eqn:Hsize; [| discriminate].
  apply andb_true_iff in Hsize. destruct Hsize as [H0 H1].
  apply Z.ltb_lt in H0. apply Z.leb_le in H1.
  split; [exact Hdocs |]. do 5 (split; [reflexivity |]).
  split; [exists p; auto |]. split; [exists stored; auto |].
  assert (safe_name env file <> [] /\
          Forall (fun c => c <> 0%N /\ c <> 47%N /\ c <> 92%N) (safe_name env file))
    as [Hne Hsafe].
  { unfold safe_name. destruct (filename file) as [[| c name] |].
    - split; [discriminate | repeat constructor; discriminate].
    - apply SanitizeCharsFacts.sanitized_name_shape.
    - split; [discriminate | repeat constructor; discriminate]. }
  auto.
Qed.

Lemma delete_document_result env document w :
  retries_ok env ->
  exists b : bool,
    delete_document env document w =
    (Return true,
     with_documents
       (List.filter (fun d => negb (doc_id d =? doc_id document)%N) (documents w))
       (if b then with_files (delete (file_path document) (files w)) w else w)) /\
    (b = true <->
     is_Some (files w !! file_path document) /\
     storage_fault env w (OpUnlink (file_path document)) = None).
Proof.
  intros Hr. destruct (delete_file_result env (file_path document) w Hr) as (b & Hd & Hb).
  exists b. split; [| exact Hb].
  unfold delete_document. erewrite bind_return by exact Hd.
  unfold bind, modify, ret. destruct b; reflexivity.
Qed.

(** [delete_document] returns [True] and removes the row of the
    document whatever becomes of its file: the file is deleted when it
    is there and the storage allows it, and is left where it is
    otherwise, without a row. *)
Theorem delete_document_outcome (env : Env) (document : Document) (w : World) :
  retries_ok env ->
  exists b : bool,
    delete_document env document w =
    (Return true,
     with_documents
       (List.filter (fun d => negb (doc_id d =? doc_id document)%N) (documents w))
       (if b then with_files (delete (file_path document) (files w)) w else w)) /\
    (b = true <->
     is_Some (files w !! file_path document) /\
     storage_fault env w (OpUnlink (file_path document)) = None).
Proof. exact (delete_document_result env document w). Qed.

Lemma count_kind_app process_id document_type (l : list Document) d :
  same_kind process_id document_type d = true ->
  len (List.filter (same_kind process_id document_type) (l ++ [d])) =
  len (List.filter (same_kind process_id document_type) l) + 1.
Proof.
  intros H. rewrite List.filter_app. simpl. rewrite H. unfold len.
  rewrite length_app. simpl. lia.
Qed.

Lemma filter_other_ids (key : UUID) (l : list Document) :
  Forall (fun d => (doc_id d < key)%N) l ->
  List.filter (fun d => negb (doc_id d =? key)%N) l = l.
Proof.
  induction 1 as [| d l Hd Hl IH]; simpl; [reflexivity |].
  replace (doc_id d =? key)%N with false by (symmetry; apply N.eqb_neq; lia).
  simpl. rewrite IH. reflexivity.
Qed.

(** The stored name of a document is its rank among the documents of
    its type that are on record when it is created, so a name is used
    again after a deletion.  Two documents of a type are created for a
    request, the first is deleted, and a third is created: the third
    gets the stored name and the path of the second, whose row is still
    in the table, and the file at that path now holds the third
    upload. *)
Theorem stored_name_reused_after_delete (env : Env) (db : Dialect) (process_id : UUID)
    (document_type : DocumentType.t) (file1 file2 file3 : UploadFile)
    (w0 w1 w2 w3 w4 : World) (d1 d2 d3 : Document) (deleted : bool) :
  Forall (fun d => (doc_id d < next_uuid w0)%N) (documents w0) ->
  create_document env db process_id document_type file1 w0 = (Return d1, w1) ->
  create_document env db process_id document_type file2 w1 = (Return d2, w2) ->
  delete_document env d1 w2 = (Return deleted, w3) ->
  create_document env db process_id document_type file3 w3 = (Return d3, w4) ->
  stored_filename d3 = stored_filename d2 /\
  file_path d3 = file_path d2 /\
  doc_id d3 <> doc_id d2 /\
  documents w4 = documents w0 ++ [d2; d3] /\
  exists stored,
    files w4 !! file_path d2 = Some stored /\ file_size d3 = len stored.
Proof.
  intros Hids H1 H2 H3 H4.
  apply create_document_inv in H1.
  destruct H1 as (p1 & s1 & Hp1 & E1 & _ & D1 & P1 & N1 & _ & Hr).
  apply create_document_inv in H2.
  destruct H2 as (p2 & s2 & Hp2 & E2 & _ & D2 & P2 & N2 & _ & _).
  destruct (delete_document_result env d1 w2 Hr) as (b & Hdel & _).
  rewrite Hdel in H3. injection H3 as _ <-.
  apply create_document_inv in H4.
  destruct H4 as (p3 & s3 & Hp3 & E3 & _ & D3 & _ & _ & F3 & _).
  assert (same_kind process_id document_type d1 = true) as K1.
  { rewrite E1. unfold same_kind. cbn. rewrite N.eqb_refl.
    destruct document_type; reflexivity. }
  assert (same_kind process_id document_type d2 = true) as K2.
  { rewrite E2. unfold same_kind. cbn. rewrite N.eqb_refl.
    destruct document_type; reflexivity. }
  assert (doc_id d1 = next_uuid w0) as I1 by (rewrite E1; reflexivity).
  assert (doc_id d2 = (next_uuid w0 + 1)%N) as I2 by (rewrite E2, N1; reflexivity).
  set (w3 := with_documents _ _) in *.
  assert (documents w3 = documents w0 ++ [d2]) as D3'.
  { unfold w3. cbn [documents with_documents]. rewrite D2, D1, I1.
    rewrite !List.filter_app. rewrite filter_other_ids by exact Hids.
    simpl. rewrite I1, I2, N.eqb_refl.
    replace (next_uuid w0 + 1 =? next_uuid w0)%N with false
      by (symmetry; apply N.eqb_neq; lia).
    simpl. rewrite <- app_assoc. reflexivity. }
  assert (processes w3 = processes w0) as P3.
  { unfold w3. destruct b; cbn [processes with_documents with_files]; congruence. }
  assert (next_uuid w3 = (next_uuid w0 + 2)%N) as N3.
  { unfold w3. destruct b; cbn [next_uuid with_documents with_files]; rewrite N2, N1; lia. }
  assert (count_kind process_id document_type w3 = count_kind process_id document_type w1)
    as C3.
  { unfold count_kind. rewrite D3', D1. rewrite !count_kind_app by assumption. reflexivity. }
  assert (p3 = p2) as ->.
  { rewrite P3, <- P1 in Hp3. congruence. }
  assert (stored_filename d3 = stored_filename d2) as Hn
    by (rewrite E3, E2; cbn [stored_filename]; rewrite C3; reflexivity).
  assert (file_path d3 = file_path d2) as Hpath
    by (rewrite E3, E2; cbn [file_path]; rewrite C3; reflexivity).
  split; [exact Hn |]. split; [exact Hpath |].
  split; [rewrite I2, E3; cbn [doc_id]; rewrite N3; lia |].
  split; [rewrite D3, D3', <- app_assoc; reflexivity |].
  exists s3. rewrite <- Hpath. split; [exact F3 |]. rewrite E3. reflexivity.
Qed.

End DocumentServiceFacts.

Module DocumentServiceCases.

Import FileSanitization FileService Repositories DocumentService.
Import GenerationFacts DocumentServiceFacts.

(** The first request, without documents, and three uploads: two JPEG
    images and a PNG image. *)
Definition intake : World :=
  {| files := ∅; dirs := ∅; documents := []; processes := [Scenario.maria];
     activities := [];
     uploads := <[3%N := [x89; x50; x4e; x47; x00]]>
                  (<[2%N := [xff; xd8; xff; xe1; x00]]>
                     (<[1%N := [xff; xd8; xff; xe0; x00]]> ∅));
     slept := []; summaries := []; next_uuid := 100 |}.

Definition scan (key : N) (name : string) : UploadFile :=
  {| stream := key; filename := Some (u name) |}.

Definition receita (key : UUID) (index : string) (original : string) : Document :=
  {| doc_id := key; process_id := 1; document_type := DocumentType.RECEITA;
     original_filename := u original;
     stored_filename := u ("receita_" ++ index ++ ".pdf");
     file_path := u ("./uploads/Maria_Silva/2024-0001/receita_" ++ index ++ ".pdf");
     file_size := 5; mime_type := "application/pdf";
     validation_status := ValidationStatus.PENDING |}.

Definition step1 : outcome Document * World :=
  create_document Scenario.sound PostgreSQL 1 DocumentType.RECEITA (scan 1 "a b.jpg") intake.

Definition step2 : outcome Document * World :=
  create_document Scenario.sound PostgreSQL 1 DocumentType.RECEITA (scan 2 "c.jpg") (snd step1).

Definition step3 : outcome bool * World :=
  delete_document Scenario.sound (receita 100 "1" "a_b.jpg") (snd step2).

Definition step4 : outcome Document * World :=
  create_document Scenario.sound PostgreSQL 1 DocumentType.RECEITA (scan 3 "d.png") (snd step3).

Lemma create_document_row_witness :
  documents (snd step1) = documents intake ++ [receita 100 "1" "a_b.jpg"] /\
  Models.process_id (receita 100 "1" "a_b.jpg") = 1%N /\
  Models.document_type (receita 100 "1" "a_b.jpg") = DocumentType.RECEITA /\
  validation_status (receita 100 "1" "a_b.jpg") = ValidationStatus.PENDING /\
  mime_type (receita 100 "1" "a_b.jpg") = "application/pdf"%string /\
  stored_filename (receita 100 "1" "a_b.jpg") =
  stored_name DocumentType.RECEITA (count_kind 1 DocumentType.RECEITA intake + 1) /\
  (exists p,
     List.find (fun p => (proc_id p =? 1)%N) (processes intake) = Some p /\
     file_path (receita 100 "1" "a_b.jpg") =
     Fs.joinpath (process_dir Scenario.sound p) (stored_filename (receita 100 "1" "a_b.jpg"))) /\
  (exists stored,
     files (snd step1) !! file_path (receita 100 "1" "a_b.jpg") = Some stored /\
     file_size (receita 100 "1" "a_b.jpg") = len stored /\
     0 < len stored <= 10485760) /\
  original_filename (receita 100 "1" "a_b.jpg") <> [] /\
  Forall (fun c => c <> 0%N /\ c <> 47%N /\ c <> 92%N)
    (original_filename (receita 100 "1" "a_b.jpg")) /\
  (PostgreSQL = PostgreSQL ->
   len (original_filename (receita 100 "1" "a_b.jpg")) <= 255 /\
   len (file_path (receita 100 "1" "a_b.jpg")) <= 500).
Proof.
  apply (create_document_row Scenario.sound PostgreSQL 1 DocumentType.RECEITA (scan 1 "a b.jpg") intake
           (snd step1) (receita 100 "1" "a_b.jpg")).
  apply MonadFacts.outcome_and_world. by_evaluation.
Defined.

Lemma delete_document_outcome_witness :
  exists b : bool,
    delete_document Scenario.sound Scenario.exam Scenario.w0 =
    (Return true,
     with_documents
       (List.filter (fun d => negb (doc_id d =? doc_id Scenario.exam)%N)
          (documents Scenario.w0))
       (if b
        then with_files (delete (file_path Scenario.exam) (files Scenario.w0)) Scenario.w0
        else Scenario.w0)) /\
    (b = true <->
     is_Some (files Scenario.w0 !! file_path Scenario.exam) /\
     storage_fault Scenario.sound Scenario.w0 (OpUnlink (file_path Scenario.exam)) = None).
Proof.
  apply (delete_document_outcome Scenario.sound Scenario.exam Scenario.w0).
  apply Scenario.retries_ok_default.
Defined.

Lemma stored_name_reused_after_delete_witness :
  stored_filename (receita 102 "2" "d.png") = stored_filename (receita 101 "2" "c.jpg") /\
  file_path (receita 102 "2" "d.png") = file_path (receita 101 "2" "c.jpg") /\
  doc_id (receita 102 "2" "d.png") <> doc_id (receita 101 "2" "c.jpg") /\
  documents (snd step4) =
  documents intake ++ [receita 101 "2" "c.jpg"; receita 102 "2" "d.png"] /\
  exists stored,
    files (snd step4) !! file_path (receita 101 "2" "c.jpg") = Some stored /\
    file_size (receita 102 "2" "d.png") = len stored.
Proof.
  apply (stored_name_reused_after_delete Scenario.sound PostgreSQL 1 DocumentType.RECEITA
           (scan 1 "a b.jpg") (scan 2 "c.jpg") (scan 3 "d.png")
           intake (snd step1) (snd step2) (snd step3) (snd step4)
           (receita 100 "1" "a_b.jpg") (receita 101 "2" "c.jpg") (receita 102 "2" "d.png")
           true).
  - constructor.
  - apply MonadFacts.outcome_and_world. by_evaluation.
  - apply MonadFacts.outcome_and_world. by_evaluation.
  - apply MonadFacts.outcome_and_world. by_evaluation.
  - apply MonadFacts.outcome_and_world. by_evaluation.
Defined.

End DocumentServiceCases.

(** ** [detect_mount_type] and [StorageHealthChecker] *)

Module StorageHealthFacts.

Import StorageHealthService.

(** The mount point and the file system type that a line of
    [/proc/mounts] gives, when it has three fields at least. *)
Definition mount_entry (db : Unicode) (line : pystr) : option (pystr * pystr) :=
  match split db line with
  | _ :: mount_point :: fs_type :: _ => Some (mount_point, fs_type)
  | _ => None
  end.

(** [covers db path_str line mount_point fs_type]: the line gives this
    entry, and the text of the path starts with its mount point. *)
Definition covers (db : Unicode) (path_str line mount_point fs_type : pystr) : Prop :=
  mount_entry db line = Some (mount_point, fs_type) /\
  startswith path_str mount_point = true.

(** What the loop holds after the lines [seen]. *)
Definition best_of (db : Unicode) (path_str : pystr) (seen : list pystr)
    (best_match : option (Z * pystr)) : Prop :=
  match best_match with
  | None => forall line mount_point fs_type,
      In line seen -> ~ covers db path_str line mount_point fs_type
  | Some (best_len, best_type) =>
      exists before line after mount_point,
        seen = before ++ line :: after /\
        covers db path_str line mount_point best_type /\
        best_len = len mount_point /\
        (forall line' mount_point' fs_type',
            In line' before -> covers db path_str line' mount_point' fs_type' ->
            len mount_point' < len mount_point) /\
        (forall line' mount_point' fs_type',
            In line' after -> covers db path_str line' mount_point' fs_type' ->
            len mount_point' <= len mount_point)
  end.

Lemma scan_mount_entry db path_str best_match line :
  scan_mount db path_str best_match line =
  match mount_entry db line with
  | Some (mount_point, fs_type) =>
      if startswith path_str mount_point then
        match best_match with
        | None => Some (len mount_point, fs_type)
        | Some (best_len, _) =>
            if best_len <? len mount_point then Some (len mount_point, fs_type)
            else best_match
        end
      else best_match
  | None => best_match
  end.
Proof.
  unfold scan_mount, mount_entry.
  destruct (split db line) as [| p0 [| p1 [| p2 r]]]; reflexivity.
Qed.

Lemma best_of_step db path_str seen best_match line :
  best_of db path_str seen best_match ->
  best_of db path_str (seen ++ [line]) (scan_mount db path_str best_match line).
Proof.
  intros H. rewrite scan_mount_entry.
  destruct (mount_entry db line) as [[mp fs] |] eqn:E.
  - destruct (startswith path_str mp) eqn:Es.
    + destruct best_match as [[bl bt] |].
      * destruct H as (before & l0 & after & mp0 & -> & Hc & -> & Hb & Ha).
        destruct (len mp0 <? len mp) eqn:Elt.
        -- apply Z.ltb_lt in Elt.
           exists (before ++ l0 :: after), line, [], mp.
           split; [reflexivity |]. split; [split; assumption |]. split; [reflexivity |].
           split.
           ++ intros l' mp' fs' Hin Hc'. apply in_app_or in Hin.
              destruct Hin as [Hin | [<- | Hin]].
              ** specialize (Hb _ _ _ Hin Hc'). lia.
              ** destruct Hc as [Hc1 _], Hc' as [Hc1' _].
                 rewrite Hc1 in Hc1'. injection Hc1' as <- <-. lia.
              ** specialize (Ha _ _ _ Hin Hc'). lia.
           ++ intros l' mp' fs' [].
        -- apply Z.ltb_ge in Elt.
           exists before, l0, (after ++ [line]), mp0.
           split; [rewrite <- app_assoc; reflexivity |].
           split; [assumption |]. split; [reflexivity |].
           split; [exact Hb |].
           intros l' mp' fs' Hin Hc'. apply in_app_or in Hin.
           destruct Hin as [Hin | [<- | []]].
           ++ exact (Ha _ _ _ Hin Hc').
           ++ destruct Hc' as [Hc1' _]. rewrite E in Hc1'. injection Hc1' as <- <-. lia.
      * exists seen, line, [], mp.
        split; [reflexivity |]. split; [split; assumption |]. split; [reflexivity |].
        split.
        -- intros l' mp' fs' Hin Hc'. exfalso. exact (H _ _ _ Hin Hc').
        -- intros l' mp' fs' [].
    + destruct best_match as [[bl bt] |].
      * destruct H as (before & l0 & after & mp0 & -> & Hc & -> & Hb & Ha).
        exists before, l0, (after ++ [line]), mp0.
        split; [rewrite <- app_assoc; reflexivity |].
        split; [assumption |]. split; [reflexivity |].
        split; [exact Hb |].
        intros l' mp' fs' Hin Hc'. apply in_app_or in Hin.
        destruct Hin as [Hin | [<- | []]].
        -- exact (Ha _ _ _ Hin Hc').
        -- destruct Hc' as [Hc1' Hc2']. rewrite E in Hc1'. injection Hc1' as <- <-.
           congruence.
      * intros l' mp' fs' Hin Hc'. apply in_app_or in Hin.
        destruct Hin as [Hin | [<- | []]].
        -- exact (H _ _ _ Hin Hc').
        -- destruct Hc' as [Hc1' Hc2']. rewrite E in Hc1'. injection Hc1' as <- <-.
           congruence.
  - destruct best_match as [[bl bt] |].
    + destruct H as (before & l0 & after & mp0 & -> & Hc & -> & Hb & Ha).
      exists before, l0, (after ++ [line]), mp0.
      split; [rewrite <- app_assoc; reflexivity |].
      split; [assumption |]. split; [reflexivity |].
      split; [exact Hb |].
      intros l' mp' fs' Hin Hc'. apply in_app_or in Hin.
      destruct Hin as [Hin | [<- | []]].
      * exact (Ha _ _ _ Hin Hc').
      * destruct Hc' as [Hc1' _]. congruence.
    + intros l' mp' fs' Hin Hc'. apply in_app_or in Hin.
      destruct Hin as [Hin | [<- | []]].
      * exact (H _ _ _ Hin Hc').
      * destruct Hc' as [Hc1' _]. congruence.
Qed.

Lemma best_of_fold db path_str :
  forall rest seen best_match,
    best_of db path_str seen best_match ->
    best_of db path_str (seen ++ rest) (fold_left (scan_mount db path_str) rest best_match).
Proof.
  induction rest as [| line rest IH]; intros seen best_match H.
  - rewrite app_nil_r. exact H.
  - cbn [fold_left].
    replace (seen ++ line :: rest) with ((seen ++ [line]) ++ rest)
      by (rewrite <- app_assoc; reflexivity).
    apply IH. apply best_of_step. exact H.
Qed.

(** When the path resolves and [/proc/mounts] is read,
    [detect_mount_type] answers [local] if the text of the path starts
    with the mount point of no line; otherwise it answers the file
    system type of the first line among those whose mount point is the
    longest that the text of the path starts with.  Lines of fewer than
    three fields count for nothing. *)
Theorem detect_mount_type_longest_prefix (db : Unicode) (path_str : pystr)
    (mounts : list pystr) :
  (detect_mount_type db (Return path_str) (Return mounts) = Some (u "local") /\
   forall line mount_point fs_type,
     In line mounts -> ~ covers db path_str line mount_point fs_type)
  \/
  (exists before line after mount_point fs_type,
      detect_mount_type db (Return path_str) (Return mounts) = Some fs_type /\
      mounts = before ++ line :: after /\
      covers db path_str line mount_point fs_type /\
      (forall line' mount_point' fs_type',
          In line' before -> covers db path_str line' mount_point' fs_type' ->
          len mount_point' < len mount_point) /\
      (forall line' mount_point' fs_type',
          In line' after -> covers db path_str line' mount_point' fs_type' ->
          len mount_point' <= len mount_point)).
Proof.
  unfold detect_mount_type.
  assert (H0 : best_of db path_str [] None) by (intros l mp fs []).
  pose proof (best_of_fold db path_str mounts [] None H0) as H.
  cbn [app] in H.
  destruct (fold_left (scan_mount db path_str) mounts None) as [[bl bt] |].
  - right. destruct H as (before & line & after & mp & Hm & Hc & _ & Hb & Ha).
    exists before, line, after, mp, bt. repeat split; try assumption; apply Hc.
  - left. split; [reflexivity | exact H].
Qed.

(** The test of the mount point is on the text: a path under
    [/mnt/data2] is taken to lie on the mount [/mnt/data]. *)
Lemma startswith_is_textual :
  startswith (u "/mnt/data2/uploads") (u "/mnt/data") = true.
Proof. by_evaluation. Qed.

Section Checker.

Context {S Time : Type}.
Variable check_mount_available : pystr -> S -> (bool * option string) * S.
Variable mount_type_of : pystr -> S -> option pystr * S.
Variable get_disk_usage : pystr -> S -> (Z * Z * Z) * S.
Variable measure_io_latency : pystr -> S -> (option Q * option Q) * S.
Variable within : Time -> Time -> Z -> bool.
Variable time_zero : Time.

(** After any check the checker holds the health that the check
    returned. *)
Lemma check_holds_result self force now s health self' s' :
  check check_mount_available mount_type_of get_disk_usage measure_io_latency within
    self force now s = (health, self', s') ->
  _last_check self' = Some health /\
  storage_path self' = storage_path self /\
  check_interval self' = check_interval self.
Proof.
  unfold check, refresh.
  destruct (_last_check self) as [last |] eqn:El.
  - destruct (negb force && within now (_last_check_time self) (check_interval self)).
    + intros [= <- <- <-]. auto.
    + destruct (get_storage_health _ _ _ _ (storage_path self) s) as [h s1].
      intros [= <- <- <-]. auto.
  - destruct (get_storage_health _ _ _ _ (storage_path self) s) as [h s1].
    intros [= <- <- <-]. auto.
Qed.


End Checker.


End StorageHealthFacts.

Module StorageHealthCases.

Import StorageHealthService StorageHealthFacts.



End StorageHealthCases.

(** ** The stages of [convert_image_to_pdf] *)

Module ImageProcessingFacts.

Import FileService ImageProcessing.

Lemma validation_error_class lib e :
  exists msg, validation_error lib e = ImageValidationError msg.
Proof. destruct e; cbn; eauto. Qed.

Lemma normalization_error_class lib e :
  exists msg, normalization_error lib e = ImageConversionError msg.
Proof. destruct e; cbn; eauto. Qed.

Lemma _validate_image_returns img :
  _validate_image img = Return tt <->
  (format img = Some "JPEG"%string \/ format img = Some "PNG"%string) /\
  MIN_DIMENSION <= fst (size img) <= MAX_DIMENSION /\
  MIN_DIMENSION <= snd (size img) <= MAX_DIMENSION.
Proof.
  unfold _validate_image, ALLOWED_FORMATS, str_in.
  destruct (size img) as [width height]. cbn [fst snd existsb].
  split.
  - destruct (format img) as [f |]; cbn [negb]; [| discriminate].
    destruct (String.eqb f "JPEG") eqn:Ej.
    + apply String.eqb_eq in Ej. subst f. cbn [orb negb].
      destruct (width <? MIN_DIMENSION) eqn:E1; [discriminate |].
      destruct (height <? MIN_DIMENSION) eqn:E2; [discriminate |].
      destruct (MAX_DIMENSION <? width) eqn:E3; [discriminate |].
      destruct (MAX_DIMENSION <? height) eqn:E4; [discriminate |].
      intros _. apply Z.ltb_ge in E1, E2, E3, E4. auto.
    + destruct (String.eqb f "PNG") eqn:Ep; [| discriminate].
      apply String.eqb_eq in Ep. subst f. cbn [orb negb].
      destruct (width <? MIN_DIMENSION) eqn:E1; [discriminate |].
      destruct (height <? MIN_DIMENSION) eqn:E2; [discriminate |].
      destruct (MAX_DIMENSION <? width) eqn:E3; [discriminate |].
      destruct (MAX_DIMENSION <? height) eqn:E4; [discriminate |].
      intros _. apply Z.ltb_ge in E1, E2, E3, E4. auto.
  - intros (Hf & [H1 H2] & [H3 H4]).
    assert (E : negb (match format img with
                      | Some f => String.eqb f "JPEG" || (String.eqb f "PNG" || false)
                      | None => false
                      end) = false)
      by (destruct Hf as [-> | ->]; reflexivity).
    rewrite E.
    replace (width <? MIN_DIMENSION) with false by (symmetry; apply Z.ltb_ge; lia).
    replace (height <? MIN_DIMENSION) with false by (symmetry; apply Z.ltb_ge; lia).
    replace (MAX_DIMENSION <? width) with false by (symmetry; apply Z.ltb_ge; lia).
    replace (MAX_DIMENSION <? height) with false by (symmetry; apply Z.ltb_ge; lia).
    reflexivity.
Qed.

Lemma _validate_image_unit img r : _validate_image img = Return r -> _validate_image img = Return tt.
Proof. destruct r. auto. Qed.

Lemma validate_returns (lib : Libraries) (image_bytes : bytes) (info : ImageInfo) :
  validate lib image_bytes = Return info <->
  pil_importable lib = true /\
  exists img,
    image_open lib image_bytes = Return img /\
    (format img = Some "JPEG"%string \/ format img = Some "PNG"%string) /\
    10 <= fst (size img) <= 10000 /\
    10 <= snd (size img) <= 10000 /\
    info = {| img_format := format_str (format img); img_mode := mode img;
              img_size := size img; img_dpi := fst (_extract_metadata img);
              Models.has_transparency := snd (_extract_metadata img) |}.
Proof.
  unfold validate. split.
  - destruct (pil_importable lib); cbn [negb]; [| discriminate].
    destruct (image_open lib image_bytes) as [img | e]; [| discriminate].
    destruct (_validate_image img) as [r | e] eqn:Ev; [| discriminate].
    apply _validate_image_unit in Ev. apply _validate_image_returns in Ev.
    destruct Ev as (Hf & Hw & Hh).
    destruct (_extract_metadata img) as [dpi tr] eqn:Em.
    destruct (format img) as [fmt |] eqn:Ef.
    + intros [= <-]. split; [reflexivity |]. exists img.
      rewrite Ef, Em. cbn [fst snd format_str].
      split; [reflexivity |]. split; [exact Hf |].
      split; [exact Hw |]. split; [exact Hh |]. reflexivity.
    + destruct Hf; discriminate.
  - intros (Hp & img & Ho & Hf & Hw & Hh & ->).
    rewrite Hp, Ho. cbn [negb].
    assert (Ev : _validate_image img = Return tt)
      by (apply _validate_image_returns; auto).
    rewrite Ev.
    destruct (_extract_metadata img) as [dpi tr].
    destruct Hf as [-> | ->]; reflexivity.
Qed.

(** [validate] returns exactly for the bytes that PIL opens as a JPEG
    or a PNG image whose width and height are between 10 and 10000
    pixels, both included; what it returns is the format, the mode and
    the size of that image, with the resolution and the transparency
    that [_extract_metadata] reads.  The check of a missing format
    after the validation never fires. *)
Theorem validate_returns_iff (lib : Libraries) (image_bytes : bytes) (info : ImageInfo) :
  validate lib image_bytes = Return info <->
  pil_importable lib = true /\
  exists img,
    image_open lib image_bytes = Return img /\
    (format img = Some "JPEG"%string \/ format img = Some "PNG"%string) /\
    10 <= fst (size img) <= 10000 /\
    10 <= snd (size img) <= 10000 /\
    info = {| img_format := format_str (format img); img_mode := mode img;
              img_size := size img; img_dpi := fst (_extract_metadata img);
              Models.has_transparency := snd (_extract_metadata img) |}.
Proof. exact (validate_returns lib image_bytes info). Qed.

Lemma validate_raises lib image_bytes e :
  validate lib image_bytes = Raise e -> exists msg, e = ImageValidationError msg.
Proof.
  unfold validate.
  destruct (pil_importable lib); cbn [negb]; [| intros [= <-]; eauto].
  destruct (image_open lib image_bytes) as [img | e0];
    [| intros [= <-]; apply validation_error_class].
  destruct (_validate_image img) as [r | e0];
    [| intros [= <-]; apply validation_error_class].
  destruct (_extract_metadata img) as [dpi tr].
  destruct (format img); [discriminate |].
  intros [= <-]. cbn. eauto.
Qed.

Lemma validate_importable lib image_bytes info :
  validate lib image_bytes = Return info -> pil_importable lib = true.
Proof. intros H. apply validate_returns in H. apply H. Qed.

Lemma normalize_raises lib image_bytes info e :
  normalize lib image_bytes info = Raise e -> exists msg, e = ImageConversionError msg.
Proof.
  unfold normalize.
  destruct (pil_importable lib); cbn [negb]; [| intros [= <-]; eauto].
  destruct (image_open lib image_bytes) as [img | e0];
    [| intros [= <-]; apply normalization_error_class].
  destruct (if negb (String.eqb (mode img) "RGB") then _convert_to_rgb lib img else Return img)
    as [img' | e0]; [| intros [= <-]; apply normalization_error_class].
  destruct (image_save lib img' "PNG" None) as [out | e0];
    [discriminate | intros [= <-]; apply normalization_error_class].
Qed.

Lemma _convert_with_pil_raises lib image_bytes dpi e :
  pil_importable lib = true ->
  _convert_with_pil lib image_bytes dpi = Raise e -> exists msg, e = ImageConversionError msg.
Proof.
  unfold _convert_with_pil. intros ->. cbn [negb].
  destruct (image_open lib image_bytes) as [img | e0]; [| intros [= <-]; eauto].
  destruct (image_save lib img "PDF" (Some (fst dpi))) as [out | e0];
    [discriminate | intros [= <-]; eauto].
Qed.

Lemma convert_to_pdf_raises lib image_bytes dpi e :
  pil_importable lib = true ->
  convert_to_pdf lib image_bytes dpi = Raise e -> exists msg, e = ImageConversionError msg.
Proof.
  unfold convert_to_pdf. intros Hp.
  destruct (img2pdf_importable lib); cbn [negb];
    [| apply _convert_with_pil_raises; exact Hp].
  destruct (img2pdf_convert lib image_bytes _) as [[pdf |] | e0];
    [discriminate | |]; apply _convert_with_pil_raises; exact Hp.
Qed.

(** With the stages of this module, the pipeline raises nothing but an
    [ImageValidationError] or an [ImageConversionError], whatever PIL
    and img2pdf raise. *)
Theorem convert_image_to_pdf_raises_image_errors (env : Env) (lib : Libraries)
    (image_bytes : bytes) (e : exn) :
  imaging env = stages lib ->
  convert_image_to_pdf env image_bytes = Raise e ->
  (exists msg, e = ImageValidationError msg) \/ (exists msg, e = ImageConversionError msg).
Proof.
  unfold convert_image_to_pdf. intros ->.
  cbn [stages image_validate Models.strip_metadata image_normalize image_to_pdf].
  destruct (validate lib image_bytes) as [info | e0] eqn:Ev.
  - destruct (normalize lib _ info) as [normalized | e0] eqn:En.
    + intros H. right.
      apply (convert_to_pdf_raises lib normalized (img_dpi info) e); [| exact H].
      exact (validate_importable _ _ _ Ev).
    + intros [= <-]. right. exact (normalize_raises _ _ _ _ En).
  - intros [= <-]. left. exact (validate_raises _ _ _ Ev).
Qed.

(** In the pipeline [strip_metadata] is always told [image/jpeg] or
    [image/png], so it never meets a type it does not support; and the
    bytes that the pipeline returns are those of the converter, run on
    the normalised form of what [strip_metadata] gives, at the
    resolution read from the image. *)
Theorem convert_image_to_pdf_returns (env : Env) (lib : Libraries)
    (image_bytes pdf_bytes : bytes) :
  imaging env = stages lib ->
  convert_image_to_pdf env image_bytes = Return pdf_bytes ->
  exists info mime_type normalized,
    validate lib image_bytes = Return info /\
    mime_type = ("image/" ++ lower (img_format info))%string /\
    (mime_type = "image/jpeg"%string \/ mime_type = "image/png"%string) /\
    save_format mime_type <> None /\
    normalize lib (strip_metadata lib image_bytes mime_type) info = Return normalized /\
    convert_to_pdf lib normalized (img_dpi info) = Return pdf_bytes.
Proof.
  unfold convert_image_to_pdf. intros ->.
  cbn [stages image_validate Models.strip_metadata image_normalize image_to_pdf].
  destruct (validate lib image_bytes) as [info | e0] eqn:Ev; [| discriminate].
  destruct (normalize lib _ info) as [normalized | e0] eqn:En; [| discriminate].
  intros H. exists info, ("image/" ++ lower (img_format info))%string, normalized.
  split; [reflexivity |]. split; [reflexivity |].
  assert (Hm : ("image/" ++ lower (img_format info))%string = "image/jpeg"%string \/
               ("image/" ++ lower (img_format info))%string = "image/png"%string).
  { apply validate_returns in Ev.
    destruct Ev as (_ & img & _ & Hf & _ & _ & ->). cbn [img_format].
    destruct Hf as [-> | ->]; [left | right]; reflexivity. }
  split; [exact Hm |].
  split; [destruct Hm as [-> | ->]; discriminate |].
  split; [exact En | exact H].
Qed.

End ImageProcessingFacts.

Module ImageProcessingCases.

Import FileService ImageProcessing ImageProcessingFacts SanitizePdfFacts.

(** A photograph of 800 by 600 pixels at 72 dots per inch. *)
Definition photo : Image :=
  {| format := Some "JPEG"%string; mode := "RGB"; size := (800, 600);
     info_dpi := Some (72 # 1, [72 # 1])%Q; info_transparency := false; raster := 7%N |}.

(** Libraries that open any bytes as [photo]; img2pdf fails, and PIL
    writes the PDF. *)
Definition fallback_libraries : Libraries :=
  {| pil_importable := true;
     image_open := fun _ => Return photo;
     image_convert := fun img _ => Return img;
     image_new := fun m sz _ =>
       Return {| format := None; mode := m; size := sz; info_dpi := None;
                 info_transparency := false; raster := 0%N |};
     image_paste := fun base _ _ => Return base;
     image_split_last := fun img => Return img;
     image_flattened_data := fun _ => Return [];
     image_putdata := fun img _ => Return img;
     image_save := fun _ fmt _ =>
       if String.eqb fmt "PDF" then Return (buf x02) else Return (buf x01);
     img2pdf_importable := true;
     img2pdf_convert := fun _ _ => Raise (OtherError "ImageOpenError" "cannot read input image");
     exception_text := fun _ => "error"%string |}.

(** Libraries with which no bytes open as an image. *)
Definition blind_libraries : Libraries :=
  {| pil_importable := true;
     image_open := fun _ => Raise (OtherError "UnidentifiedImageError" "cannot identify image file");
     image_convert := fun img _ => Return img;
     image_new := fun _ _ _ => Raise (OSError "ENOMEM");
     image_paste := fun base _ _ => Return base;
     image_split_last := fun img => Return img;
     image_flattened_data := fun _ => Return [];
     image_putdata := fun img _ => Return img;
     image_save := fun _ _ _ => Raise (OSError "ENOMEM");
     img2pdf_importable := false;
     img2pdf_convert := fun _ _ => Return None;
     exception_text := fun e => match e with OtherError _ msg => msg | _ => "error"%string end |}.

Definition with_libraries (lib : Libraries) : Env :=
  {| settings := default_settings; unicode := Toy.ascii_only;
     pikepdf := toy_pikepdf true; filetype_guess := Toy.sniff;
     imaging := stages lib; storage_fault := Toy.no_fault |}.

Lemma convert_image_to_pdf_raises_image_errors_witness :
  (exists msg,
      ImageValidationError "Imagem corrompida ou inválida: cannot identify image file" =
      ImageValidationError msg) \/
  (exists msg,
      ImageValidationError "Imagem corrompida ou inválida: cannot identify image file" =
      ImageConversionError msg).
Proof.
  apply (convert_image_to_pdf_raises_image_errors (with_libraries blind_libraries)
           blind_libraries (buf x01)
           (ImageValidationError "Imagem corrompida ou inválida: cannot identify image file")).
  - reflexivity.
  - by_evaluation.
Defined.

Lemma convert_image_to_pdf_returns_witness :
  exists info mime_type normalized,
    validate fallback_libraries (buf x01) = Return info /\
    mime_type = ("image/" ++ lower (img_format info))%string /\
    (mime_type = "image/jpeg"%string \/ mime_type = "image/png"%string) /\
    save_format mime_type <> None /\
    normalize fallback_libraries (strip_metadata fallback_libraries (buf x01) mime_type) info =
    Return normalized /\
    convert_to_pdf fallback_libraries normalized (img_dpi info) = Return (buf x02).
Proof.
  apply (convert_image_to_pdf_returns (with_libraries fallback_libraries) fallback_libraries
           (buf x01) (buf x02)).
  - reflexivity.
  - by_evaluation.
Defined.

End ImageProcessingCases.
